(** * EasyBuild GitHub integration (easybuild/tools/github.py)

    A shallow embedding of the contribution synchronisation engine:
    repository cache, patch attribution, pull-request content resolver,
    working-copy publication, eligibility evaluation and the
    merge/close entry points.

    The code is effectful throughout (forge API, downloads, a local
    git working copy, the file system, printing).  It is embedded in a
    small state-and-exception monad over a [World] that holds the file
    system and the trace of interactions performed so far.  The answers
    of the outside world (forge, git, archive tools, recipe parser) are
    the fields of an [Env] record; every theorem quantifies over it.
    Logging calls ([_log.debug], [_log.info], ...) are not modelled. *)

From stdpp Require Import base gmap list strings pretty.
From Stdlib Require Import Ascii String ZArith Lia Sorted.
From Stdlib Require OrdersEx.

Open Scope string_scope.
Open Scope Z_scope.

(** ** Python string primitives used by the module *)

Module Py.

(** [s.startswith(p)] *)
Definition startswith (s p : string) : bool := String.prefix p s.

(** [s.endswith(p)] *)
Definition endswith (s p : string) : bool :=
  String.prefix (String.rev p) (String.rev s).

(** [sub in s] *)
Fixpoint contains (s sub : string) : bool :=
  String.prefix sub s ||
  match s with
  | EmptyString => false
  | String _ s' => contains s' sub
  end.

(** [s.split(sep)] for a one-character separator: never the empty list. *)
Fixpoint split (sep : ascii) (s : string) : list string :=
  match s with
  | EmptyString => [EmptyString]
  | String c s' =>
      if Ascii.eqb c sep then EmptyString :: split sep s'
      else match split sep s' with
           | [] => [String c EmptyString]
           | hd :: tl => String c hd :: tl
           end
  end.

(** [sep.join(l)] *)
Fixpoint join (sep : string) (l : list string) : string :=
  match l with
  | [] => ""
  | [x] => x
  | x :: tl => x +:+ sep +:+ join sep tl
  end.

(** [l[-3:]] *)
Definition last3 {A} (l : list A) : list A := drop (List.length l - 3)%nat l.

(** Whitespace of [str.isspace] in the ASCII range (Python 3):
    TAB..CR, FS..US and the blank. *)
Definition isspace (c : ascii) : bool :=
  let n := nat_of_ascii c in
  ((9 <=? n) && (n <=? 13) || (28 <=? n) && (n <=? 32))%nat.

(** [s.rstrip()] *)
Fixpoint rstrip (s : string) : string :=
  match s with
  | EmptyString => EmptyString
  | String c s' =>
      match rstrip s' with
      | EmptyString => if isspace c then EmptyString else String c EmptyString
      | r => String c r
      end
  end.

(** [s.split('\n')[0]] *)
Definition first_line (s : string) : string :=
  match split "010"%char s with
  | [] => EmptyString
  | l :: _ => l
  end.

(** [c.lower()] on one ASCII character. *)
Definition lower_ascii (c : ascii) : ascii :=
  let n := nat_of_ascii c in
  if ((65 <=? n) && (n <=? 90))%nat then ascii_of_nat (n + 32) else c.

(** [s.upper()] *)
Definition upper_ascii (c : ascii) : ascii :=
  let n := nat_of_ascii c in
  if ((97 <=? n) && (n <=? 122))%nat then ascii_of_nat (n - 32) else c.

Fixpoint upper (s : string) : string :=
  match s with
  | EmptyString => EmptyString
  | String c s' => String (upper_ascii c) (upper s')
  end.

(** [s.replace('T', ' at ')] *)
Fixpoint replace_T (s : string) : string :=
  match s with
  | EmptyString => EmptyString
  | String c s' =>
      if Ascii.eqb c "T"%char then " at " +:+ replace_T s'
      else String c (replace_T s')
  end.

(** [s[:-1]] *)
Fixpoint drop_last (s : string) : string :=
  match s with
  | EmptyString => EmptyString
  | String c EmptyString => EmptyString
  | String c s' => String c (drop_last s')
  end.

(** [os.path.join(a, b)] on POSIX. *)
Definition path_join (a b : string) : string :=
  if startswith b "/" then b
  else if String.eqb a "" || endswith a "/" then a +:+ b
  else a +:+ "/" +:+ b.

(** [os.path.basename(p)] on POSIX: what follows the last slash. *)
Definition basename (p : string) : string :=
  List.last (split "/"%char p) "".

(** [int(s)] for a string: optional blanks, optional sign, decimal
    digits.  [None] stands for [ValueError]. *)
Definition digit_val (c : ascii) : option Z :=
  let n := nat_of_ascii c in
  if ((48 <=? n) && (n <=? 57))%nat then Some (Z.of_nat (n - 48)) else None.

Fixpoint digits_val (acc : Z) (s : string) : option Z :=
  match s with
  | EmptyString => Some acc
  | String c s' =>
      match digit_val c with
      | Some d => digits_val (10 * acc + d) s'
      | None => None
      end
  end.

Fixpoint lstrip (s : string) : string :=
  match s with
  | String c s' => if isspace c then lstrip s' else s
  | EmptyString => EmptyString
  end.

Definition int_of_string (s : string) : option Z :=
  match rstrip (lstrip s) with
  | EmptyString => None
  | String c s' =>
      if Ascii.eqb c "-"%char then
        match s' with
        | EmptyString => None
        | _ => Z.opp <$> digits_val 0 s'
        end
      else if Ascii.eqb c "+"%char then
        match s' with
        | EmptyString => None
        | _ => digits_val 0 s'
        end
      else digits_val 0 (String c s')
  end.

End Py.

(** ** Module constants *)

Definition GITHUB_URL := "https://github.com".
Definition GITHUB_EASYCONFIGS_REPO := "easybuild-easyconfigs".
Definition GITHUB_DEVELOP_BRANCH := "develop".
Definition GITHUB_MAX_PER_PAGE : nat := 100.
Definition GITHUB_RAW := "https://raw.githubusercontent.com".
Definition GITHUB_STATE_CLOSED := "closed".
Definition HTTP_STATUS_OK : Z := 200.
Definition HTTP_STATUS_CREATED : Z := 201.
Definition URL_SEPARATOR := "/".

(** [VALID_CLOSE_PR_REASONS] *)
Definition VALID_CLOSE_PR_REASONS (reason : string) : option string :=
  if String.eqb reason "archived" then Some "uses an archived toolchain"
  else if String.eqb reason "inactive" then Some "no activity for > 6 months"
  else if String.eqb reason "obsolete" then Some "obsoleted by more recent PRs"
  else if String.eqb reason "retest" then Some "closing and reopening to trigger tests"
  else None.

(** ** Data model *)

(** One entry of the forge's branch listing: [entry['name']],
    [entry['commit']['sha']]. *)
Record Branch := { br_name : string; br_sha : string }.

(** An issue comment, as far as the module reads it. *)
Record Comment := {
  c_body : string;
  c_updated_at : string;
  c_user : string;
}.

(** A review. *)
Record Review := {
  r_state : string;
  r_user : string;
  r_submitted_at : string;
  r_body : string;
}.

(** The pull-request record the forge returns ([pr_data]).  [milestone]
    is [None] for JSON null and [Some title] otherwise. *)
Record PullData := {
  number : Z;
  state : string;
  merged : bool;
  title : string;
  user_login : string;
  updated_at : string;
  base_ref : string;
  base_repo_name : string;
  base_repo_owner : string;
  head_sha : string;
  head_label : string;
  diff_url : string;
  milestone : option string;
}.

(** The fully hydrated record: [fetch_pr_data(..., full=True)] adds the
    keys [status_last_commit], [issue_comments] and [reviews]. *)
Record PullFull := {
  pr_core : PullData;
  status_last_commit : string;
  issue_comments : list Comment;
  reviews : list Review;
}.

(** An entry of a [patches] list: a file name, or a tuple/list whose
    first element is the file name. *)
Inductive PatchEntry :=
| PatchName (fn : string)
| PatchTuple (fn : string) (rest : list string).

(** An entry of [exts_list]: a bare name, a (name, version) pair, a
    (name, version, options) triple whose options may declare patches
    ([options.get('patches', [])]), or a triple whose third element is
    not a dict. *)
Inductive ExtEntry :=
| ExtName (name : string)
| ExtPair (name version : string)
| ExtFull (name version : string) (ext_patches : list PatchEntry)
| ExtOther.

(** A parsed package recipe (easyconfig), as far as the module reads it. *)
Record EasyConfig := {
  ec_name : string;
  ec_version : string;
  ec_toolchain_name : string;
  ec_toolchain_version : string;
  ec_versionsuffix : option string;
  ec_easyblock : option string;
  ec_moduleclass : string;
  ec_patches : list PatchEntry;
  ec_exts_list : list ExtEntry;
  ec_spec : string;
}.

(** What [copy_easyconfigs] and [copy_patch_files] report. *)
Record FileInfo := {
  fi_ecs : list EasyConfig;
  fi_paths_in_repo : list string;
  fi_new : list bool;
}.

(** The categorised file lists handed to [new_pr] / [update_pr]
    ([paths['easyconfigs']], [paths['files_to_delete']],
    [paths['patch_files']]). *)
Record Paths := {
  p_easyconfigs : list string;
  p_files_to_delete : list string;
  p_patch_files : list string;
}.

(** ** Interactions with the outside world *)

(** Requests to the forge's REST API. *)
Inductive ApiCall :=
| GetBranches (account repo : string)
| GetPull (account repo : string) (pr : Z)
| GetCommitStatus (account repo sha : string)
| GetIssueComments (account repo : string) (pr : Z)
| GetPullReviews (account repo : string) (pr : Z)
| PostIssueComment (account repo : string) (issue : Z) (body : string)
| PostPullState (account repo : string) (pr : Z) (new_state : string)
| PutMerge (account repo : string) (pr : Z) (commit_message sha : string).

(** Operations of the local VCS driver (GitPython) on a working copy. *)
Inductive GitCmd :=
| GitClone (workdir repo_path : string)
| GitInit (repo_path : string)
| GitCreateRemote (name url : string)
| GitRemoteExists (name : string)
| GitFetch (remote : string)
| GitHasRef (remote branch : string)
| GitCheckoutNew (remote branch new_branch : string) (force : bool)
| GitStatus
| GitCreateHead (branch : string)
| GitIndexAdd (paths : list string)
| GitIndexRemove (paths : list string)
| GitDiff (stat : bool)
| GitCommit (msg : string)
| GitPush (remote branch : string).

(** What a git operation answers: the text of a [GitCommandError] if it
    fails, a truth value (for [exists] / [hasattr]), output text, and
    the first fetch/push info (error flag, note or summary) if any. *)
Record GitReply := mkGitReply {
  g_error : option string;
  g_flag : bool;
  g_out : string;
  g_info : option (bool * string);
}.

(** The transcript of a run: what was printed and which calls were made
    (for git, with the answer received). *)
Inductive Event :=
| EvPrint (msg : string)
| EvPrintErr (msg : string)
| EvWarn (msg : string)
| EvApi (call : ApiCall)
| EvDownload (fn url path : string)
| EvExtract (archive dest : string)
| EvApplyPatch (patch dest : string)
| EvSymlink (src dst : string)
| EvWalk (top : string)
| EvParse (path : string)
| EvCopy (paths : list string) (target_dir : string)
| EvGit (repo : string) (cmd : GitCmd) (reply : GitReply).

(** The calls that change state on the forge: comments, state changes,
    merges and pushes. *)
Definition mutating (e : Event) : bool :=
  match e with
  | EvApi (PostIssueComment _ _ _ _) => true
  | EvApi (PostPullState _ _ _ _) => true
  | EvApi (PutMerge _ _ _ _ _) => true
  | EvGit _ (GitPush _ _) _ => true
  | _ => false
  end.

(** File system: a path is absent, a regular file or a directory. *)
Inductive node := File (content : string) | Dir.

Abbreviation FS := (gmap string node).

Record World := mkWorld {
  fs : FS;
  trace : list Event;
}.

(** Exceptions: the module's own [EasyBuildError], GitPython's
    [GitCommandError], and any other Python exception. *)
Inductive Exn :=
| EasyBuildError (msg : string)
| GitCommandError (msg : string)
| PyError (kind : string).

Inductive Res (A : Type) :=
| Ok (a : A)
| Raise (e : Exn).
Arguments Ok {A} a.
Arguments Raise {A} e.

(** An HTTP reply: status code, decoded body, and the body's rendering
    as it appears in error messages. *)
Record Reply (A : Type) := mkReply {
  status : Z;
  data : A;
  shown : string;
}.
Arguments mkReply {A}.
Arguments status {A}.
Arguments data {A}.
Arguments shown {A}.

(** Process-wide configuration ([build_option]). *)
Record Config := {
  github_user : option string;
  github_org : option string;
  pr_target_account : string;
  pr_target_repo : string;
  pr_target_branch : string;
  pr_branch_name : option string;
  pr_path : option string;
  robot_path : list string;
  git_working_dirs_path : option string;
  dry_run : bool;
  extended_dry_run : bool;
  force : bool;
}.

(** The external collaborators.  An answer of the forge, of git or of a
    tool may depend on everything that happened so far (the [World]);
    those that touch the disk also return the new file system.  Reading
    the disk (listing, walking, parsing a recipe) depends on the disk
    only. *)
Record Env := {
  (* credential provider *)
  keyring_get_password : string -> World -> option string;
  (* forge REST client *)
  api_branches : string -> string -> World -> Reply (list Branch);
  api_pull : string -> string -> Z -> World -> Reply PullData;
  api_commit_status : string -> string -> string -> World -> Reply string;
  api_issue_comments : string -> string -> Z -> World -> Reply (list Comment);
  api_pull_reviews : string -> string -> Z -> World -> Reply (list Review);
  api_post : ApiCall -> World -> Reply unit;
  api_put : ApiCall -> World -> Reply (option string);
  (* file and archive utilities *)
  download_file : string -> string -> string -> World -> Res unit * FS;
  extract_file : string -> string -> World -> Res string * FS;
  apply_patch : string -> string -> World -> Res unit * FS;
  symlink : string -> string -> World -> Res unit * FS;
  det_patched_files : string -> list string;
  mkdtemp : string -> World -> string * FS;
  os_listdir : string -> FS -> option (list string);
  os_walk : string -> FS -> list (string * list string);
  glob : string -> FS -> list string;
  realpath : string -> FS -> string;
  (* package-recipe reader *)
  get_config_dict : string -> FS -> Res EasyConfig;
  process_easyconfig : string -> FS -> Res (list EasyConfig);
  copy_easyconfigs : list string -> string -> World -> Res FileInfo * FS;
  copy_patch_files : list (string * string) -> string -> World -> Res FileInfo * FS;
  (* local VCS driver *)
  git : string -> GitCmd -> World -> GitReply * FS;
  (* clock and randomness *)
  random_letters : nat -> World -> string;
  strftime_now : World -> string;
  now : World -> Z;
  strptime : string -> option Z;
}.

(** [EASYCONFIGS_ARCHIVE_DIR], imported from
    easybuild.framework.easyconfig.easyconfig. *)
Definition EASYCONFIGS_ARCHIVE_DIR := "__archive__".

(** ** The monad *)

Definition M (A : Type) : Type := World -> Res A * World.

Definition ret {A} (a : A) : M A := fun w => (Ok a, w).

Definition bind {A B} (m : M A) (k : A -> M B) : M B :=
  fun w =>
    match m w with
    | (Ok a, w') => k a w'
    | (Raise e, w') => (Raise e, w')
    end.

Definition raise {A} (e : Exn) : M A := fun w => (Raise e, w).

Notation "x <- m ;; k" := (bind m (fun x => k))
  (at level 100, m at next level, right associativity).
Notation "m ;;; k" := (bind m (fun _ => k))
  (at level 100, right associativity).

(** [try: m except EasyBuildError as err: h err] *)
Definition try_except_EasyBuildError {A} (m : M A) (h : string -> M A) : M A :=
  fun w =>
    match m w with
    | (Raise (EasyBuildError msg), w') => h msg w'
    | r => r
    end.

Definition emit (e : Event) : M unit :=
  fun w => (Ok tt, mkWorld (fs w) (trace w ++ [e])%list).

(** Ask the outside world a question that leaves the disk alone. *)
Definition ask {A} (q : World -> A) : M A := fun w => (Ok (q w), w).

(** Read something off the disk. *)
Definition look {A} (q : FS -> A) : M A := fun w => (Ok (q (fs w)), w).

(** [try: m except GitCommandError as err: h err] *)
Definition try_except_GitCommandError {A} (m : M A) (h : string -> M A) : M A :=
  fun w =>
    match m w with
    | (Raise (GitCommandError msg), w') => h msg w'
    | r => r
    end.

(** Python truthiness of a string and [str(x)] of an optional one. *)
Definition truthy (s : string) : bool := negb (String.eqb s "").

Definition str_opt (o : option string) : string :=
  match o with
  | Some s => s
  | None => "None"
  end.

(** [a or b] on optional strings. *)
Definition py_or (a b : option string) : option string :=
  match a with
  | Some s => if truthy s then a else b
  | None => b
  end.

(** Run an external tool that may fail and may change the disk. *)
Definition tool {A} (q : World -> Res A * FS) (e : Event) : M A :=
  fun w =>
    let '(r, fs') := q w in
    (r, mkWorld fs' (trace w ++ [e])%list).

Definition print_msg (msg : string) : M unit := emit (EvPrint msg).
Definition print_warning (msg : string) : M unit := emit (EvWarn msg).

(** A [for] loop whose body may raise. *)
Fixpoint for_each {A} (l : list A) (body : A -> M unit) : M unit :=
  match l with
  | [] => ret tt
  | x :: tl => body x ;;; for_each tl body
  end.

(** A list comprehension / accumulating loop whose body may raise. *)
Fixpoint map_m {A B} (body : A -> M B) (l : list A) : M (list B) :=
  match l with
  | [] => ret []
  | x :: tl => y <- body x ;; ys <- map_m body tl ;; ret (y :: ys)
  end.

(** ** File primitives *)

(** [os.path.exists] *)
Definition os_path_exists (p : string) : M bool :=
  fun w => (Ok (bool_decide (is_Some (fs w !! p))), w).

(** [os.path.isdir] *)
Definition os_path_isdir (p : string) : M bool :=
  fun w => (Ok (match fs w !! p with Some Dir => true | _ => false end), w).

(** Modelled from the spec: [read_file] of easybuild.tools.filetools
    (a read primitive): the text of a regular file, [EasyBuildError]
    for anything else. *)
Definition read_file (p : string) : M string :=
  fun w =>
    match fs w !! p with
    | Some (File txt) => (Ok txt, w)
    | _ => (Raise (EasyBuildError ("Failed to read " +:+ p)), w)
    end.

(** Modelled from the spec: [write_file(path, txt, forced=True)] of
    easybuild.tools.filetools (a write primitive): afterwards the path
    is a regular file with that text. *)
Definition write_file (p txt : string) : M unit :=
  fun w => (Ok tt, mkWorld (<[p := File txt]> (fs w)) (trace w)).

(** Modelled from the spec: [mkdir(path, parents=True)] of
    easybuild.tools.filetools: nothing happens when the path exists,
    otherwise it becomes a directory. *)
Definition mkdir (p : string) : M unit :=
  fun w =>
    match fs w !! p with
    | Some _ => (Ok tt, w)
    | None => (Ok tt, mkWorld (<[p := Dir]> (fs w)) (trace w))
    end.

(** ** Pure parts *)

(** [is_patch_for]: the record's own patches, then those its extensions
    declare; a tuple or list entry counts by its first element. *)
Definition patch_file_name (patch : PatchEntry) : string :=
  match patch with
  | PatchName fn => fn
  | PatchTuple fn _ => fn
  end.

Definition ext_declared_patches (ext : ExtEntry) : list PatchEntry :=
  match ext with
  | ExtFull _ _ ext_patches => ext_patches
  | _ => []
  end.

Definition is_patch_for (patch_name : string) (ec : EasyConfig) : bool :=
  let patches := (ec_patches ec
                  ++ flat_map ext_declared_patches (ec_exts_list ec))%list in
  existsb (fun patch => String.eqb (patch_file_name patch) patch_name) patches.

(** [re.compile(r"^Test report by @\S+").search(comment)]: without
    [re.MULTILINE] the pattern matches at the very start only. *)
Definition test_report_regex_search (comment : string) : bool :=
  let header := "Test report by @" in
  Py.startswith comment header &&
  match String.get (String.length header) comment with
  | Some c => negb (Py.isspace c)
  | None => false
  end.

(** [re.sub('[.-]', '', s)] *)
Fixpoint remove_dots_dashes (s : string) : string :=
  match s with
  | EmptyString => EmptyString
  | String c s' =>
      if Ascii.eqb c "."%char || Ascii.eqb c "-"%char
      then remove_dots_dashes s'
      else String c (remove_dots_dashes s')
  end.

(** [sorted(set(...))] of strings, kept as a strictly increasing list. *)
Fixpoint set_add (x : string) (l : list string) : list string :=
  match l with
  | [] => [x]
  | y :: tl =>
      if String.eqb x y then l
      else if String.ltb x y then x :: l
      else y :: set_add x tl
  end.

(** distutils' [LooseVersion]. *)
Module LooseVersion.

Inductive component :=
| CInt (n : Z)
| CStr (s : string).

Inductive cclass := KDigit | KLower | KDot | KOther.

Definition classify (c : ascii) : cclass :=
  let n := nat_of_ascii c in
  if ((48 <=? n) && (n <=? 57))%nat then KDigit
  else if ((97 <=? n) && (n <=? 122))%nat then KLower
  else if Ascii.eqb c "."%char then KDot
  else KOther.

Definition same_run (k1 k2 : cclass) : bool :=
  match k1, k2 with
  | KDigit, KDigit | KLower, KLower | KOther, KOther => true
  | _, _ => false
  end.

(** [component_re.split(vstring)]: runs of digits, runs of lower-case
    letters, single dots, and what lies between them. *)
Fixpoint runs (s : string) : list (cclass * string) :=
  match s with
  | EmptyString => []
  | String c s' =>
      match runs s' with
      | (k, r) :: tl =>
          if same_run (classify c) k then (k, String c r) :: tl
          else (classify c, String c EmptyString) :: (k, r) :: tl
      | [] => [(classify c, String c EmptyString)]
      end
  end.

(** [parse]: dots are dropped, digit runs become ints. *)
Definition parse (vstring : string) : list component :=
  flat_map (fun '(k, r) =>
    match k with
    | KDot => []
    | KDigit => match Py.digits_val 0 r with
                | Some n => [CInt n]
                | None => [CStr r]
                end
    | _ => [CStr r]
    end) (runs vstring).

Definition comp_eqb (a b : component) : bool :=
  match a, b with
  | CInt x, CInt y => (x =? y)%Z
  | CStr x, CStr y => String.eqb x y
  | _, _ => false
  end.

(** [a > b] on components; [None] is Python 3's [TypeError] for an int
    against a string. *)
Definition comp_gtb (a b : component) : option bool :=
  match a, b with
  | CInt x, CInt y => Some (y <? x)%Z
  | CStr x, CStr y => Some (String.ltb y x)
  | _, _ => None
  end.

(** [l1 > l2] on lists: decided at the first position where they
    differ, otherwise by length. *)
Fixpoint list_gt (l1 l2 : list component) : option bool :=
  match l1, l2 with
  | [], _ => Some false
  | _ :: _, [] => Some true
  | a :: l1', b :: l2' =>
      if comp_eqb a b then list_gt l1' l2' else comp_gtb a b
  end.

(** [LooseVersion(v1) > LooseVersion(v2)] *)
Definition gt (v1 v2 : string) : option bool := list_gt (parse v1) (parse v2).

End LooseVersion.

(** Lines 1121-1127 of [reasons_for_closing]: the reasons drawn from
    what the scan collected. *)
Definition archived_and_obsolete (pr_title : string)
    (uses_archived_tc obsoleted : list EasyConfig) : list string :=
  ((match uses_archived_tc with [] => [] | _ :: _ => ["archived"] end)
   ++ (if existsb (fun e => Py.contains pr_title (ec_name e)) obsoleted
       then ["obsolete"] else []))%list.


Section Code.

Context (env : Env) (cfg : Config).

(** [build_option('dry_run') or build_option('extended_dry_run')] *)
Definition dry_run_mode : bool := dry_run cfg || extended_dry_run cfg.

(** [tempfile.mkdtemp(prefix=...)] *)
Definition tempfile_mkdtemp (prefix : string) : M string :=
  fun w =>
    let '(p, fs') := mkdtemp env prefix w in
    (Ok p, mkWorld fs' (trace w)).

(** [fetch_github_token]: no user, no token; otherwise what the keyring
    holds (an unavailable keyring holds nothing). *)
Definition fetch_github_token (user : option string) : M (option string) :=
  match user with
  | None => ret None
  | Some u => ask (keyring_get_password env u)
  end.

(** [github_api_get_request]: resolve user and token, perform the GET.
    A [socket.gaierror] is a reply with status 0. *)
Definition github_api_get_request {A} (call : ApiCall)
    (get : World -> Reply A) (user : option string) : M (Reply A) :=
  let user := match user with None => github_user cfg | Some u => Some u end in
  _token <- fetch_github_token user ;;
  r <- ask get ;;
  emit (EvApi call) ;;;
  ret r.

(** [fetch_latest_commit_sha] *)
Definition fetch_latest_commit_sha (repo account branch : string)
    (user : option string) : M string :=
  r <- github_api_get_request (GetBranches account repo)
         (api_branches env account repo) user ;;
  if negb (status r =? HTTP_STATUS_OK) then
    raise (EasyBuildError
      ("Failed to get latest commit sha for branch " +:+ branch +:+ " from "
       +:+ account +:+ "/" +:+ repo +:+ " (status: " +:+ pretty (status r)
       +:+ " " +:+ shown r +:+ ")"))
  else
    match List.find (fun e => String.eqb (br_name e) branch) (data r) with
    | Some e => ret (br_sha e)
    | None =>
        let error_msg :=
          "No branch with name " +:+ branch +:+ " found in repo "
          +:+ account +:+ "/" +:+ repo in
        let error_msg :=
          if (GITHUB_MAX_PER_PAGE <=? List.length (data r))%nat then
            error_msg +:+ "; only " +:+ pretty (List.length (data r))
            +:+ " branches were checked (too many branches in "
            +:+ account +:+ "/" +:+ repo +:+ "?)"
          else error_msg in
        raise (EasyBuildError
          (error_msg +:+ ": " +:+ Py.join ", " (br_name <$> data r)))
    end.

(** [download_repo] *)
Definition download_repo (repo branch account : string)
    (path : option string) (user : option string) : M string :=
  path <- match path with
          | None => tempfile_mkdtemp ""
          | Some p => ret p
          end ;;
  let path := Py.path_join path account in
  mkdir path ;;;
  let extracted_dir_name := repo +:+ "-" +:+ branch in
  let base_name := branch +:+ ".tar.gz" in
  latest_commit_sha <- fetch_latest_commit_sha repo account branch user ;;
  let expected_path := Py.path_join path extracted_dir_name in
  let latest_sha_path := Py.path_join expected_path "latest-sha" in
  let download :=
    let url := Py.join URL_SEPARATOR
                 [GITHUB_URL; account; repo; "archive"; base_name] in
    let target_path := Py.path_join path base_name in
    tool (download_file env base_name url target_path)
         (EvDownload base_name url target_path) ;;;
    dir <- tool (extract_file env target_path path)
                (EvExtract target_path path) ;;
    let extracted_path := Py.path_join dir extracted_dir_name in
    isdir <- os_path_isdir extracted_path ;;
    if negb isdir then
      raise (EasyBuildError
        (extracted_path +:+ " should exist and contain the repo " +:+ repo
         +:+ " at branch " +:+ branch))
    else
      write_file latest_sha_path latest_commit_sha ;;;
      ret extracted_path
  in
  present <- os_path_exists latest_sha_path ;;
  if present then
    txt <- read_file latest_sha_path ;;
    let sha := Py.rstrip (Py.first_line txt) in
    if String.eqb latest_commit_sha sha then ret expected_path
    else download
  else download.


(** [fetch_pr_data(pr, ..., full=False)] for a given PR number. *)
Definition fetch_pr_data (pr : Z) (account repo : string)
    (user : option string) : M PullData :=
  r <- github_api_get_request (GetPull account repo pr)
         (api_pull env account repo pr) user ;;
  if negb (status r =? HTTP_STATUS_OK) then
    raise (EasyBuildError
      ("Failed to get data for PR #" +:+ pretty pr +:+ " from " +:+ account
       +:+ "/" +:+ repo +:+ " (status: " +:+ pretty (status r) +:+ " "
       +:+ shown r +:+ ")"))
  else ret (data r).

(** [fetch_pr_data(pr, ..., full=True)]: the record, then the status of
    the last commit, the comments and the reviews. *)
Definition fetch_pr_data_full (pr : Z) (account repo : string)
    (user : option string) : M PullFull :=
  pr_data <- fetch_pr_data pr account repo user ;;
  r1 <- github_api_get_request (GetCommitStatus account repo (head_sha pr_data))
          (api_commit_status env account repo (head_sha pr_data)) user ;;
  if negb (status r1 =? HTTP_STATUS_OK) then
    raise (EasyBuildError
      ("Failed to get status of last commit for PR #" +:+ pretty pr
       +:+ " from " +:+ account +:+ "/" +:+ repo +:+ " (status: "
       +:+ pretty (status r1) +:+ " " +:+ shown r1 +:+ ")"))
  else
  r2 <- github_api_get_request (GetIssueComments account repo pr)
          (api_issue_comments env account repo pr) user ;;
  if negb (status r2 =? HTTP_STATUS_OK) then
    raise (EasyBuildError
      ("Failed to get comments for PR #" +:+ pretty pr
       +:+ " from " +:+ account +:+ "/" +:+ repo +:+ " (status: "
       +:+ pretty (status r2) +:+ " " +:+ shown r2 +:+ ")"))
  else
  r3 <- github_api_get_request (GetPullReviews account repo pr)
          (api_pull_reviews env account repo pr) user ;;
  if negb (status r3 =? HTTP_STATUS_OK) then
    raise (EasyBuildError
      ("Failed to get reviews for PR #" +:+ pretty pr
       +:+ " from " +:+ account +:+ "/" +:+ repo +:+ " (status: "
       +:+ pretty (status r3) +:+ " " +:+ shown r3 +:+ ")"))
  else
  ret {| pr_core := pr_data; status_last_commit := data r1;
         issue_comments := data r2; reviews := data r3 |}.

(** *** PR content resolver *)

(** [os.path.sep.join(patched_file.split(os.path.sep)[-3:])] *)
Definition last3_path (patched_file : string) : string :=
  Py.join "/" (Py.last3 (Py.split "/"%char patched_file)).

(** Lines 433-440 of [fetch_easyconfigs_from_pr]: obtain the most recent
    version of each patched file at the PR's head commit. *)
Definition download_patched_files (pr_data : PullData)
    (github_account github_repo path : string)
    (patched_files : list string) : M unit :=
  for_each patched_files (fun patched_file =>
    let fn := last3_path patched_file in
    let sha := head_sha pr_data in
    let full_url := Py.join URL_SEPARATOR
          [GITHUB_RAW; github_account; github_repo; sha; patched_file] in
    tool (download_file env fn full_url (Py.path_join path fn))
         (EvDownload fn full_url (Py.path_join path fn))).

(** Lines 411-442 of [fetch_easyconfigs_from_pr]: decide where the
    files come from; the value is [final_path]. *)
Definition pr_final_path (pr : Z) (pr_data : PullData)
    (github_account github_repo path repo_target_branch diff_filepath : string)
    (patched_files : list string) : M string :=
  let pr_merged := merged pr_data in
  let pr_closed := String.eqb (state pr_data) GITHUB_STATE_CLOSED
                   && negb pr_merged in
  final_path <-
    (if pr_merged then ret (Some repo_target_branch)
     else if negb pr_closed then
       try_except_EasyBuildError
         (tool (apply_patch env diff_filepath repo_target_branch)
               (EvApplyPatch diff_filepath repo_target_branch) ;;;
          ret (Some repo_target_branch))
         (fun _err => ret None)
     else ret None) ;;
  match final_path with
  | Some p => ret p
  | None =>
      (if pr_closed
       then print_warning ("Using easyconfigs from closed PR #" +:+ pretty pr)
       else ret tt) ;;;
      download_patched_files pr_data github_account github_repo path
        patched_files ;;;
      ret path
  end.

(** Lines 450-460 of [fetch_easyconfigs_from_pr]: the sanity check. *)
Fixpoint check_patched_files (path : string) (files : list string)
    : M (list string) :=
  match files with
  | [] => ret []
  | patched_file :: rest =>
      let fn := last3_path patched_file in
      let full_path := Py.path_join path fn in
      present <- os_path_exists full_path ;;
      if present then
        ec_files <- check_patched_files path rest ;;
        ret (full_path :: ec_files)
      else
        raise (EasyBuildError
          ("Couldn't find path to patched file " +:+ full_path))
  end.

(** Lines 444-448 of [fetch_easyconfigs_from_pr]: symlink the
    directories of a full checkout into the expected place. *)
Definition link_easyconfig_dirs (final_path path : string) : M unit :=
  if negb (String.eqb final_path path) then
    let dirpath :=
      Py.path_join (Py.path_join final_path "easybuild") "easyconfigs" in
    entries <- look (os_listdir env dirpath) ;;
    match entries with
    | None => raise (PyError "OSError")
    | Some entries =>
        for_each entries (fun eb_dir =>
          tool (symlink env (Py.path_join dirpath eb_dir)
                        (Py.path_join path (Py.basename eb_dir)))
               (EvSymlink (Py.path_join dirpath eb_dir)
                          (Py.path_join path (Py.basename eb_dir))))
    end
  else ret tt.

(** Lines 374-448 of [fetch_easyconfigs_from_pr]: rebuild the tree of
    the PR; the value is the destination [path] and the files the diff
    names ([patched_files]). *)
Definition pr_tree (pr : Z) (path : option string) (user : option string)
    : M (string * list string) :=
  let user := match user with None => github_user cfg | Some u => Some u end in
  let path := match path with None => pr_path cfg | Some p => Some p end in
  path <- match path with
          | None => tempfile_mkdtemp ""
          | Some p => mkdir p ;;; ret p
          end ;;
  let github_account := pr_target_account cfg in
  let github_repo := GITHUB_EASYCONFIGS_REPO in
  pr_data <- fetch_pr_data pr github_account github_repo user ;;
  let pr_target_branch := base_ref pr_data in
  repo_target_branch <-
    download_repo github_repo pr_target_branch github_account None user ;;
  let diff_fn := Py.basename (diff_url pr_data) in
  let diff_filepath := Py.path_join path diff_fn in
  tool (download_file env diff_fn (diff_url pr_data) diff_filepath)
       (EvDownload diff_fn (diff_url pr_data) diff_filepath) ;;;
  diff_txt <- read_file diff_filepath ;;
  let patched_files := det_patched_files env diff_txt in
  final_path <- pr_final_path pr pr_data github_account github_repo path
                  repo_target_branch diff_filepath patched_files ;;
  link_easyconfig_dirs final_path path ;;;
  ret (path, patched_files).

(** [f for f in patched_files if not f.startswith('test/')] *)
Definition non_test_files (patched_files : list string) : list string :=
  List.filter (fun f => negb (Py.startswith f "test/")) patched_files.

(** [fetch_easyconfigs_from_pr] *)
Definition fetch_easyconfigs_from_pr (pr : Z) (path : option string)
    (user : option string) : M (list string) :=
  tree <- pr_tree pr path user ;;
  let '(path, patched_files) := tree in
  check_patched_files path (non_test_files patched_files).

(** *** Comments *)

(** A PR or issue number as the caller gives it: an int, or text still
    to be parsed. *)
Inductive IssueRef :=
| IssueInt (n : Z)
| IssueStr (s : string).

(** [post_comment_in_issue] *)
Definition post_comment_in_issue (issue : IssueRef) (txt account repo : string)
    (user : option string) : M unit :=
  issue <- match issue with
           | IssueInt n => ret n
           | IssueStr s =>
               match Py.int_of_string s with
               | Some n => ret n
               | None =>
                   raise (EasyBuildError
                     ("Failed to parse specified pull request number '"
                      +:+ s +:+ "' as an int: invalid literal; "))
               end
           end ;;
  let msg := "Adding comment to " +:+ repo +:+ " issue #" +:+ pretty issue
             +:+ ": '" +:+ txt +:+ "'" in
  let msg := if dry_run_mode then "[DRY RUN] " +:+ msg else msg in
  print_msg msg ;;;
  if negb dry_run_mode then
    _token <- fetch_github_token user ;;
    r <- ask (api_post env (PostIssueComment account repo issue txt)) ;;
    emit (EvApi (PostIssueComment account repo issue txt)) ;;;
    if negb (status r =? HTTP_STATUS_CREATED) then
      raise (EasyBuildError
        ("Failed to create comment in PR " +:+ repo +:+ "#" +:+ pretty issue
         +:+ "; status " +:+ pretty (status r) +:+ ", data: " +:+ shown r))
    else ret tt
  else ret tt.

(** *** Working copy *)

(** One call into the VCS driver; a failing command raises
    [GitCommandError]. *)
Definition git_call (repo : string) (cmd : GitCmd) : M GitReply :=
  fun w =>
    let '(r, fs') := git env repo cmd w in
    let w' := mkWorld fs' (trace w ++ [EvGit repo cmd r])%list in
    match g_error r with
    | Some err => (Raise (GitCommandError err), w')
    | None => (Ok r, w')
    end.

(** [''.join(random.choice(ascii_letters) for _ in range(n))] *)
Definition random_salt (n : nat) : M string := ask (random_letters env n).

(** [init_repo]; the value is the working copy's path, which stands for
    the [git.Repo] handle. *)
Definition init_repo (path repo_name : string) : M string :=
  let repo_path := Py.path_join path repo_name in
  present <- os_path_exists repo_path ;;
  (if negb present then mkdir repo_path else ret tt) ;;;
  (match git_working_dirs_path cfg with
   | Some d =>
       if truthy d then
         let workdir := Py.path_join d repo_name in
         there <- os_path_exists workdir ;;
         if there then
           print_msg ("cloning git repo from " +:+ workdir +:+ "...") ;;;
           try_except_GitCommandError
             (git_call workdir (GitClone workdir repo_path) ;;; ret tt)
             (fun err => raise (EasyBuildError
                ("Failed to clone git repo at " +:+ workdir +:+ ": " +:+ err)))
         else ret tt
       else ret tt
   | None => ret tt
   end) ;;;
  try_except_GitCommandError
    (git_call repo_path (GitInit repo_path) ;;; ret tt)
    (fun err => raise (EasyBuildError
       ("Failed to init git repo at " +:+ repo_path +:+ ": " +:+ err))) ;;;
  ret repo_path.

(** [setup_repo_from] *)
Definition setup_repo_from (git_repo github_url target_account branch_name
    : string) : M string :=
  salt <- random_salt 5 ;;
  let remote_name := "pr_target_account_" +:+ target_account +:+ "_" +:+ salt in
  git_call git_repo (GitCreateRemote remote_name github_url) ;;;
  ex <- git_call git_repo (GitRemoteExists remote_name) ;;
  if negb (g_flag ex) then
    raise (EasyBuildError (github_url +:+ " does not exist?"))
  else
  print_msg ("fetching branch '" +:+ branch_name +:+ "' from " +:+ github_url
             +:+ "...") ;;;
  res <- try_except_GitCommandError
           (git_call git_repo (GitFetch remote_name))
           (fun err => raise (EasyBuildError
              ("Failed to fetch branch '" +:+ branch_name +:+ "' from "
               +:+ github_url +:+ ": " +:+ err))) ;;
  match g_info res with
  | Some (true, note) =>
      raise (EasyBuildError
        ("Fetching branch '" +:+ branch_name +:+ "' from remote "
         +:+ remote_name +:+ " failed: " +:+ note))
  | None =>
      raise (EasyBuildError
        ("Fetching branch '" +:+ branch_name +:+ "' from remote "
         +:+ remote_name +:+ " failed: empty result"))
  | Some (false, _) =>
      has <- git_call git_repo (GitHasRef remote_name branch_name) ;;
      if negb (g_flag has) then
        raise (EasyBuildError
          ("Branch '" +:+ branch_name +:+ "' not found at " +:+ github_url))
      else
      try_except_GitCommandError
        (git_call git_repo
           (GitCheckoutNew remote_name branch_name branch_name false) ;;; ret tt)
        (fun _err =>
           let alt_branch := branch_name +:+ "_" +:+ salt in
           try_except_GitCommandError
             (git_call git_repo
                (GitCheckoutNew remote_name branch_name alt_branch true) ;;;
              ret tt)
             (fun err => raise (EasyBuildError
                ("Failed to check out branch '" +:+ alt_branch
                 +:+ "' from repo at " +:+ github_url +:+ ": " +:+ err)))) ;;;
      ret remote_name
  end.

(** The loop of [setup_repo] over the URL templates: the first URL that
    works wins, the errors of the others are collected. *)
Fixpoint setup_repo_loop (git_repo target_account target_repo branch_name
    : string) (urls : list string) (errors : list string)
    : M (option string * list string) :=
  match urls with
  | [] => ret (None, errors)
  | github_url :: rest =>
      r <- try_except_EasyBuildError
             (res <- setup_repo_from git_repo github_url target_account
                       branch_name ;;
              ret (inl res))
             (fun err => ret (inr
                ("Checking out branch '" +:+ branch_name +:+ "' from "
                 +:+ github_url +:+ " failed: " +:+ err))) ;;
      match r with
      | inl res => ret (Some res, errors)
      | inr e => setup_repo_loop git_repo target_account target_repo
                   branch_name rest (errors ++ [e])%list
      end
  end.

(** [setup_repo] *)
Definition setup_repo (git_repo target_account target_repo branch_name
    : string) (git_only : bool) : M string :=
  let ssh := "git@github.com:" +:+ target_account +:+ "/" +:+ target_repo
             +:+ ".git" in
  let https := "https://github.com/" +:+ target_account +:+ "/"
               +:+ target_repo +:+ ".git" in
  let urls := if git_only then [ssh] else [https; ssh] in
  r <- setup_repo_loop git_repo target_account target_repo branch_name
         urls [] ;;
  match r with
  | (Some res, errors) =>
      if truthy res then ret res
      else raise (EasyBuildError (Py.join "
" errors))
  | (None, errors) => raise (EasyBuildError (Py.join "
" errors))
  end.

(** [create_remote]; the value is the remote's name. *)
Definition create_remote (git_repo account repo : string) (https : bool)
    : M string :=
  let github_url :=
    if https then "https://github.com/" +:+ account +:+ "/" +:+ repo +:+ ".git"
    else "git@github.com:" +:+ account +:+ "/" +:+ repo +:+ ".git" in
  salt <- random_salt 5 ;;
  let remote_name := "github_" +:+ account +:+ "_" +:+ salt in
  try_except_GitCommandError
    (git_call git_repo (GitCreateRemote remote_name github_url) ;;; ret tt)
    (fun err => raise (EasyBuildError
       ("Failed to create remote " +:+ remote_name +:+ " for " +:+ github_url
        +:+ ": " +:+ err))) ;;;
  ret remote_name.

(** [push_branch_to_github] *)
Definition push_branch_to_github (git_repo target_account target_repo branch
    : string) : M unit :=
  remote <- create_remote git_repo target_account target_repo false ;;
  let github_url := "git@github.com:" +:+ target_account +:+ "/"
                    +:+ target_repo +:+ ".git" in
  let push_branch_msg := "pushing branch '" +:+ branch +:+ "' to remote '"
                         +:+ remote +:+ "' (" +:+ github_url +:+ ")" in
  if dry_run_mode then
    print_msg (push_branch_msg +:+ " [DRY RUN]")
  else
    print_msg push_branch_msg ;;;
    res <- try_except_GitCommandError
             (git_call git_repo (GitPush remote branch))
             (fun err => raise (EasyBuildError
                ("Failed to push branch '" +:+ branch +:+ "' to GitHub ("
                 +:+ github_url +:+ "): " +:+ err))) ;;
    match g_info res with
    | Some (true, summary) =>
        raise (EasyBuildError
          ("Pushing branch '" +:+ branch +:+ "' to remote " +:+ remote +:+ " ("
           +:+ github_url +:+ ") failed: " +:+ summary))
    | Some (false, _) => ret tt
    | None =>
        raise (EasyBuildError
          ("Pushing branch '" +:+ branch +:+ "' to remote " +:+ remote +:+ " ("
           +:+ github_url +:+ ") failed: empty result"))
    end.


(** *** Patch attribution *)

(** The files a walk over [top] yields, in order, as full paths. *)
Definition walk_files (top : string) (keep : string -> bool) : M (list string) :=
  emit (EvWalk top) ;;;
  tree <- look (os_walk env top) ;;
  ret (flat_map (fun '(dirpath, filenames) =>
         Py.path_join dirpath <$> List.filter keep filenames) tree).

(** First loop of [find_software_name_for_patch]: the files whose raw
    text mentions patches. *)
Fixpoint mentioning_patches (paths : list string) : M (list string) :=
  match paths with
  | [] => ret []
  | path :: rest =>
      rawtxt <- read_file path ;;
      tl <- mentioning_patches rest ;;
      ret (if Py.contains rawtxt "patches" then path :: tl else tl)
  end.

(** Python truthiness of a name that may still be [None]. *)
Definition truthy_opt (o : option string) : bool :=
  match o with
  | Some s => truthy s
  | None => false
  end.

(** Second loop of [find_software_name_for_patch]. *)
Fixpoint scan_easyconfigs (patch_name : string) (nr_of_ecs : nat)
    (idx : nat) (all_ecs : list string) (soft_name : option string)
    : M (option string) :=
  match all_ecs with
  | [] => ret soft_name
  | path :: rest =>
      if truthy_opt soft_name then ret soft_name
      else
        _rawtxt <- read_file path ;;
        parsed <- look (process_easyconfig env path) ;;
        emit (EvParse path) ;;;
        soft_name <-
          match parsed with
          | Ok ecs =>
              match List.find (is_patch_for patch_name) ecs with
              | Some ec => ret (Some (ec_name ec))
              | None => ret soft_name
              end
          | Raise (EasyBuildError _) => ret soft_name
          | Raise e => raise e
          end ;;
        emit (EvPrint (String "013" (pretty (idx + 1)%nat) +:+ " of "
                       +:+ pretty nr_of_ecs +:+ " easyconfigs checked")) ;;;
        scan_easyconfigs patch_name nr_of_ecs (idx + 1)%nat rest soft_name
  end.

(** [find_software_name_for_patch] *)
Definition find_software_name_for_patch (patch_name : string)
    (ec_dirs : list string) : M (option string) :=
  found <- map_m (fun ec_dir =>
             files <- walk_files ec_dir (fun fn =>
                        negb (String.eqb fn "TEMPLATE.eb")
                        && negb (Py.endswith fn ".py")) ;;
             mentioning_patches files) ec_dirs ;;
  let all_ecs := List.concat found in
  soft_name <- scan_easyconfigs patch_name (List.length all_ecs) 0 all_ecs None ;;
  emit (EvPrint (String "010" EmptyString)) ;;;
  ret soft_name.

(** The body of the loop of [det_patch_specs], for one patch file. *)
Definition det_patch_spec (file_info : FileInfo) (ec_dirs : list string)
    (patch_path : string) : M (string * string) :=
  let patch_file := Py.basename patch_path in
  let soft_name :=
    match List.find (is_patch_for patch_file) (fi_ecs file_info) with
    | Some ec => Some (ec_name ec)
    | None => None
    end in
  match soft_name with
  | Some name =>
      if truthy name then ret (patch_path, name)
      else
        emit (EvPrint ("Matching easyconfig for " +:+ patch_path
                       +:+ " not found on the first try:")) ;;;
        emit (EvPrint "scanning all easyconfigs to determine where patch file belongs (this may take a while)...") ;;;
        soft_name <- find_software_name_for_patch patch_file ec_dirs ;;
        if truthy_opt soft_name then ret (patch_path, str_opt soft_name)
        else raise (EasyBuildError
               ("Failed to determine software name to which patch file "
                +:+ patch_path +:+ " relates"))
  | None =>
      emit (EvPrint ("Matching easyconfig for " +:+ patch_path
                     +:+ " not found on the first try:")) ;;;
      emit (EvPrint "scanning all easyconfigs to determine where patch file belongs (this may take a while)...") ;;;
      soft_name <- find_software_name_for_patch patch_file ec_dirs ;;
      if truthy_opt soft_name then ret (patch_path, str_opt soft_name)
      else raise (EasyBuildError
             ("Failed to determine software name to which patch file "
              +:+ patch_path +:+ " relates"))
  end.

(** [det_patch_specs] *)
Definition det_patch_specs (patch_paths : list string) (file_info : FileInfo)
    (ec_dirs : list string) : M (list (string * string)) :=
  print_msg "determining software names for patch files..." ;;;
  map_m (det_patch_spec file_info ec_dirs) patch_paths.

(** *** Publication *)

(** [all_dep_info[key][idx]] for the indices whose [new] flag is set. *)
Fixpoint new_dep_paths (n idx : nat) (info : FileInfo) : M (list string) :=
  match n with
  | O => ret []
  | S n' =>
      match fi_new info !! idx with
      | None => raise (PyError "IndexError")
      | Some true =>
          match fi_paths_in_repo info !! idx with
          | None => raise (PyError "IndexError")
          | Some p =>
              tl <- new_dep_paths n' (S idx) info ;;
              ret (p :: tl)
          end
      | Some false => new_dep_paths n' (S idx) info
      end
  end.

(** The loop over [paths['files_to_delete']]. *)
Fixpoint det_deleted_paths (repo_path : string) (fns : list string)
    : M (list string) :=
  match fns with
  | [] => ret []
  | fn :: rest =>
      let fullpath := Py.path_join repo_path fn in
      present <- os_path_exists fullpath ;;
      hit <- (if present then ret fullpath
              else
                hits <- look (glob env
                  (Py.path_join (Py.path_join (Py.path_join (Py.path_join
                     (Py.path_join repo_path "easybuild") "easyconfigs")
                     "*") "*") fn)) ;;
                match hits with
                | [hit] => ret hit
                | _ => raise (EasyBuildError
                    ("Path doesn't exist or file to delete isn't found in target branch: "
                     +:+ fn))
                end) ;;
      tl <- det_deleted_paths repo_path rest ;;
      ret (hit :: tl)
  end.

(** What lines 672-797 of [_easyconfigs_pr_common] leave for the rest:
    the copied files, the deleted paths, the working copy, the branch,
    the commit message and the account to push to. *)
Record Staged := {
  st_file_info : FileInfo;
  st_deleted_paths : list string;
  st_git_repo : string;
  st_pr_branch : string;
  st_commit_msg : string;
  st_target_account : string;
}.

(** Lines 672-797 of [_easyconfigs_pr_common]: check the paths, set up
    the working copy, copy the files and stage the changes. *)
Definition stage_changes (paths : Paths)
    (ecs : option (list EasyConfig)) (start_branch pr_branch : option string)
    (start_account : option string) (commit_msg : option string)
    : M Staged :=
  (* we need files to create the PR with *)
  existing <- map_m (fun path =>
                present <- os_path_exists path ;; ret (path, present))
              (p_easyconfigs paths) ;;
  let non_existing_paths := fst <$> List.filter (fun x => negb (snd x)) existing in
  let ec_paths := fst <$> List.filter snd existing in
  match non_existing_paths with
  | _ :: _ =>
      raise (EasyBuildError ("One or more non-existing paths specified: "
                             +:+ Py.join ", " non_existing_paths))
  | [] =>
  match p_easyconfigs paths, p_files_to_delete paths, p_patch_files paths with
  | [], [], [] => raise (EasyBuildError "No paths specified")
  | _, _, _ =>
  let pr_target_repo := pr_target_repo cfg in
  (* initialize repository *)
  git_working_dir <- tempfile_mkdtemp "git-working-dir" ;;
  git_repo <- init_repo git_working_dir pr_target_repo ;;
  let repo_path := Py.path_join git_working_dir pr_target_repo in
  if negb (String.eqb pr_target_repo GITHUB_EASYCONFIGS_REPO) then
    raise (EasyBuildError
      ("Don't know how to create/update a pull request to the "
       +:+ pr_target_repo +:+ " repository"))
  else
  let '(target_account, start_branch) :=
    match start_branch with
    | None => (str_opt (py_or (github_org cfg) (github_user cfg)),
               pr_target_branch cfg)
    | Some b => (str_opt start_account, b)
    end in
  (* set up repository *)
  setup_repo git_repo (str_opt start_account) pr_target_repo start_branch
    false ;;;
  git_call git_repo GitStatus ;;;
  (* copy easyconfig files to right place *)
  let target_dir := Py.path_join git_working_dir pr_target_repo in
  print_msg ("copying easyconfigs to " +:+ target_dir +:+ "...") ;;;
  file_info <- tool (copy_easyconfigs env ec_paths target_dir)
                    (EvCopy ec_paths target_dir) ;;
  (* figure out commit message to use *)
  commit_msg <-
    (if truthy_opt commit_msg then ret (str_opt commit_msg)
     else if forallb id (fi_new file_info)
             && bool_decide (p_files_to_delete paths = []) then
       let msg := "adding easyconfigs: "
                  +:+ Py.join ", " (Py.basename <$> fi_paths_in_repo file_info) in
       ret (match p_patch_files paths with
            | [] => msg
            | _ :: _ => msg +:+ " and patches: "
                        +:+ Py.join ", " (Py.basename <$> p_patch_files paths)
            end)
     else raise (EasyBuildError
       "A meaningful commit message must be specified via --pr-commit-msg when modifying/deleting easyconfigs")) ;;
  (* figure out to which software name patches relate *)
  patch_info <-
    match p_patch_files paths with
    | [] => ret None
    | _ :: _ =>
        patch_specs <- det_patch_specs (p_patch_files paths) file_info
                         [target_dir] ;;
        print_msg ("copying patch files to " +:+ target_dir +:+ "...") ;;;
        info <- tool (copy_patch_files env patch_specs target_dir)
                     (EvCopy (fst <$> patch_specs) target_dir) ;;
        ret (Some info)
    end ;;
  (* determine path to files to delete (if any) *)
  deleted_paths <- det_deleted_paths repo_path (p_files_to_delete paths) ;;
  (* include missing easyconfigs for dependencies, if robot is enabled *)
  dep_paths_in_repo <-
    match ecs with
    | None => ret []
    | Some ecs =>
        abs_paths <- look (fun fs => (fun p => realpath env p fs) <$> ec_paths) ;;
        dep_paths <- look (fun fs =>
          ec_spec <$> List.filter (fun ec =>
            negb (bool_decide (realpath env (ec_spec ec) fs ∈ abs_paths))) ecs) ;;
        all_dep_info <- tool (copy_easyconfigs env dep_paths target_dir)
                             (EvCopy dep_paths target_dir) ;;
        new_dep_paths (List.length (fi_ecs all_dep_info)) 0 all_dep_info
    end ;;
  (* checkout target branch *)
  pr_branch <-
    match pr_branch with
    | Some b => ret b
    | None =>
        label <-
          match ec_paths with
          | _ :: _ =>
              match fi_ecs file_info with
              | ec :: _ => ret (ec_name ec +:+ remove_dots_dashes (ec_version ec))
              | [] => raise (PyError "IndexError")
              end
          | [] => random_salt 10
          end ;;
        stamp <- ask (strftime_now env) ;;
        ret (stamp +:+ "_new_pr_" +:+ label)
    end ;;
  git_call git_repo (GitCreateHead pr_branch) ;;;
  (* stage *)
  git_call git_repo (GitIndexAdd (fi_paths_in_repo file_info)) ;;;
  git_call git_repo (GitIndexAdd dep_paths_in_repo) ;;;
  match patch_info with
   | Some info => git_call git_repo (GitIndexAdd (fi_paths_in_repo info)) ;;; ret tt
   | None => ret tt
   end ;;;
  match deleted_paths with
   | _ :: _ => git_call git_repo (GitIndexRemove deleted_paths) ;;; ret tt
   | [] => ret tt
   end ;;;
  ret {| st_file_info := file_info; st_deleted_paths := deleted_paths;
         st_git_repo := git_repo; st_pr_branch := pr_branch;
         st_commit_msg := commit_msg; st_target_account := target_account |}
  end
  end.

Definition EMPTY_PR_MSG : string :=
  "No changed files found when comparing to current develop branch. Refused to make empty pull request.".

(** Lines 799-814 of [_easyconfigs_pr_common]: look at the staged diff,
    commit and push. *)
Definition commit_and_push (staged : Staged)
    : M (FileInfo * list string * string * string * string) :=
  let git_repo := st_git_repo staged in
  (* overview of modifications *)
  (if extended_dry_run cfg then
     print_msg "
Full patch:
" ;;;
     full <- git_call git_repo (GitDiff false) ;;
     print_msg (g_out full +:+ "
")
   else ret tt) ;;;
  diff_stat <- git_call git_repo (GitDiff true) ;;
  if negb (truthy (g_out diff_stat)) then raise (EasyBuildError EMPTY_PR_MSG)
  else
  (* commit *)
  git_call git_repo (GitCommit (st_commit_msg staged)) ;;;
  push_branch_to_github git_repo (st_target_account staged)
    (pr_target_repo cfg) (st_pr_branch staged) ;;;
  ret (st_file_info staged, st_deleted_paths staged, git_repo,
       st_pr_branch staged, g_out diff_stat).

(** [_easyconfigs_pr_common]; the value is
    [(file_info, deleted_paths, git_repo, pr_branch, diff_stat)]. *)
Definition _easyconfigs_pr_common (paths : Paths)
    (ecs : option (list EasyConfig)) (start_branch pr_branch : option string)
    (start_account : option string) (commit_msg : option string)
    : M (FileInfo * list string * string * string * string) :=
  staged <- stage_changes paths ecs start_branch pr_branch start_account
              commit_msg ;;
  commit_and_push staged.


(** *** Eligibility *)

(** The helper [not_eligible] of [check_pr_eligible_to_merge]. *)
Definition not_eligible (msg : string) : M bool :=
  emit (EvPrintErr (msg +:+ " => not eligible for merging!")) ;;;
  ret false.

(** The loop over [pr_data['issue_comments'][::-1]]; the value is
    [(res, test_report_found)]. *)
Fixpoint check_test_reports (comments : list Comment) (res : bool)
    : M (bool * bool) :=
  match comments with
  | [] => ret (res, false)
  | c :: rest =>
      let comment := c_body c in
      if test_report_regex_search comment then
        if Py.contains comment "SUCCESS" then
          print_msg "* last test report is successful: OK" ;;;
          ret (res, true)
        else if Py.contains comment "FAILED" then
          res <- not_eligible "* last test report is successful: FAILED" ;;
          ret (res, true)
        else
          print_warning
            ("Failed to determine outcome of test report for comment:
" +:+ comment) ;;;
          check_test_reports rest res
      else check_test_reports rest res
  end.

(** [check_pr_eligible_to_merge] *)
Definition check_pr_eligible_to_merge (pr_data : PullFull) : M bool :=
  let pr := pr_core pr_data in
  let res := true in
  let target := base_repo_owner pr +:+ "/" +:+ base_repo_name pr in
  print_msg ("Checking eligibility of " +:+ target +:+ " PR #"
             +:+ pretty (number pr) +:+ " for merging...") ;;;
  (* check target branch, must be 'develop' *)
  res <- (if String.eqb (base_ref pr) "develop" then
            print_msg "* targets develop branch: OK" ;;; ret res
          else not_eligible ("* targets develop branch: FAILED; found '"
                             +:+ base_ref pr +:+ "'")) ;;
  (* check test suite result *)
  res <- (if String.eqb (status_last_commit pr_data) "success" then
            print_msg "* test suite passes: OK" ;;; ret res
          else if String.eqb (status_last_commit pr_data) "pending" then
            not_eligible "* test suite passes: pending..."
          else if String.eqb (status_last_commit pr_data) "error"
                  || String.eqb (status_last_commit pr_data) "failure" then
            not_eligible "* test suite passes: FAILED"
          else not_eligible "* test suite passes: (result unknown)") ;;
  res <- (if String.eqb (base_repo_name pr) GITHUB_EASYCONFIGS_REPO then
            r <- check_test_reports (rev (issue_comments pr_data)) res ;;
            let '(res, test_report_found) := r in
            if negb test_report_found then
              not_eligible
                "* last test report is successful: (no test reports found)"
            else ret res
          else ret res) ;;
  (* check for approved review *)
  let approved_review_by :=
    r_user <$> List.filter (fun review => String.eqb (r_state review) "APPROVED")
                 (reviews pr_data) in
  res <- (match approved_review_by with
          | _ :: _ =>
              print_msg ("* approved review: OK (by "
                         +:+ Py.join ", " approved_review_by +:+ ")") ;;;
              ret res
          | [] => not_eligible "* approved review: MISSING"
          end) ;;
  (* check whether a milestone is set *)
  res <- (match milestone pr with
          | Some title =>
              print_msg ("* milestone is set: OK (" +:+ title +:+ ")") ;;;
              ret res
          | None => not_eligible "* milestone is set: no milestone found"
          end) ;;
  ret res.

(** *** Reasons for closing *)

(** [EasyConfigParser(path).get_config_dict()] *)
Definition parse_easyconfig (path : string) : M EasyConfig :=
  parsed <- look (get_config_dict env path) ;;
  emit (EvParse path) ;;;
  match parsed with
  | Ok ec => ret ec
  | Raise e => raise e
  end.

(** Lines 1095-1106: does the PR easyconfig use an archived toolchain? *)
Fixpoint archived_toolchain_loop (pr_ec : EasyConfig) (pr_tc : string)
    (files : list string) (uses_archived_tc : list EasyConfig)
    : M (list EasyConfig) :=
  match files with
  | [] => ret uses_archived_tc
  | f :: rest =>
      ec <- parse_easyconfig f ;;
      match ec_easyblock ec with
      | Some easyblock =>
          if String.eqb easyblock "Toolchain" then
            let archived_tc :=
              match ec_versionsuffix ec with
              | Some vs => ec_name ec +:+ "-" +:+ ec_version ec +:+ vs
              | None => ec_name ec +:+ "-" +:+ ec_version ec
              end in
            if String.eqb pr_tc archived_tc then
              print_msg (" - uses archived toolchain " +:+ pr_tc) ;;;
              archived_toolchain_loop pr_ec pr_tc rest
                (uses_archived_tc ++ [pr_ec])%list
            else archived_toolchain_loop pr_ec pr_tc rest uses_archived_tc
          else archived_toolchain_loop pr_ec pr_tc rest uses_archived_tc
      | None => archived_toolchain_loop pr_ec pr_tc rest uses_archived_tc
      end
  end.

(** Lines 1110-1115: the versions in the tree newer than the PR's. *)
Fixpoint newer_versions_loop (pr_ec : EasyConfig) (files : list string)
    (newer_versions : list string) : M (list string) :=
  match files with
  | [] => ret newer_versions
  | f :: rest =>
      ec <- parse_easyconfig f ;;
      match LooseVersion.gt (ec_version ec) (ec_version pr_ec) with
      | None => raise (PyError "TypeError")
      | Some true =>
          newer_versions_loop pr_ec rest (set_add (ec_version ec) newer_versions)
      | Some false => newer_versions_loop pr_ec rest newer_versions
      end
  end.

Definition is_eb (fn : string) : bool := Py.endswith fn ".eb".

(** The loop over [robot_paths] for one PR easyconfig; the state is
    [(uses_archived_tc, obsoleted)]. *)
Fixpoint robot_paths_loop (pr_ec : EasyConfig) (pr_tc : string)
    (robot_paths : list string) (acc : list EasyConfig * list EasyConfig)
    : M (list EasyConfig * list EasyConfig) :=
  match robot_paths with
  | [] => ret acc
  | robot_path :: rest =>
      let '(uses_archived_tc, obsoleted) := acc in
      (* check if PR easyconfig uses an archived toolchain *)
      let tc0 := match pr_tc with
                 | String c _ => String (Py.lower_ascii c) EmptyString
                 | EmptyString => EmptyString
                 end in
      let path := Py.path_join (Py.path_join (Py.path_join robot_path
                    EASYCONFIGS_ARCHIVE_DIR) tc0)
                    (List.hd "" (Py.split "-"%char pr_tc)) in
      files <- walk_files path is_eb ;;
      uses_archived_tc <-
        archived_toolchain_loop pr_ec pr_tc files uses_archived_tc ;;
      (* check if there is a newer version of PR easyconfig *)
      match ec_name pr_ec with
      | EmptyString => raise (PyError "IndexError")
      | String c _ =>
          let top := Py.path_join (Py.path_join robot_path
                       (String (Py.lower_ascii c) EmptyString)) (ec_name pr_ec) in
          files <- walk_files top is_eb ;;
          newer_versions <- newer_versions_loop pr_ec files [] ;;
          match newer_versions with
          | _ :: _ =>
              print_msg (" - found newer versions "
                         +:+ Py.join ", " newer_versions) ;;;
              robot_paths_loop pr_ec pr_tc rest
                (uses_archived_tc, (obsoleted ++ [pr_ec])%list)
          | [] => robot_paths_loop pr_ec pr_tc rest (uses_archived_tc, obsoleted)
          end
      end
  end.

(** Lines 1086-1119: the loop over the PR's easyconfig files. *)
Fixpoint pr_files_loop (pr_files : list string)
    (acc : list EasyConfig * list EasyConfig)
    : M (list EasyConfig * list EasyConfig) :=
  match pr_files with
  | [] => ret acc
  | pr_file :: rest =>
      pr_ec <- parse_easyconfig pr_file ;;
      let pr_tc := ec_toolchain_name pr_ec +:+ "-" +:+ ec_toolchain_version pr_ec in
      print_msg ("* " +:+ ec_name pr_ec +:+ "-" +:+ ec_version pr_ec) ;;;
      acc <- robot_paths_loop pr_ec pr_tc (robot_path cfg) acc ;;
      pr_files_loop rest acc
  end.

(** [s.replace('T', ' at ')[:-1]] *)
Definition timestamp_of (s : string) : string := Py.drop_last (Py.replace_T s).

(** 180 days, in microseconds. *)
Definition SIX_MONTHS : Z := 180 * 86400 * 1000000.

(** [reasons_for_closing] *)
Definition reasons_for_closing (pr_data : PullFull) : M (list string) :=
  let pr := pr_core pr_data in
  (if truthy (status_last_commit pr_data) then
     print_msg ("Status of last commit is "
                +:+ Py.upper (status_last_commit pr_data) +:+ "
")
   else ret tt) ;;;
  (match List.last (Some <$> issue_comments pr_data) None with
   | Some last_comment =>
       print_msg ("Last comment on " +:+ timestamp_of (c_updated_at last_comment)
                  +:+ ", by " +:+ c_user last_comment +:+ ", was:

"
                  +:+ c_body last_comment)
   | None => ret tt
   end) ;;;
  (match List.last (Some <$> reviews pr_data) None with
   | Some last_review =>
       print_msg ("Last reviewed on " +:+ timestamp_of (r_submitted_at last_review)
                  +:+ " by " +:+ r_user last_review +:+ ", state "
                  +:+ r_state last_review +:+ "

" +:+ r_body last_review)
   | None => ret tt
   end) ;;;
  print_msg ("No activity since " +:+ timestamp_of (updated_at pr)) ;;;
  (* check if PR is inactive for more than 6 months *)
  last_updated <- match strptime env (updated_at pr) with
                  | Some t => ret t
                  | None => raise (PyError "ValueError")
                  end ;;
  current <- ask (now env) ;;
  let inactive := if SIX_MONTHS <? current - last_updated
                  then ["inactive"] else [] in
  files <- fetch_easyconfigs_from_pr (number pr) None None ;;
  let pr_files := List.filter is_eb files in
  found <- pr_files_loop pr_files ([], []) ;;
  let '(uses_archived_tc, obsoleted) := found in
  ret (inactive ++ archived_and_obsolete (title pr) uses_archived_tc obsoleted)%list.

(** *** Closing and merging *)

(** Lines 1141-1175 of [close_pr]: fetch the record, refuse a closed
    PR, find the motivation; the value is the comment to post and
    whether the PR is to be reopened. *)
Definition closing_comment (pr : Z) (motivation_msg : option string)
    (user : string) : M (string * bool) :=
  let pr_target_account := pr_target_account cfg in
  let pr_target_repo := pr_target_repo cfg in
  pr_data <- fetch_pr_data_full pr pr_target_account pr_target_repo (Some user) ;;
  if String.eqb (state (pr_core pr_data)) GITHUB_STATE_CLOSED then
    raise (EasyBuildError
      ("PR #" +:+ pretty pr +:+ " from " +:+ pr_target_account +:+ "/"
       +:+ pr_target_repo +:+ " is already closed."))
  else
  let pr_owner := user_login (pr_core pr_data) in
  print_msg ("
" +:+ pr_target_account +:+ "/" +:+ pr_target_repo +:+ " PR #" +:+ pretty pr
     +:+ " was submitted by " +:+ pr_owner +:+ ", "
     +:+ "you are using GitHub account '" +:+ user +:+ "'
"
     +:+ "
PR Title: " +:+ String "034" (title (pr_core pr_data))
     +:+ String "034" "
") ;;;
  let reopen := bool_decide (motivation_msg = VALID_CLOSE_PR_REASONS "retest") in
  motivation_msg <-
    (if negb (truthy_opt motivation_msg) then
       print_msg "No reason or message specified, looking for possible reasons
" ;;;
       possible_reasons <- reasons_for_closing pr_data ;;
       match possible_reasons with
       | [] => raise (EasyBuildError
           "No reason specified and none found from PR data, please use --close-pr-reasons or --close-pr-msg")
       | _ :: _ =>
           texts <- map_m (fun reason =>
                      match VALID_CLOSE_PR_REASONS reason with
                      | Some txt => ret txt
                      | None => raise (PyError "KeyError")
                      end) possible_reasons ;;
           let motivation_msg := Py.join ", " texts in
           print_msg ("
No reason specified but found possible reasons: " +:+ motivation_msg +:+ ".
") ;;;
           ret motivation_msg
       end
     else ret (str_opt motivation_msg)) ;;
  let msg := "@" +:+ user_login (pr_core pr_data)
             +:+ ", this PR is being closed for the following reason(s): "
             +:+ motivation_msg +:+ "." in
  let msg :=
    if negb reopen then
      msg +:+ "
Please don't hesitate to reopen this PR or add a comment if you feel this contribution is still "
      +:+ "relevant.
For more information on our policy w.r.t. closing PRs, see "
      +:+ "https://easybuild.readthedocs.io/en/latest/Contributing.html"
      +:+ "#why-a-pull-request-may-be-closed-by-a-maintainer"
    else msg in
  ret (msg, reopen).

(** [close_pr] *)
Definition close_pr (pr : Z) (motivation_msg : option string) : M unit :=
  match github_user cfg with
  | None => raise (EasyBuildError
              "GitHub user must be specified to use --close-pr")
  | Some user =>
  let pr_target_account := pr_target_account cfg in
  let pr_target_repo := pr_target_repo cfg in
  c <- closing_comment pr motivation_msg user ;;
  let '(msg, reopen) := c in
  post_comment_in_issue (IssueInt pr) msg pr_target_account pr_target_repo
    (Some user) ;;;
  if dry_run_mode then
    print_msg ("[DRY RUN] Closed " +:+ pr_target_account +:+ "/"
               +:+ pr_target_repo +:+ " PR #" +:+ pretty pr) ;;;
    if reopen then
      print_msg ("[DRY RUN] Reopened " +:+ pr_target_account +:+ "/"
                 +:+ pr_target_repo +:+ " PR #" +:+ pretty pr)
    else ret tt
  else
    github_token <- fetch_github_token (Some user) ;;
    match github_token with
    | None => raise (EasyBuildError
        ("GitHub token for user '" +:+ user
         +:+ "' must be available to use --close-pr"))
    | Some _ =>
        r <- ask (api_post env
               (PostPullState pr_target_account pr_target_repo pr "closed")) ;;
        emit (EvApi (PostPullState pr_target_account pr_target_repo pr "closed")) ;;;
        if negb (status r =? HTTP_STATUS_OK) then
          raise (EasyBuildError
            ("Failed to close PR #" +:+ pretty pr +:+ "; status "
             +:+ pretty (status r) +:+ ", data: " +:+ shown r))
        else if reopen then
          r <- ask (api_post env
                 (PostPullState pr_target_account pr_target_repo pr "open")) ;;
          emit (EvApi (PostPullState pr_target_account pr_target_repo pr "open")) ;;;
          if negb (status r =? HTTP_STATUS_OK) then
            raise (EasyBuildError
              ("Failed to reopen PR #" +:+ pretty pr +:+ "; status "
               +:+ pretty (status r) +:+ ", data: " +:+ shown r))
          else ret tt
        else ret tt
    end
  end.

(** [github_api_put_request] for the merge URL.  The data of a reply is
    its ['message'], if it has one: [data['message']] is evaluated for
    the log line of a 200 as well, and raises when there is none. *)
Definition github_api_put_request (call : ApiCall) (user : option string)
    : M (Reply (option string)) :=
  let user := match user with None => github_user cfg | Some u => Some u end in
  _token <- fetch_github_token user ;;
  r <- ask (api_put env call) ;;
  emit (EvApi call) ;;;
  if status r =? 200 then
    match data r with
    | Some _message => ret r
    | None => raise (PyError "KeyError")
    end
  else if (status r =? 405) || (status r =? 409) then
    match data r with
    | Some message => raise (EasyBuildError ("FAILED: " +:+ message))
    | None => raise (PyError "KeyError")
    end
  else
    raise (EasyBuildError
      ("FAILED: " +:+ match data r with
                      | Some message => message
                      | None => "(unknown reason)"
                      end)).

(** [merge_pr] *)
Definition merge_pr (pr : Z) : M unit :=
  match github_user cfg with
  | None => raise (EasyBuildError
              "GitHub user must be specified to use --merge-pr")
  | Some user =>
  let pr_target_account := pr_target_account cfg in
  let pr_target_repo := pr_target_repo cfg in
  pr_data <- fetch_pr_data_full pr pr_target_account pr_target_repo (Some user) ;;
  print_msg ("
" +:+ pr_target_account +:+ "/" +:+ pr_target_repo +:+ " PR #" +:+ pretty pr
     +:+ " was submitted by " +:+ user_login (pr_core pr_data) +:+ ", "
     +:+ "you are using GitHub account '" +:+ user +:+ "'
") ;;;
  if String.eqb (user_login (pr_core pr_data)) user then
    raise (EasyBuildError "Please do not merge your own PRs!")
  else
  eligible <- check_pr_eligible_to_merge pr_data ;;
  if eligible || force cfg then
    print_msg ("
Review " +:+ (if force cfg then "FAILed, yet forcibly" else "OK,")
       +:+ " merging pull request!
") ;;;
    let comment := "Going in, thanks @" +:+ user_login (pr_core pr_data) +:+ "!" in
    post_comment_in_issue (IssueInt pr) comment pr_target_account
      pr_target_repo (Some user) ;;;
    if dry_run_mode then
      print_msg ("[DRY RUN] Merged " +:+ pr_target_account +:+ "/"
                 +:+ pr_target_repo +:+ " pull request #" +:+ pretty pr)
    else
      github_api_put_request
        (PutMerge pr_target_account pr_target_repo pr
           (title (pr_core pr_data)) (head_sha (pr_core pr_data)))
        (Some user) ;;;
      ret tt
  else
    print_warning
      "Review indicates this PR should not be merged (use -f/--force to do so anyway)"
  end.

End Code.

(** ** A concrete world

    A small forge, disk and git driver on which the code can be run:
    one pull request (#42, by bob) that changes
    easybuild/easyconfigs/t/toy/toy-1.0.eb, a robot path that holds
    toy-2.0.eb, and alice as the configured user. *)

Module Demo.

Definition toy (version : string) : EasyConfig := {|
  ec_name := "toy"; ec_version := version;
  ec_toolchain_name := "GCC"; ec_toolchain_version := "8.2.0";
  ec_versionsuffix := None; ec_easyblock := None; ec_moduleclass := "tools";
  ec_patches := [PatchName "toy-fix.patch"];
  ec_exts_list := [ExtName "bar"; ExtFull "barbar" "0.0" [PatchTuple "barbar.patch" ["1"]]];
  ec_spec := "/home/alice/toy-" +:+ version +:+ ".eb";
|}.

Definition pull (st : string) (mg : bool) (ttl : string) : PullData := {|
  number := 42; state := st; merged := mg; title := ttl;
  user_login := "bob"; updated_at := "2019-01-01T10:00:00Z";
  base_ref := "develop"; base_repo_name := GITHUB_EASYCONFIGS_REPO;
  base_repo_owner := "easybuilders"; head_sha := "abc123";
  head_label := "bob:toy";
  diff_url := "https://github.com/easybuilders/easybuild-easyconfigs/pull/42.diff";
  milestone := Some "3.x";
|}.

Definition cfg (user : string) (dry frc : bool) : Config := {|
  github_user := Some user; github_org := None;
  pr_target_account := "easybuilders";
  pr_target_repo := GITHUB_EASYCONFIGS_REPO;
  pr_target_branch := "develop"; pr_branch_name := None;
  pr_path := Some "/prs"; robot_path := ["/robot"];
  git_working_dirs_path := None;
  dry_run := dry; extended_dry_run := false; force := frc;
|}.

Definition env (pr : PullData) (applies : bool) (diff_stat : string) : Env := {|
  keyring_get_password := fun _ _ => Some "token";
  api_branches := fun _ _ _ =>
    mkReply 200 [ {| br_name := "master"; br_sha := "m0" |};
                  {| br_name := "develop"; br_sha := "d1" |} ] "";
  api_pull := fun _ _ _ _ => mkReply 200 pr "";
  api_commit_status := fun _ _ _ _ => mkReply 200 "success" "";
  api_issue_comments := fun _ _ _ _ => mkReply 200 [] "";
  api_pull_reviews := fun _ _ _ _ => mkReply 200 [] "";
  api_post := fun call _ =>
    match call with
    | PostIssueComment _ _ _ _ => mkReply 201 tt ""
    | _ => mkReply 200 tt ""
    end;
  api_put := fun _ _ => mkReply 200 (Some "merged") "";
  download_file := fun _ url path w => (Ok tt, <[path := File url]> (fs w));
  extract_file := fun _ dest w =>
    (Ok dest, <[Py.path_join dest "easybuild-easyconfigs-develop" := Dir]> (fs w));
  apply_patch := fun _ _ w =>
    (if applies then Ok tt else Raise (EasyBuildError "patch does not apply"),
     fs w);
  symlink := fun _ dst w =>
    (Ok tt, <[Py.path_join dst "toy/toy-1.0.eb" := File "toy"]>
              (<[dst := Dir]> (fs w)));
  det_patched_files := fun _ => ["easybuild/easyconfigs/t/toy/toy-1.0.eb"];
  mkdtemp := fun prefix w =>
    let p := "/tmp/" +:+ prefix +:+ pretty (List.length (trace w)) in
    (p, <[p := Dir]> (fs w));
  os_listdir := fun _ _ => Some ["t"];
  os_walk := fun top _ =>
    if String.eqb top "/robot/t/toy"
    then [("/robot/t/toy", ["toy-2.0.eb"; "README"])] else [];
  glob := fun _ _ => [];
  realpath := fun p _ => p;
  get_config_dict := fun path _ =>
    Ok (if Py.endswith path "toy-2.0.eb" then toy "2.0" else toy "1.0");
  process_easyconfig := fun _ _ => Ok [toy "1.0"];
  copy_easyconfigs := fun paths target w =>
    (Ok {| fi_ecs := (fun _ => toy "1.0") <$> paths;
           fi_paths_in_repo := Py.path_join target <$> paths;
           fi_new := (fun _ => true) <$> paths |}, fs w);
  copy_patch_files := fun specs target w =>
    (Ok {| fi_ecs := [];
           fi_paths_in_repo := (fun s => Py.path_join target (fst s)) <$> specs;
           fi_new := (fun _ => true) <$> specs |}, fs w);
  git := fun _ cmd w =>
    (mkGitReply None true
       (match cmd with GitDiff _ => diff_stat | _ => "" end)
       (Some (false, "ok")), fs w);
  random_letters := fun n _ => "abcde";
  strftime_now := fun _ => "20190102030405";
  now := fun _ => 1000;
  strptime := fun _ => Some 0;
|}.

Definition w0 : World := mkWorld ∅ [].

(** A contribution of one new easyconfig from alice's home directory. *)
Definition paths : Paths := {|
  p_easyconfigs := ["/home/alice/toy-1.0.eb"];
  p_files_to_delete := [];
  p_patch_files := [];
|}.

Definition home : World :=
  mkWorld (<["/home/alice/toy-1.0.eb" := File "name = 'toy'"]> ∅) [].

End Demo.

(** [emits P m]: whatever the world, a run of [m] only appends events,
    and each appended event satisfies [P]. *)
Definition emits {A} (P : Event -> Prop) (m : M A) : Prop :=
  forall w, exists evs, trace (snd (m w)) = (trace w ++ evs)%list /\ Forall P evs.

(** No call that changes state on the forge. *)
Definition quiet (e : Event) : Prop := mutating e = false.

(** The calls the specification singles out: a commit, the diff of the staged
    tree ([git diff --cached --stat]), and whatever changes state on the
    forge.  A [plain] event is none of them. *)
Definition is_commit (e : Event) : bool :=
  match e with
  | EvGit _ (GitCommit _) _ => true
  | _ => false
  end.

Definition is_push (e : Event) : bool :=
  match e with
  | EvGit _ (GitPush _ _) _ => true
  | _ => false
  end.

Definition is_diff_stat (e : Event) : bool :=
  match e with
  | EvGit _ (GitDiff true) _ => true
  | _ => false
  end.

Definition plain (e : Event) : Prop :=
  mutating e || is_commit e || is_diff_stat e = false.

(** The same configuration with both dry-run options off. *)
Definition real_run (cfg : Config) : Config := {|
  github_user := github_user cfg; github_org := github_org cfg;
  pr_target_account := pr_target_account cfg;
  pr_target_repo := pr_target_repo cfg;
  pr_target_branch := pr_target_branch cfg;
  pr_branch_name := pr_branch_name cfg;
  pr_path := pr_path cfg; robot_path := robot_path cfg;
  git_working_dirs_path := git_working_dirs_path cfg;
  dry_run := false; extended_dry_run := false; force := force cfg;
|}.

(** The messages printed at the mutation boundary. *)
Definition comment_msg (repo : string) (issue : Z) (txt : string) : string :=
  "Adding comment to " +:+ repo +:+ " issue #" +:+ pretty issue
  +:+ ": '" +:+ txt +:+ "'".

Definition push_msg (branch remote account repo : string) : string :=
  "pushing branch '" +:+ branch +:+ "' to remote '" +:+ remote +:+ "' ("
  +:+ ("git@github.com:" +:+ account +:+ "/" +:+ repo +:+ ".git") +:+ ")".

Definition closed_msg (cfg : Config) (pr : Z) : string :=
  "[DRY RUN] Closed " +:+ pr_target_account cfg +:+ "/"
  +:+ pr_target_repo cfg +:+ " PR #" +:+ pretty pr.

Definition reopened_msg (cfg : Config) (pr : Z) : string :=
  "[DRY RUN] Reopened " +:+ pr_target_account cfg +:+ "/"
  +:+ pr_target_repo cfg +:+ " PR #" +:+ pretty pr.

(** The number an [IssueRef] stands for, if any. *)
Definition issue_number (issue : IssueRef) : option Z :=
  match issue with
  | IssueInt n => Some n
  | IssueStr s => Py.int_of_string s
  end.

(** The world with one more event in its transcript. *)
Definition record (w : World) (evs : list Event) : World :=
  mkWorld (fs w) (trace w ++ evs).

(** The staged diff as the run saw it: [git diff --cached --stat]
    answered, with or without changed files. *)
Definition nonempty_diff_stat (e : Event) : bool :=
  match e with
  | EvGit _ (GitDiff true) r =>
      match g_error r with
      | None => truthy (g_out r)
      | Some _ => false
      end
  | _ => false
  end.

Definition empty_diff_stat (e : Event) : bool :=
  match e with
  | EvGit _ (GitDiff true) r =>
      match g_error r with
      | None => negb (truthy (g_out r))
      | Some _ => false
      end
  | _ => false
  end.

(** A monitor for transcripts: a commit or push is accepted only once a
    non-empty staged diff has been seen. *)
Fixpoint guarded (seen : bool) (evs : list Event) : bool :=
  match evs with
  | [] => true
  | e :: tl =>
      if is_commit e || is_push e then seen && guarded seen tl
      else guarded (seen || nonempty_diff_stat e) tl
  end.

(** Anything but the diff of the staged tree. *)
Definition no_diff_stat (e : Event) : Prop := is_diff_stat e = false.

(** Where a file named in the diff is expected under the destination:
    its last three path components. *)
Definition expected_path (path patched_file : string) : string :=
  Py.path_join path (last3_path patched_file).

(** [returns m Q]: whenever a run of [m] returns a value, [Q] holds of it. *)
Definition returns {A} (m : M A) (Q : A -> Prop) : Prop :=
  forall w a w', m w = (Ok a, w') -> Q a.

Definition is_apply_patch (e : Event) : bool :=
  match e with
  | EvApplyPatch _ _ => true
  | _ => false
  end.

Definition no_apply_patch (e : Event) : Prop := is_apply_patch e = false.

(** The link made for one entry of [<tree>/easybuild/easyconfigs]. *)
Definition link_event (tree dest eb_dir : string) : Event :=
  EvSymlink
    (Py.path_join (Py.path_join (Py.path_join tree "easybuild") "easyconfigs")
       eb_dir)
    (Py.path_join dest (Py.basename eb_dir)).

(** The download of the PR's diff into the destination. *)
Definition diff_download (pr_data : PullData) (dest : string) : Event :=
  EvDownload (Py.basename (diff_url pr_data)) (diff_url pr_data)
    (Py.path_join dest (Py.basename (diff_url pr_data))).

(** The download of one file named in the diff, at the PR's head commit. *)
Definition raw_download (pr_data : PullData) (account repo dest : string)
    (patched_file : string) : Event :=
  EvDownload (last3_path patched_file)
    (Py.join URL_SEPARATOR
       [GITHUB_RAW; account; repo; head_sha pr_data; patched_file])
    (Py.path_join dest (last3_path patched_file)).

(** A package record declares a patch file when the name is in its own
    patch list or in the patch list of one of its extensions. *)
Definition declares_patch (ec : EasyConfig) (fn : string) : Prop :=
  (exists patch, patch ∈ ec_patches ec /\ patch_file_name patch = fn)
  \/ (exists name version ext_patches patch,
        ExtFull name version ext_patches ∈ ec_exts_list ec
        /\ patch ∈ ext_patches /\ patch_file_name patch = fn).

(** The two lines printed when the known records do not settle a patch. *)
Definition scan_notice (patch_path : string) : list Event :=
  [EvPrint ("Matching easyconfig for " +:+ patch_path
            +:+ " not found on the first try:");
   EvPrint "scanning all easyconfigs to determine where patch file belongs (this may take a while)..."].

Definition unresolved_patch (patch_path : string) : Exn :=
  EasyBuildError ("Failed to determine software name to which patch file "
                  +:+ patch_path +:+ " relates").

(** A patch file has a known owner: some record declares its file name,
    and the first that does has a name. *)
Definition known_owner (file_info : FileInfo) (patch_path : string) : Prop :=
  exists before ec after,
    fi_ecs file_info = (before ++ ec :: after)%list
    /\ declares_patch ec (Py.basename patch_path)
    /\ Forall (fun e => ~ declares_patch e (Py.basename patch_path)) before
    /\ ec_name ec <> "".

(** ** The PR content resolver and the attribution of patches: what the
    runs are measured against *)

(** A file of the test suite: its path starts with test/. *)
Definition in_test_dir (f : string) : Prop := exists rest, f = "test/" +:+ rest.

(** [kept_files l k]: [k] is [l] without the files of the test suite, in
    the same order. *)
Inductive kept_files : list string -> list string -> Prop :=
| kept_nil : kept_files [] []
| kept_skip f l k : in_test_dir f -> kept_files l k -> kept_files (f :: l) k
| kept_keep f l k :
    ~ in_test_dir f -> kept_files l k -> kept_files (f :: l) (f :: k).

(** The same collaborators, for a pull request whose diff names [files]. *)
Definition with_patched_files (env : Env) (files : list string) : Env := {|
  keyring_get_password := keyring_get_password env;
  api_branches := api_branches env;
  api_pull := api_pull env;
  api_commit_status := api_commit_status env;
  api_issue_comments := api_issue_comments env;
  api_pull_reviews := api_pull_reviews env;
  api_post := api_post env;
  api_put := api_put env;
  download_file := download_file env;
  extract_file := extract_file env;
  apply_patch := apply_patch env;
  symlink := symlink env;
  det_patched_files := fun _ => files;
  mkdtemp := mkdtemp env;
  os_listdir := os_listdir env;
  os_walk := os_walk env;
  glob := glob env;
  realpath := realpath env;
  get_config_dict := get_config_dict env;
  process_easyconfig := process_easyconfig env;
  copy_easyconfigs := copy_easyconfigs env;
  copy_patch_files := copy_patch_files env;
  git := git env;
  random_letters := random_letters env;
  strftime_now := strftime_now env;
  now := now env;
  strptime := strptime env;
|}.

(** [<tree>/easybuild/easyconfigs] *)
Definition easyconfigs_dir (tree : string) : string :=
  Py.path_join (Py.path_join tree "easybuild") "easyconfigs".

(** The world once the diff of the PR has been downloaded into the
    destination, from the world [w]. *)
Definition after_diff_download (env : Env) (pr_data : PullData)
    (dest : string) (w : World) : World :=
  let diff_fn := Py.basename (diff_url pr_data) in
  mkWorld (snd (download_file env diff_fn (diff_url pr_data)
                  (Py.path_join dest diff_fn) w))
    (trace w ++ [diff_download pr_data dest]).

(** The world once the given entries of [<tree>/easybuild/easyconfigs]
    have been linked into the destination, one after the other. *)
Fixpoint after_links (env : Env) (tree dest : string) (entries : list string)
    (w : World) : World :=
  match entries with
  | [] => w
  | eb_dir :: rest =>
      after_links env tree dest rest
        (mkWorld (snd (symlink env (Py.path_join (easyconfigs_dir tree) eb_dir)
                         (Py.path_join dest (Py.basename eb_dir)) w))
           (trace w ++ [link_event tree dest eb_dir]))
  end.

(** Lines 374-409 of [fetch_easyconfigs_from_pr], the part of [pr_tree]
    that comes before the choice of a strategy: settle the destination,
    fetch the record of the PR, acquire its base branch, download the
    diff and read the files it names.  The value is the destination
    [path], [pr_data], [repo_target_branch], [diff_filepath] and
    [patched_files]. *)
Definition pr_setup (env : Env) (cfg : Config) (pr : Z) (path : option string)
    (user : option string)
    : M (string * PullData * string * string * list string) :=
  let user := match user with None => github_user cfg | Some u => Some u end in
  let path := match path with None => pr_path cfg | Some p => Some p end in
  path <- match path with
          | None => tempfile_mkdtemp env ""
          | Some p => mkdir p ;;; ret p
          end ;;
  let github_account := pr_target_account cfg in
  let github_repo := GITHUB_EASYCONFIGS_REPO in
  pr_data <- fetch_pr_data env cfg pr github_account github_repo user ;;
  let pr_target_branch := base_ref pr_data in
  repo_target_branch <-
    download_repo env cfg github_repo pr_target_branch github_account None
      user ;;
  let diff_fn := Py.basename (diff_url pr_data) in
  let diff_filepath := Py.path_join path diff_fn in
  tool (download_file env diff_fn (diff_url pr_data) diff_filepath)
       (EvDownload diff_fn (diff_url pr_data) diff_filepath) ;;;
  diff_txt <- read_file diff_filepath ;;
  let patched_files := det_patched_files env diff_txt in
  ret (path, pr_data, repo_target_branch, diff_filepath, patched_files).

(** [fetched_per_file env cfg pr_data dest files start run]: from the
    transcript of [start] on, the run consists of the download of the
    files the diff names, one by one and in order, each at the head
    commit of the PR and into the destination, up to the first download
    that raises; when all are downloaded the sanity check decides: the
    run returns the expected paths of the files outside test/, all
    present, or raises for one that is absent. *)
Definition fetched_per_file (env : Env) (cfg : Config) (pr_data : PullData)
    (dest : string) (files : list string) (start : World)
    (run : Res (list string) * World) : Prop :=
  let account := pr_target_account cfg in
  let fetched := raw_download pr_data account GITHUB_EASYCONFIGS_REPO dest in
  exists done_,
    done_ `prefix_of` files
    /\ trace (snd run) = (trace start ++ (fetched <$> done_))%list
    /\ match fst run with
       | Ok ec_files =>
           done_ = files
           /\ (exists kept,
                 kept_files files kept
                 /\ ec_files = expected_path dest <$> kept)
           /\ Forall (fun p => is_Some (fs (snd run) !! p)) ec_files
       | Raise e =>
           (exists f wd,
              last done_ = Some f /\ f ∈ files
              /\ fst (download_file env (last3_path f)
                        (Py.join URL_SEPARATOR
                           [GITHUB_RAW; account; GITHUB_EASYCONFIGS_REPO;
                            head_sha pr_data; f])
                        (Py.path_join dest (last3_path f)) wd) = Raise e)
           \/ (done_ = files
               /\ exists kept q,
                    kept_files files kept
                    /\ q ∈ expected_path dest <$> kept
                    /\ fs (snd run) !! q = None
                    /\ e = EasyBuildError
                             ("Couldn't find path to patched file " +:+ q))
       end.

(** [ec] is the first record of [file_info] that declares the patch file
    [fn]. *)
Definition first_declaring (file_info : FileInfo) (fn : string)
    (ec : EasyConfig) : Prop :=
  exists before after,
    fi_ecs file_info = (before ++ ec :: after)%list
    /\ declares_patch ec fn
    /\ Forall (fun e => ~ declares_patch e fn) before.

(** How the owner of one patch file is settled, from the world [w]: the
    outcome and the world it leaves.  A known owner (the first record
    that declares the file, when it has a name) settles it and nothing
    happens.  Otherwise the two notices are printed and the search
    roots are scanned: the name the scan finds is the owner, and when it
    finds none the error names the patch file. *)
Inductive attributed (env : Env) (file_info : FileInfo)
    (ec_dirs : list string) (patch_path : string)
    : World -> Res (string * string) -> World -> Prop :=
| attributed_known ec w :
    first_declaring file_info (Py.basename patch_path) ec ->
    ec_name ec <> "" ->
    attributed env file_info ec_dirs patch_path
      w (Ok (patch_path, ec_name ec)) w
| attributed_scanned w name w' :
    ~ known_owner file_info patch_path ->
    find_software_name_for_patch env (Py.basename patch_path) ec_dirs
      (record w (scan_notice patch_path)) = (Ok (Some name), w') ->
    name <> "" ->
    attributed env file_info ec_dirs patch_path w (Ok (patch_path, name)) w'
| attributed_unresolved w found w' :
    ~ known_owner file_info patch_path ->
    find_software_name_for_patch env (Py.basename patch_path) ec_dirs
      (record w (scan_notice patch_path)) = (Ok found, w') ->
    found = None \/ found = Some "" ->
    attributed env file_info ec_dirs patch_path
      w (Raise (unresolved_patch patch_path)) w'
| attributed_scan_failed w e w' :
    ~ known_owner file_info patch_path ->
    find_software_name_for_patch env (Py.basename patch_path) ec_dirs
      (record w (scan_notice patch_path)) = (Raise e, w') ->
    attributed env file_info ec_dirs patch_path w (Raise e) w'.

(** [in_turn step l w r w']: the items of [l] are dealt with one after
    the other by [step], each from the world the one before left, up to
    the first that raises; [r] is the list of the values, or what that
    one raised. *)
Inductive in_turn {A B} (step : A -> World -> Res B -> World -> Prop)
    : list A -> World -> Res (list B) -> World -> Prop :=
| in_turn_nil w : in_turn step [] w (Ok []) w
| in_turn_cons x l w b w1 bs w2 :
    step x w (Ok b) w1 -> in_turn step l w1 (Ok bs) w2 ->
    in_turn step (x :: l) w (Ok (b :: bs)) w2
| in_turn_later x l w b w1 e w2 :
    step x w (Ok b) w1 -> in_turn step l w1 (Raise e) w2 ->
    in_turn step (x :: l) w (Raise e) w2
| in_turn_raise x l w e w1 :
    step x w (Raise e) w1 -> in_turn step (x :: l) w (Raise e) w1.

(** A record without a name that declares toy-fix.patch, and a record
    of bar that declares bar.patch. *)
Definition demo_nameless : EasyConfig := {|
  ec_name := ""; ec_version := "1.0";
  ec_toolchain_name := "GCC"; ec_toolchain_version := "8.2.0";
  ec_versionsuffix := None; ec_easyblock := None; ec_moduleclass := "tools";
  ec_patches := [PatchName "toy-fix.patch"]; ec_exts_list := [];
  ec_spec := "/home/alice/nameless.eb";
|}.

Definition demo_bar : EasyConfig := {|
  ec_name := "bar"; ec_version := "0.3";
  ec_toolchain_name := "intel"; ec_toolchain_version := "2019a";
  ec_versionsuffix := None; ec_easyblock := None; ec_moduleclass := "bio";
  ec_patches := [PatchName "bar.patch"]; ec_exts_list := [];
  ec_spec := "/home/alice/bar-0.3.eb";
|}.

(** A robot path that holds toy-2.0.eb, which declares toy-fix.patch. *)
Definition demo_robot : World :=
  mkWorld (<["/robot/t/toy/toy-2.0.eb" := File "patches = ['toy-fix.patch']"]>
             (<["/robot/t/toy/README" := File "toy"]> ∅)) [].

(** ** Eligibility criteria, as stated and as implemented *)

Definition is_test_report (c : Comment) : Prop :=
  test_report_regex_search (c_body c) = true.

Definition says_success (c : Comment) : Prop :=
  Py.contains (c_body c) "SUCCESS" = true.

Definition says_failed (c : Comment) : Prop :=
  Py.contains (c_body c) "FAILED" = true.

(** The criterion in the words of the specification: the most recent comment
    whose body matches the test-report header exists and contains
    "SUCCESS".  Comments are listed oldest first. *)
Definition stated_test_report_ok (comments : list Comment) : Prop :=
  exists older c newer,
    comments = (older ++ c :: newer)%list
    /\ is_test_report c /\ says_success c
    /\ Forall (fun c' => ~ is_test_report c') newer.

(** The criterion of the code: the most recent test report that carries
    an outcome ("SUCCESS" or "FAILED") exists and contains "SUCCESS". *)
Definition decisive_test_report_ok (comments : list Comment) : Prop :=
  exists older c newer,
    comments = (older ++ c :: newer)%list
    /\ is_test_report c /\ says_success c
    /\ Forall (fun c' => ~ (is_test_report c'
                            /\ (says_success c' \/ says_failed c'))) newer.

(** All fixed criteria, with the test-report criterion as a parameter. *)
Definition criteria_pass (test_report_ok : list Comment -> Prop)
    (pr_data : PullFull) : Prop :=
  base_ref (pr_core pr_data) = "develop"
  /\ status_last_commit pr_data = "success"
  /\ (base_repo_name (pr_core pr_data) = GITHUB_EASYCONFIGS_REPO ->
      test_report_ok (issue_comments pr_data))
  /\ (exists review, review ∈ reviews pr_data /\ r_state review = "APPROVED")
  /\ milestone (pr_core pr_data) <> None.

(** What the scan of the comments, newest first, finds: the outcome of
    the first test report that carries one. *)
Fixpoint first_outcome (comments : list Comment) : option bool :=
  match comments with
  | [] => None
  | c :: rest =>
      if test_report_regex_search (c_body c) then
        if Py.contains (c_body c) "SUCCESS" then Some true
        else if Py.contains (c_body c) "FAILED" then Some false
        else first_outcome rest
      else first_outcome rest
  end.

(** A pull request whose newest test report carries no outcome yet,
    while an older one reports success. *)
Definition pending_report_pr : PullFull := {|
  pr_core := Demo.pull "open" false "toy";
  status_last_commit := "success";
  issue_comments :=
    [ {| c_body := "Test report by @alice
**SUCCESS**
Build succeeded for 1 out of 1";
         c_updated_at := "2019-01-02T10:00:00Z"; c_user := "alice" |};
      {| c_body := "Test report by @carol
(build still running, results will follow)";
         c_updated_at := "2019-01-03T10:00:00Z"; c_user := "carol" |} ];
  reviews := [ {| r_state := "APPROVED"; r_user := "alice";
                  r_submitted_at := "2019-01-03T11:00:00Z"; r_body := "lgtm" |} ];
|}.

(** The verdict as a boolean: every criterion, and-ed. *)
Definition eligible (pr_data : PullFull) : bool :=
  String.eqb (base_ref (pr_core pr_data)) "develop"
  && String.eqb (status_last_commit pr_data) "success"
  && (if String.eqb (base_repo_name (pr_core pr_data)) GITHUB_EASYCONFIGS_REPO
      then match first_outcome (rev (issue_comments pr_data)) with
           | Some true => true
           | _ => false
           end
      else true)
  && existsb (fun review => String.eqb (r_state review) "APPROVED")
       (reviews pr_data)
  && match milestone (pr_core pr_data) with
     | Some _ => true
     | None => false
     end.

(** ** The repository cache, as the specification describes it *)

(** Where [download_repo] keeps things under the destination [path]. *)
Definition account_dir (path account : string) : string :=
  Py.path_join path account.

Definition expected_dir (path account repo branch : string) : string :=
  Py.path_join (account_dir path account) (repo +:+ "-" +:+ branch).

Definition sha_marker (path account repo branch : string) : string :=
  Py.path_join (expected_dir path account repo branch) "latest-sha".

Definition archive_url (account repo branch : string) : string :=
  Py.join URL_SEPARATOR
    [GITHUB_URL; account; repo; "archive"; branch +:+ ".tar.gz"].

Definition archive_path (path account branch : string) : string :=
  Py.path_join (account_dir path account) (branch +:+ ".tar.gz").

(** The marker records [sha]: it is a regular file whose first line,
    trailing whitespace trimmed, is [sha]. *)
Definition marker_current (disk : FS) (marker sha : string) : bool :=
  match disk !! marker with
  | Some (File txt) => String.eqb sha (Py.rstrip (Py.first_line txt))
  | _ => false
  end.

(** Download and force-extract the archive; fail if the expected
    directory did not materialise; only then write the marker and
    return the path. *)
Definition fetch_snapshot (env : Env) (repo branch account path sha : string)
    (w : World) : Res string * World :=
  let base_name := branch +:+ ".tar.gz" in
  let target := archive_path path account branch in
  let '(downloaded, disk1) :=
    download_file env base_name (archive_url account repo branch) target w in
  let w1 := mkWorld disk1
              (trace w ++ [EvDownload base_name
                             (archive_url account repo branch) target]) in
  match downloaded with
  | Raise e => (Raise e, w1)
  | Ok _ =>
      let '(extracted, disk2) :=
        extract_file env target (account_dir path account) w1 in
      let w2 := mkWorld disk2
                  (trace w1 ++ [EvExtract target (account_dir path account)]) in
      match extracted with
      | Raise e => (Raise e, w2)
      | Ok dir =>
          let extracted_path := Py.path_join dir (repo +:+ "-" +:+ branch) in
          match disk2 !! extracted_path with
          | Some Dir =>
              (Ok extracted_path,
               mkWorld (<[sha_marker path account repo branch := File sha]> disk2)
                 (trace w2))
          | _ =>
              (Raise (EasyBuildError
                 (extracted_path +:+ " should exist and contain the repo "
                  +:+ repo +:+ " at branch " +:+ branch)), w2)
          end
      end
  end.

(** The cache contract for an explicit destination: look up the tip,
    reuse the snapshot exactly when the marker records it, fetch a new
    snapshot otherwise. *)
Definition acquire (env : Env) (cfg : Config)
    (repo branch account path : string) (user : option string)
    (w : World) : Res string * World :=
  let w0 := snd (mkdir (account_dir path account) w) in
  match fetch_latest_commit_sha env cfg repo account branch user w0 with
  | (Raise e, w1) => (Raise e, w1)
  | (Ok sha, w1) =>
      let marker := sha_marker path account repo branch in
      if marker_current (fs w1) marker sha
      then (Ok (expected_dir path account repo branch), w1)
      else match fs w1 !! marker with
           | Some Dir => (Raise (EasyBuildError ("Failed to read " +:+ marker)), w1)
           | _ => fetch_snapshot env repo branch account path sha w1
           end
  end.

Definition is_download (e : Event) : bool :=
  match e with
  | EvDownload _ _ _ => true
  | _ => false
  end.

(** How many content fetches a transcript holds. *)
Definition content_fetches (evs : list Event) : nat :=
  List.length (List.filter is_download evs).

(** A commit SHA as the forge reports it: no line break, no trailing blank. *)
Definition clean_sha (sha : string) : Prop :=
  Py.rstrip (Py.first_line sha) = sha.

(** ** Obsolescence, read off the indexed tree *)

(** The easyconfig files a walk over [top] finds on [disk]. *)
Definition eb_files_under (env : Env) (disk : FS) (top : string) : list string :=
  flat_map (fun '(dirpath, filenames) =>
    Py.path_join dirpath <$> List.filter is_eb filenames) (os_walk env top disk).

(** Where a robot path keeps the easyconfigs of a package:
    [<robot_path>/<first letter, lower case>/<name>]. *)
Definition package_dir (robot_path name : string) : string :=
  match name with
  | EmptyString => robot_path
  | String c _ =>
      Py.path_join (Py.path_join robot_path
        (String (Py.lower_ascii c) EmptyString)) name
  end.

(** A newer version of the same-named package exists under a robot
    path: some easyconfig file in the package's directory parses to a
    version that [LooseVersion] ranks above the PR's. *)
Definition newer_version_in (env : Env) (disk : FS) (robot_path : string)
    (pr_ec : EasyConfig) : Prop :=
  exists f ec,
    f ∈ eb_files_under env disk (package_dir robot_path (ec_name pr_ec))
    /\ get_config_dict env f disk = Ok ec
    /\ LooseVersion.gt (ec_version ec) (ec_version pr_ec) = Some true.

Definition newer_version_exists (env : Env) (cfg : Config) (disk : FS)
    (pr_ec : EasyConfig) : Prop :=
  exists rp, rp ∈ robot_path cfg /\ newer_version_in env disk rp pr_ec.

(** The demo pull request, fully hydrated. *)
Definition demo_full (ttl : string) : PullFull := {|
  pr_core := Demo.pull "open" false ttl;
  status_last_commit := "success";
  issue_comments := [];
  reviews := [];
|}.

(** ** Working copy: what the transcript of a set-up shows *)

(** The two URLs under which a repository of an account is reached. *)
Definition ssh_url (account repo : string) : string :=
  "git@github.com:" +:+ account +:+ "/" +:+ repo +:+ ".git".

Definition https_url (account repo : string) : string :=
  "https://github.com/" +:+ account +:+ "/" +:+ repo +:+ ".git".

(** Remotes are created for the given URLs only. *)
Definition remote_url_in (urls : list string) (e : Event) : Prop :=
  match e with
  | EvGit _ (GitCreateRemote _ url) _ => url ∈ urls
  | _ => True
  end.

(** The transcript of a set-up from [url] that went through: the remote
    [name] is created and found to exist, the fetch reports no error,
    the branch is among the remote's refs, and it is checked out, either
    under its own name or, when that fails, forcibly under
    [<branch>_<salt>]. *)
Definition fetched_and_checked_out (git_repo url branch salt name : string)
    (evs : list Event) : Prop :=
  exists created present fetched note has checkout,
    evs = ([EvGit git_repo (GitCreateRemote name url) created;
            EvGit git_repo (GitRemoteExists name) present;
            EvPrint ("fetching branch '" +:+ branch +:+ "' from " +:+ url
                     +:+ "...");
            EvGit git_repo (GitFetch name) fetched;
            EvGit git_repo (GitHasRef name branch) has] ++ checkout)%list
    /\ g_error created = None
    /\ g_error present = None /\ g_flag present = true
    /\ g_error fetched = None /\ g_info fetched = Some (false, note)
    /\ g_error has = None /\ g_flag has = true
    /\ ((exists r,
           checkout = [EvGit git_repo
                         (GitCheckoutNew name branch branch false) r]
           /\ g_error r = None)
        \/ (exists r1 r2,
              checkout = [EvGit git_repo
                            (GitCheckoutNew name branch branch false) r1;
                          EvGit git_repo
                            (GitCheckoutNew name branch
                               (branch +:+ "_" +:+ salt) true) r2]
              /\ g_error r1 <> None /\ g_error r2 = None)).

(** ** Code that only reads

    [reads disk m P Q]: started on the disk [disk], a run of [m] leaves
    the disk as it is, appends only events that satisfy [P], and a
    value it returns satisfies [Q]. *)
Definition reads (disk : FS) {A} (m : M A) (P : Event -> Prop)
    (Q : A -> Prop) : Prop :=
  forall w, fs w = disk ->
    exists evs,
      snd (m w) = record w evs /\ Forall P evs
      /\ forall a, fst (m w) = Ok a -> Q a.

(** A file the patch scan may read and parse: a file of a walk over one
    of the search roots that is neither the template nor a Python file
    and whose text mentions patches. *)
Definition scannable (env : Env) (disk : FS) (ec_dirs : list string)
    (path : string) : Prop :=
  exists ec_dir dirpath filenames fn txt,
    ec_dir ∈ ec_dirs
    /\ (dirpath, filenames) ∈ os_walk env ec_dir disk
    /\ fn ∈ filenames
    /\ fn <> "TEMPLATE.eb"
    /\ Py.endswith fn ".py" = false
    /\ path = Py.path_join dirpath fn
    /\ disk !! path = Some (File txt)
    /\ Py.contains txt "patches" = true.

(** What the patch scan may do: walk a search root, parse a scannable
    file, print. *)
Definition scan_event (env : Env) (disk : FS) (ec_dirs : list string)
    (e : Event) : Prop :=
  match e with
  | EvWalk top => top ∈ ec_dirs
  | EvParse path => scannable env disk ec_dirs path
  | EvPrint _ => True
  | _ => False
  end.

(** The name the scan answers with is the name of a record that was
    parsed from a scannable file and declares the patch. *)
Definition scanned_owner (env : Env) (disk : FS) (ec_dirs : list string)
    (patch_name name : string) : Prop :=
  exists path ecs ec,
    scannable env disk ec_dirs path
    /\ process_easyconfig env path disk = Ok ecs
    /\ ec ∈ ecs
    /\ is_patch_for patch_name ec = true
    /\ ec_name ec = name.

(** ** Messages *)

(** Output only: a line on standard output or on standard error, or a
    warning. *)
Definition is_message (e : Event) : bool :=
  match e with
  | EvPrint _ | EvPrintErr _ | EvWarn _ => true
  | _ => false
  end.

(** A line on standard error: what [not_eligible] prints. *)
Definition is_print_err (e : Event) : bool :=
  match e with
  | EvPrintErr _ => true
  | _ => false
  end.

(** [judges m res ok]: [m] is one criterion of the eligibility check,
    entered with the verdict so far [res]: it only prints, it prints to
    standard error exactly when the criterion fails ([ok] is false), and
    the verdict it passes on is [res && ok]. *)
Definition judges (m : M bool) (res ok : bool) : Prop :=
  forall w, exists evs,
    m w = (Ok (res && ok), record w evs)
    /\ forallb is_message evs = true
    /\ existsb is_print_err evs = negb ok.

(** ** Merging *)

(** The warning of [merge_pr] for a pull request that should not be
    merged. *)
Definition NOT_MERGED_WARNING : string :=
  "Review indicates this PR should not be merged (use -f/--force to do so anyway)".

(** The comment [merge_pr] posts, and the merge request it sends. *)
Definition going_in (cfg : Config) (pr : Z) (pr_data : PullFull) : ApiCall :=
  PostIssueComment (pr_target_account cfg) (pr_target_repo cfg) pr
    ("Going in, thanks @" +:+ user_login (pr_core pr_data) +:+ "!").

Definition merge_request (cfg : Config) (pr : Z) (pr_data : PullFull) : ApiCall :=
  PutMerge (pr_target_account cfg) (pr_target_repo cfg) pr
    (title (pr_core pr_data)) (head_sha (pr_core pr_data)).

(** The world after the demo pull request was fetched in full. *)
Definition demo_fetched : World :=
  mkWorld ∅
    [EvApi (GetPull "easybuilders" GITHUB_EASYCONFIGS_REPO 42);
     EvApi (GetCommitStatus "easybuilders" GITHUB_EASYCONFIGS_REPO "abc123");
     EvApi (GetIssueComments "easybuilders" GITHUB_EASYCONFIGS_REPO 42);
     EvApi (GetPullReviews "easybuilders" GITHUB_EASYCONFIGS_REPO 42)].

(** ** Closing *)

(** The requests [close_pr] sends for a pull request. *)
Definition closing_note (cfg : Config) (pr : Z) (txt : string) : ApiCall :=
  PostIssueComment (pr_target_account cfg) (pr_target_repo cfg) pr txt.

Definition set_state (cfg : Config) (pr : Z) (new_state : string) : ApiCall :=
  PostPullState (pr_target_account cfg) (pr_target_repo cfg) pr new_state.

(** ** Hydration *)

(** The four requests of [fetch_pr_data(..., full=True)], in order. *)
Definition hydration_requests (account repo : string) (pr : Z) (sha : string)
    : list Event :=
  [EvApi (GetPull account repo pr);
   EvApi (GetCommitStatus account repo sha);
   EvApi (GetIssueComments account repo pr);
   EvApi (GetPullReviews account repo pr)].

(** ** Publication *)

(** The easyconfig paths given that are not on the disk. *)
Definition missing_paths (disk : FS) (paths : Paths) : list string :=
  List.filter (fun p => negb (bool_decide (is_Some (disk !! p))))
    (p_easyconfigs paths).

(** The commit message derived when none is given. *)
Definition auto_commit_msg (paths : Paths) (file_info : FileInfo) : string :=
  let msg := "adding easyconfigs: "
             +:+ Py.join ", " (Py.basename <$> fi_paths_in_repo file_info) in
  match p_patch_files paths with
  | [] => msg
  | _ :: _ => msg +:+ " and patches: "
              +:+ Py.join ", " (Py.basename <$> p_patch_files paths)
  end.

(** The account the branch is pushed to. *)
Definition push_account (cfg : Config) (start_branch start_account
    : option string) : string :=
  match start_branch with
  | None => str_opt (py_or (github_org cfg) (github_user cfg))
  | Some _ => str_opt start_account
  end.

(** ** Updating a pull request *)

Section Update.

Context (env : Env) (cfg : Config).

(** [det_account_branch_for_pr]: the head label of the pull request,
    [<account>:<branch>], split at its first colon. *)
Definition det_account_branch_for_pr (pr_id : Z) (user : option string)
    : M (string * string) :=
  let user := match user with None => github_user cfg | Some u => Some u end in
  match user with
  | None => raise (EasyBuildError
              "GitHub username (--github-user) must be specified!")
  | Some u =>
      let pr_target_account := pr_target_account cfg in
      let pr_target_repo := pr_target_repo cfg in
      pr_data <- fetch_pr_data env cfg pr_id pr_target_account pr_target_repo
                   (Some u) ;;
      let parts := Py.split ":"%char (head_label pr_data) in
      let account := List.hd "" parts in
      let branch := Py.join ":" (List.tl parts) in
      let github_target := pr_target_account +:+ "/" +:+ pr_target_repo in
      print_msg ("Determined branch name corresponding to " +:+ github_target
                 +:+ " PR #" +:+ pretty pr_id +:+ ": " +:+ branch) ;;;
      ret (account, branch)
  end.

(** [update_pr] *)
Definition update_pr (pr_id : Z) (paths : Paths)
    (ecs : option (list EasyConfig)) (commit_msg : option string) : M unit :=
  match commit_msg with
  | None => raise (EasyBuildError
      "A meaningful commit message must be specified via --pr-commit-msg when using --update-pr")
  | Some _ =>
      let pr_target_account := pr_target_account cfg in
      let pr_target_repo := pr_target_repo cfg in
      ab <- det_account_branch_for_pr pr_id None ;;
      let '(account, branch) := ab in
      r <- _easyconfigs_pr_common env cfg paths ecs (Some branch) (Some branch)
             (Some account) commit_msg ;;
      let '(_, _, _, _, diff_stat) := r in
      print_msg ("Overview of changes:
" +:+ diff_stat +:+ "
") ;;;
      let full_repo := pr_target_account +:+ "/" +:+ pr_target_repo in
      let msg := "Updated " +:+ full_repo +:+ " PR #" +:+ pretty pr_id
                 +:+ " by pushing to branch " +:+ account +:+ "/" +:+ branch in
      let msg := if dry_run_mode cfg then msg +:+ " [DRY RUN]" else msg in
      print_msg msg
  end.

(** *** Token validation *)






End Update.

(** ** The GitHub file system ([Githubfs])

    The class reads a repository through the contents endpoint of the
    forge.  Its REST client is modelled by the answers it gives: a
    function from the path components of the endpoint to a reply.  The
    forge is taken to answer a request the same way throughout a walk,
    and the consumer of a walk to leave the yielded lists as they
    are. *)

Module Githubfs.

Definition GITHUB_DIR_TYPE := "dir".
Definition GITHUB_FILE_TYPE := "file".

(** A value in a decoded JSON object, as far as the class looks at it:
    a string, or anything else with its [str()] rendering. *)
Inductive Value :=
| VStr (s : string)
| VOther (shown : string).

(** What the forge hands back: a list (the listing of a directory), a
    dict (one entry), a string, or None, a boolean or a number. *)
#[warnings="-register-all"] Inductive GithubObj :=
| ObjList (items : list GithubObj)
| ObjDict (fields : gmap string Value)
| ObjStr (s : string)
| ObjScalar.

Record t := {
  githubuser : string;
  reponame : string;
  branchname : string;
  (* [self.gh.repos[githubuser][reponame]['contents'][...].get(ref=branchname)] *)
  gh_contents_get : list string -> Reply GithubObj;
}.

(** [str(v)] *)
Definition py_str (v : Value) : string :=
  match v with
  | VStr s => s
  | VOther shown => shown
  end.

(** [v == s] for a string [s] *)
Definition value_eqb (v : Value) (s : string) : bool :=
  match v with
  | VStr s' => String.eqb s' s
  | VOther _ => false
  end.

(** [githubobj[key]] for a string key *)
Definition getitem (githubobj : GithubObj) (key : string) : Res Value :=
  match githubobj with
  | ObjDict fields =>
      match fields !! key with
      | Some v => Ok v
      | None => Raise (PyError "KeyError")
      end
  | _ => Raise (PyError "TypeError")
  end.

(** [for githubobj in githubobjs]: what the loop sees. *)
Fixpoint chars (s : string) : list GithubObj :=
  match s with
  | EmptyString => []
  | String c s' => ObjStr (String c EmptyString) :: chars s'
  end.

Definition py_iter (githubobjs : GithubObj) : Res (list GithubObj) :=
  match githubobjs with
  | ObjList items => Ok items
  | ObjDict fields => Ok ((fun kv => ObjStr (fst kv)) <$> map_to_list fields)
  | ObjStr s => Ok (chars s)
  | ObjScalar => Raise (PyError "TypeError")
  end.

(** [Githubfs.join]: the arguments that are truthy, joined by the URL
    separator. *)
Definition join (args : list (option string)) : string :=
  Py.join URL_SEPARATOR
    (flat_map (fun x => match x with
                        | Some s => if truthy s then [s] else []
                        | None => []
                        end) args).

(** [Githubfs.isdir(githubobj)] *)
Definition isdir (githubobj : GithubObj) : bool :=
  match githubobj with
  | ObjList _ => true
  | _ =>
      match getitem githubobj "type" with
      | Ok v => value_eqb v GITHUB_DIR_TYPE
      | Raise _ => false
      end
  end.

(** [Githubfs.isfile(githubobj)] *)
Definition isfile (githubobj : GithubObj) : bool :=
  match getitem githubobj "type" with
  | Ok v => value_eqb v GITHUB_FILE_TYPE
  | Raise _ => false
  end.

(** [Githubfs.get_path(path)]: the components that select the endpoint
    under [contents]. *)
Definition get_path (path : option string) : list string :=
  match path with
  | Some p => if truthy p then Py.split "/"%char p else []
  | None => []
  end.

(** [Githubfs.listdir(path)] *)
Definition listdir (self : t) (path : option string) : Res GithubObj :=
  let listing := gh_contents_get self (get_path path) in
  if status listing =? 200 then Ok (data listing)
  else Raise (EasyBuildError "Invalid response from github (I/O error)").

(** The first loop of [walk]: the names of the entries, directories
    and others apart. *)
Fixpoint entries (githubobjs : list GithubObj)
    : Res (list string * list string) :=
  match githubobjs with
  | [] => Ok ([], [])
  | githubobj :: rest =>
      match getitem githubobj "name" with
      | Raise e => Raise e
      | Ok name =>
          match entries rest with
          | Raise e => Raise e
          | Ok (dirs, nondirs) =>
              if isdir githubobj then Ok (py_str name :: dirs, nondirs)
              else Ok (dirs, py_str name :: nondirs)
          end
      end
  end.

(** How a generator ends: it is exhausted, it raises, or the model runs
    out of fuel. *)
Inductive Ending :=
| Done
| Raised (e : Exn)
| OutOfFuel.

(** What [walk] yields: [(top, dirs, nondirs)]. *)
Definition Yield : Type := option string * list string * list string.

(** The loop [for name in dirs: for x in self.walk(new_path, topdown):
    yield x]. *)
Fixpoint walk_dirs (walk : option string -> list Yield * Ending)
    (top : option string) (dirs : list string) : list Yield * Ending :=
  match dirs with
  | [] => ([], Done)
  | name :: rest =>
      let new_path := join [top; Some name] in
      match walk (Some new_path) with
      | (ys, Done) =>
          let '(ys', e) := walk_dirs walk top rest in ((ys ++ ys')%list, e)
      | (ys, e) => (ys, e)
      end
  end.

(** [Githubfs.walk(top, topdown)]: what the generator yields, and how it
    ends. *)
Fixpoint walk (self : t) (fuel : nat) (top : option string) (topdown : bool)
    : list Yield * Ending :=
  match fuel with
  | O => ([], OutOfFuel)
  | S fuel' =>
      match listdir self top with
      | Raise e => ([], Raised e)
      | Ok githubobjs =>
          match py_iter githubobjs with
          | Raise e => ([], Raised e)
          | Ok objs =>
              match entries objs with
              | Raise e => ([], Raised e)
              | Ok (dirs, nondirs) =>
                  let here : Yield := (top, dirs, nondirs) in
                  let '(ys, e) :=
                    walk_dirs (fun p => walk self fuel' p topdown) top dirs in
                  if topdown then (here :: ys, e)
                  else match e with
                       | Done => ((ys ++ [here])%list, Done)
                       | _ => (ys, e)
                       end
              end
          end
      end
  end.

End Githubfs.

(** *** What a walk shows *)


(** The part of a repository below [top] is finite: the listing of
    [top] fails, or it succeeds and the part below each of its
    directories is finite. *)
Inductive finite_below (self : Githubfs.t) : option string -> Prop :=
| finite_unlisted top e :
    Githubfs.listdir self top = Raise e -> finite_below self top
| finite_not_iterable top githubobjs e :
    Githubfs.listdir self top = Ok githubobjs ->
    Githubfs.py_iter githubobjs = Raise e -> finite_below self top
| finite_bad_entry top githubobjs objs e :
    Githubfs.listdir self top = Ok githubobjs ->
    Githubfs.py_iter githubobjs = Ok objs ->
    Githubfs.entries objs = Raise e -> finite_below self top
| finite_listed top githubobjs objs dirs nondirs :
    Githubfs.listdir self top = Ok githubobjs ->
    Githubfs.py_iter githubobjs = Ok objs ->
    Githubfs.entries objs = Ok (dirs, nondirs) ->
    (forall name, name ∈ dirs ->
       finite_below self (Some (Githubfs.join [top; Some name]))) ->
    finite_below self top.

(** A small repository: README.rst and the directory easybuild, which
    holds the directory easyconfigs, which holds TEMPLATE.eb. *)
Definition demo_entry (name type : string) : Githubfs.GithubObj :=
  Githubfs.ObjDict
    (<["name" := Githubfs.VStr name]>
       (<["type" := Githubfs.VStr type]>
          (<["size" := Githubfs.VOther "0"]> ∅))).

Definition demo_repo : Githubfs.t := {|
  Githubfs.githubuser := "easybuilders";
  Githubfs.reponame := "easybuild-easyconfigs";
  Githubfs.branchname := "master";
  Githubfs.gh_contents_get := fun path =>
    match path with
    | [] => mkReply 200
              (Githubfs.ObjList [demo_entry "README.rst" "file";
                                 demo_entry "easybuild" "dir"]) ""
    | ["easybuild"] =>
        mkReply 200 (Githubfs.ObjList [demo_entry "easyconfigs" "dir"]) ""
    | ["easybuild"; "easyconfigs"] =>
        mkReply 200 (Githubfs.ObjList [demo_entry "TEMPLATE.eb" "file"]) ""
    | _ => mkReply 404 Githubfs.ObjScalar "Not Found"
    end;
|}.

(** ** The title of a new pull request

    The part of [new_pr] that derives the title of the pull request from
    the easyconfigs it adds (the labels of the title and the title itself);
    it runs after [_easyconfigs_pr_common] has returned [file_info] and
    [deleted_paths], and touches neither the disk nor the forge. *)

(** [nub] of [easybuild.tools.utilities]: the items of a list without
    the repeated ones, in order of first occurrence ([seen] is the set of
    items met so far). *)
Fixpoint nub_from (seen : gset string) (l : list string) : list string :=
  match l with
  | [] => []
  | x :: l' =>
      if bool_decide (x ∈ seen) then nub_from seen l'
      else x :: nub_from ({[ x ]} ∪ seen) l'
  end.

Definition nub (l : list string) : list string := nub_from ∅ l.

(** [l.count(x)] *)
Definition count (x : string) (l : list string) : nat :=
  List.length (List.filter (String.eqb x) l).

(** [sorted(l)]: the items in ascending order, equal items in the order
    they had. *)
Fixpoint insort {A} (leb : A -> A -> bool) (x : A) (l : list A) : list A :=
  match l with
  | [] => [x]
  | y :: l' => if leb x y then x :: l else y :: insort leb x l'
  end.

Definition sorted {A} (leb : A -> A -> bool) (l : list A) : list A :=
  List.fold_right (insort leb) [] l.

(** The order of Python on pairs of a number and a string: by the number,
    then by the string. *)
Definition tuple_leb (a b : nat * string) : bool :=
  (fst a <? fst b)%nat || ((fst a =? fst b)%nat && String.leb (snd a) (snd b)).

(** [[(l.count(x), x) for x in nub(l)]], sorted *)
Definition counted (l : list string) : list (nat * string) :=
  sorted tuple_leb ((fun x => (count x l, x)) <$> nub l).

(** [[x for (cnt, x) in counted if cnt == counted[-1][0]]]: [counted[-1]]
    is only evaluated for an item of [counted], so it exists whenever it
    is. *)
Definition most_common (l : list string) : list string :=
  let counted := counted l in
  snd <$> List.filter
            (fun c => (fst c =? fst (List.last counted (0%nat, "")))%nat)
            counted.

(** An entry of [ec.dependencies()]. *)
Record Dependency := {
  dep_name : string;
  dep_version : string;
  dep_build_only : bool;
}.

Section Title.

(** [ec.dependencies()] and the keys of [ec['multi_deps']] of a parsed
    easyconfig. *)
Context (dependencies : EasyConfig -> list Dependency)
        (multi_deps : EasyConfig -> list string).

Definition toolchain_label (file_info : FileInfo) : string :=
  Py.join ","
    (most_common
       ((fun ec => ec_toolchain_name ec +:+ "/" +:+ ec_toolchain_version ec)
          <$> fi_ecs file_info)).

Definition class_label (file_info : FileInfo) : string :=
  Py.join "," (most_common (ec_moduleclass <$> fi_ecs file_info)).

(** The versions of Python among the dependencies, build dependencies
    counted only for an easyconfig that lists Python as a multi-dep. *)
Definition pyver (file_info : FileInfo) : list string :=
  List.flat_map
    (fun ec =>
       dep_version <$>
         List.filter
           (fun dep =>
              String.eqb (dep_name dep) "Python"
              && negb (dep_build_only dep
                       && negb (bool_decide ("Python" ∈ multi_deps ec))))
           (dependencies ec))
    (fi_ecs file_info).

Definition names_and_versions (file_info : FileInfo) : list string :=
  nub ((fun ec => ec_name ec +:+ " v" +:+ ec_version ec) <$> fi_ecs file_info).

Definition main_title (file_info : FileInfo) : string :=
  let names_and_versions := names_and_versions file_info in
  if (List.length names_and_versions <=? 3)%nat then
    Py.join ", " names_and_versions
  else Py.join ", " (take 3 names_and_versions ++ ["..."]).

(** [title] as [new_pr] has it when it announces the pull request. *)
Definition pr_title (file_info : FileInfo) (deleted_paths : list string)
    (title commit_msg : option string) : Res string :=
  match title with
  | Some title => Ok title
  | None =>
      if truthy_opt commit_msg then Ok (str_opt commit_msg)
      else if negb (bool_decide (fi_ecs file_info = []))
              && forallb id (fi_new file_info)
              && bool_decide (deleted_paths = []) then
        let title := "{" +:+ class_label file_info +:+ "}["
                     +:+ toolchain_label file_info +:+ "] "
                     +:+ main_title file_info in
        match pyver file_info with
        | [] => Ok title
        | versions =>
            Ok (title +:+ " w/ Python "
                 +:+ Py.join " + " (sorted String.leb (nub versions)))
        end
      else Raise (EasyBuildError
                  ("Don't know how to make a PR title for this PR. "
                   +:+ "Please include a title (use --pr-title)"))
  end.

End Title.

(** [x] is one of the items that occur most often in [l]. *)
Definition most_frequent (x : string) (l : list string) : Prop :=
  x ∈ l /\ forall y, y ∈ l -> (count y l <= count x l)%nat.

(** Three new easyconfigs, two of them with the same toolchain and module
    class, and what they depend on. *)
Definition demo_new_ecs : FileInfo := {|
  fi_ecs := [Demo.toy "1.0";
             {| ec_name := "bar"; ec_version := "0.3";
                ec_toolchain_name := "intel"; ec_toolchain_version := "2019a";
                ec_versionsuffix := None; ec_easyblock := None;
                ec_moduleclass := "bio"; ec_patches := []; ec_exts_list := [];
                ec_spec := "/home/alice/bar-0.3.eb" |};
             Demo.toy "2.0"];
  fi_paths_in_repo := ["/tmp/clone/easybuild/easyconfigs/t/toy/toy-1.0.eb";
                       "/tmp/clone/easybuild/easyconfigs/b/bar/bar-0.3.eb";
                       "/tmp/clone/easybuild/easyconfigs/t/toy/toy-2.0.eb"];
  fi_new := [true; true; true];
|}.

Definition demo_dependencies (ec : EasyConfig) : list Dependency :=
  if String.eqb (ec_name ec) "toy" then
    [ {| dep_name := "Python"; dep_version := "3.7.2"; dep_build_only := false |};
      {| dep_name := "CMake"; dep_version := "3.13.3"; dep_build_only := true |} ]
  else
    [ {| dep_name := "Python"; dep_version := "2.7.15"; dep_build_only := false |};
      {| dep_name := "Python"; dep_version := "3.6.6"; dep_build_only := true |} ].

(** * Verification *)

(** ** Transcripts: what a run can append to the trace *)

Section Emits.
Context (P : Event -> Prop).

Lemma emits_ret {A} (a : A) : emits P (ret a).
Proof. intros w. exists []. simpl. rewrite app_nil_r. auto. Qed.

Lemma emits_raise {A} (e : Exn) : emits P (@raise A e).
Proof. intros w. exists []. simpl. rewrite app_nil_r. auto. Qed.

Lemma emits_bind {A B} (m : M A) (k : A -> M B) :
  emits P m -> (forall a, emits P (k a)) -> emits P (bind m k).
Proof.
  intros Hm Hk w. unfold bind.
  destruct (Hm w) as (evs1 & E1 & F1).
  destruct (m w) as [[a|e] w1]; simpl in *.
  - destruct (Hk a w1) as (evs2 & E2 & F2).
    exists (evs1 ++ evs2)%list. rewrite E2, E1, app_assoc. split; [done|].
    apply Forall_app; auto.
  - exists evs1. auto.
Qed.

Lemma emits_emit (e : Event) : P e -> emits P (emit e).
Proof. intros H w. exists [e]. simpl. auto. Qed.

Lemma emits_ask {A} (q : World -> A) : emits P (ask q).
Proof. intros w. exists []. simpl. rewrite app_nil_r. auto. Qed.

Lemma emits_look {A} (q : FS -> A) : emits P (look q).
Proof. intros w. exists []. simpl. rewrite app_nil_r. auto. Qed.

Lemma emits_tool {A} (q : World -> Res A * FS) (e : Event) :
  P e -> emits P (tool q e).
Proof.
  intros H w. exists [e]. unfold tool. destruct (q w) as [r fs']. simpl. auto.
Qed.

Lemma emits_try_EasyBuildError {A} (m : M A) (h : string -> M A) :
  emits P m -> (forall msg, emits P (h msg)) ->
  emits P (try_except_EasyBuildError m h).
Proof.
  intros Hm Hh w. unfold try_except_EasyBuildError.
  destruct (Hm w) as (evs1 & E1 & F1).
  destruct (m w) as [[a|[msg|msg|k]] w1]; simpl in *; eauto.
  destruct (Hh msg w1) as (evs2 & E2 & F2).
  exists (evs1 ++ evs2)%list. rewrite E2, E1, app_assoc. split; [done|].
  apply Forall_app; auto.
Qed.

Lemma emits_try_GitCommandError {A} (m : M A) (h : string -> M A) :
  emits P m -> (forall msg, emits P (h msg)) ->
  emits P (try_except_GitCommandError m h).
Proof.
  intros Hm Hh w. unfold try_except_GitCommandError.
  destruct (Hm w) as (evs1 & E1 & F1).
  destruct (m w) as [[a|[msg|msg|k]] w1]; simpl in *; eauto.
  destruct (Hh msg w1) as (evs2 & E2 & F2).
  exists (evs1 ++ evs2)%list. rewrite E2, E1, app_assoc. split; [done|].
  apply Forall_app; auto.
Qed.

Lemma emits_for_each {A} (l : list A) (body : A -> M unit) :
  (forall x, emits P (body x)) -> emits P (for_each l body).
Proof.
  intros H. induction l as [|x l IH]; simpl.
  - apply emits_ret.
  - apply emits_bind; auto.
Qed.

Lemma emits_map_m {A B} (body : A -> M B) (l : list A) :
  (forall x, emits P (body x)) -> emits P (map_m body l).
Proof.
  intros H. induction l as [|x l IH]; simpl.
  - apply emits_ret.
  - apply emits_bind; auto. intros y. apply emits_bind; auto.
    intros ys. apply emits_ret.
Qed.

Lemma emits_os_path_exists p : emits P (os_path_exists p).
Proof. intros w. exists []. simpl. rewrite app_nil_r. auto. Qed.

Lemma emits_os_path_isdir p : emits P (os_path_isdir p).
Proof. intros w. exists []. simpl. rewrite app_nil_r. auto. Qed.

Lemma emits_read_file p : emits P (read_file p).
Proof.
  intros w. exists []. unfold read_file.
  destruct (fs w !! p) as [[]|]; simpl; rewrite app_nil_r; auto.
Qed.

Lemma emits_write_file p txt : emits P (write_file p txt).
Proof. intros w. exists []. simpl. rewrite app_nil_r. auto. Qed.

Lemma emits_mkdir p : emits P (mkdir p).
Proof.
  intros w. exists []. unfold mkdir.
  destruct (fs w !! p); simpl; rewrite app_nil_r; auto.
Qed.

Lemma emits_mkdtemp env prefix : emits P (tempfile_mkdtemp env prefix).
Proof.
  intros w. exists []. unfold tempfile_mkdtemp.
  destruct (mkdtemp env prefix w). simpl. rewrite app_nil_r. auto.
Qed.

Lemma emits_git_call env repo cmd :
  (forall r, P (EvGit repo cmd r)) -> emits P (git_call env repo cmd).
Proof.
  intros H w. unfold git_call.
  destruct (git env repo cmd w) as [r fs'].
  exists [EvGit repo cmd r]. destruct (g_error r); simpl; auto.
Qed.

End Emits.

Lemma emits_weaken {A} (P Q : Event -> Prop) (m : M A) :
  (forall e, P e -> Q e) -> emits P m -> emits Q m.
Proof.
  intros H Hm w. destruct (Hm w) as (evs & E & F). exists evs. split; auto.
  eapply Forall_impl; eauto.
Qed.

Create HintDb emits_db.

Ltac emits_step :=
  match goal with
  | |- emits _ (bind _ _) => apply emits_bind; [| intros ?]
  | |- emits _ (ret _) => apply emits_ret
  | |- emits _ (raise _) => apply emits_raise
  | |- emits _ (emit _) => apply emits_emit
  | |- emits _ (print_msg _) => apply emits_emit
  | |- emits _ (print_warning _) => apply emits_emit
  | |- emits _ (ask _) => apply emits_ask
  | |- emits _ (look _) => apply emits_look
  | |- emits _ (tool _ _) => apply emits_tool
  | |- emits _ (try_except_EasyBuildError _ _) =>
      apply emits_try_EasyBuildError; [| intros ?]
  | |- emits _ (try_except_GitCommandError _ _) =>
      apply emits_try_GitCommandError; [| intros ?]
  | |- emits _ (for_each _ _) => apply emits_for_each; intros ?
  | |- emits _ (map_m _ _) => apply emits_map_m; intros ?
  | |- emits _ (os_path_exists _) => apply emits_os_path_exists
  | |- emits _ (os_path_isdir _) => apply emits_os_path_isdir
  | |- emits _ (read_file _) => apply emits_read_file
  | |- emits _ (write_file _ _) => apply emits_write_file
  | |- emits _ (mkdir _) => apply emits_mkdir
  | |- emits _ (tempfile_mkdtemp _ _) => apply emits_mkdtemp
  | |- emits _ (git_call _ _ _) => apply emits_git_call; intros ?
  | |- emits _ (match ?x with _ => _ end) => destruct x
  | |- emits _ (let '(_, _) := ?x in _) => destruct x
  | |- emits _ _ => solve [eauto with emits_db]
  end.

Ltac emits_auto := repeat emits_step; try done.

Lemma emits_fetch_github_token P env u : emits P (fetch_github_token env u).
Proof. unfold fetch_github_token. emits_auto. Qed.
#[export] Hint Resolve emits_fetch_github_token : emits_db.

(** ** Everything short of committing, pushing and posting is [plain] *)

Lemma plain_quiet e : plain e -> quiet e.
Proof. unfold plain, quiet. destruct (mutating e); simpl; auto. Qed.

Ltac plain_auto := emits_auto; try (intros; reflexivity).

Lemma plain_api_get {A} env cfg call (get : World -> Reply A) u :
  plain (EvApi call) -> emits plain (github_api_get_request env cfg call get u).
Proof. intros H. unfold github_api_get_request. emits_auto. Qed.

Lemma plain_fetch_latest_commit_sha env cfg repo account branch u :
  emits plain (fetch_latest_commit_sha env cfg repo account branch u).
Proof.
  unfold fetch_latest_commit_sha. emits_auto. now apply plain_api_get.
Qed.
#[export] Hint Resolve plain_fetch_latest_commit_sha : emits_db.

Lemma plain_download_repo env cfg repo branch account path u :
  emits plain (download_repo env cfg repo branch account path u).
Proof. unfold download_repo. plain_auto. Qed.
#[export] Hint Resolve plain_download_repo : emits_db.

Lemma plain_fetch_pr_data env cfg pr account repo u :
  emits plain (fetch_pr_data env cfg pr account repo u).
Proof. unfold fetch_pr_data. emits_auto. now apply plain_api_get. Qed.
#[export] Hint Resolve plain_fetch_pr_data : emits_db.

Lemma plain_fetch_pr_data_full env cfg pr account repo u :
  emits plain (fetch_pr_data_full env cfg pr account repo u).
Proof.
  unfold fetch_pr_data_full. emits_auto; now apply plain_api_get.
Qed.
#[export] Hint Resolve plain_fetch_pr_data_full : emits_db.

Lemma plain_download_patched_files env pr_data account repo path files :
  emits plain (download_patched_files env pr_data account repo path files).
Proof. unfold download_patched_files. plain_auto. Qed.
#[export] Hint Resolve plain_download_patched_files : emits_db.

Lemma plain_pr_final_path env pr pr_data account repo path rtb diff files :
  emits plain (pr_final_path env pr pr_data account repo path rtb diff files).
Proof. unfold pr_final_path. plain_auto. Qed.
#[export] Hint Resolve plain_pr_final_path : emits_db.

Lemma plain_check_patched_files path files :
  emits plain (check_patched_files path files).
Proof. induction files; simpl; plain_auto. Qed.
#[export] Hint Resolve plain_check_patched_files : emits_db.

Lemma plain_link_easyconfig_dirs env final_path path :
  emits plain (link_easyconfig_dirs env final_path path).
Proof. unfold link_easyconfig_dirs. plain_auto. Qed.
#[export] Hint Resolve plain_link_easyconfig_dirs : emits_db.

Lemma plain_pr_tree env cfg pr path u : emits plain (pr_tree env cfg pr path u).
Proof. unfold pr_tree. plain_auto. Qed.
#[export] Hint Resolve plain_pr_tree : emits_db.

Lemma plain_fetch_easyconfigs_from_pr env cfg pr path u :
  emits plain (fetch_easyconfigs_from_pr env cfg pr path u).
Proof. unfold fetch_easyconfigs_from_pr. plain_auto. Qed.
#[export] Hint Resolve plain_fetch_easyconfigs_from_pr : emits_db.

Lemma plain_walk_files env top keep : emits plain (walk_files env top keep).
Proof. unfold walk_files. plain_auto. Qed.
#[export] Hint Resolve plain_walk_files : emits_db.

Lemma plain_parse_easyconfig env path : emits plain (parse_easyconfig env path).
Proof. unfold parse_easyconfig. plain_auto. Qed.
#[export] Hint Resolve plain_parse_easyconfig : emits_db.

Lemma plain_archived_toolchain_loop env pr_ec pr_tc files acc :
  emits plain (archived_toolchain_loop env pr_ec pr_tc files acc).
Proof. revert acc. induction files; intros; simpl; plain_auto. Qed.
#[export] Hint Resolve plain_archived_toolchain_loop : emits_db.

Lemma plain_newer_versions_loop env pr_ec files acc :
  emits plain (newer_versions_loop env pr_ec files acc).
Proof. revert acc. induction files; intros; simpl; plain_auto. Qed.
#[export] Hint Resolve plain_newer_versions_loop : emits_db.

Lemma plain_robot_paths_loop env pr_ec pr_tc robot_paths acc :
  emits plain (robot_paths_loop env pr_ec pr_tc robot_paths acc).
Proof. revert acc. induction robot_paths; intros; simpl; plain_auto. Qed.
#[export] Hint Resolve plain_robot_paths_loop : emits_db.

Lemma plain_pr_files_loop env cfg pr_files acc :
  emits plain (pr_files_loop env cfg pr_files acc).
Proof. revert acc. induction pr_files; intros; simpl; plain_auto. Qed.
#[export] Hint Resolve plain_pr_files_loop : emits_db.

Lemma plain_reasons_for_closing env cfg pr_data :
  emits plain (reasons_for_closing env cfg pr_data).
Proof. unfold reasons_for_closing. plain_auto. Qed.
#[export] Hint Resolve plain_reasons_for_closing : emits_db.

Lemma plain_not_eligible msg : emits plain (not_eligible msg).
Proof. unfold not_eligible. plain_auto. Qed.
#[export] Hint Resolve plain_not_eligible : emits_db.

Lemma plain_check_test_reports comments res :
  emits plain (check_test_reports comments res).
Proof. induction comments; simpl; plain_auto. Qed.
#[export] Hint Resolve plain_check_test_reports : emits_db.

Lemma plain_check_pr_eligible_to_merge pr_data :
  emits plain (check_pr_eligible_to_merge pr_data).
Proof. unfold check_pr_eligible_to_merge. plain_auto. Qed.
#[export] Hint Resolve plain_check_pr_eligible_to_merge : emits_db.

Lemma plain_random_salt env n : emits plain (random_salt env n).
Proof. unfold random_salt. plain_auto. Qed.
#[export] Hint Resolve plain_random_salt : emits_db.

Lemma plain_init_repo env cfg path repo_name :
  emits plain (init_repo env cfg path repo_name).
Proof. unfold init_repo. plain_auto. Qed.
#[export] Hint Resolve plain_init_repo : emits_db.

Lemma plain_setup_repo_from env git_repo url account branch :
  emits plain (setup_repo_from env git_repo url account branch).
Proof. unfold setup_repo_from. plain_auto. Qed.
#[export] Hint Resolve plain_setup_repo_from : emits_db.

Lemma plain_setup_repo_loop env git_repo account repo branch urls errors :
  emits plain (setup_repo_loop env git_repo account repo branch urls errors).
Proof. revert errors. induction urls; intros; simpl; plain_auto. Qed.
#[export] Hint Resolve plain_setup_repo_loop : emits_db.

Lemma plain_setup_repo env git_repo account repo branch git_only :
  emits plain (setup_repo env git_repo account repo branch git_only).
Proof. unfold setup_repo. plain_auto. Qed.
#[export] Hint Resolve plain_setup_repo : emits_db.

Lemma plain_create_remote env git_repo account repo https :
  emits plain (create_remote env git_repo account repo https).
Proof. unfold create_remote. plain_auto. Qed.
#[export] Hint Resolve plain_create_remote : emits_db.

Lemma plain_mentioning_patches paths : emits plain (mentioning_patches paths).
Proof. induction paths; simpl; plain_auto. Qed.
#[export] Hint Resolve plain_mentioning_patches : emits_db.

Lemma plain_scan_easyconfigs env patch_name nr idx all_ecs soft_name :
  emits plain (scan_easyconfigs env patch_name nr idx all_ecs soft_name).
Proof.
  revert idx soft_name. induction all_ecs; intros; simpl; plain_auto.
Qed.
#[export] Hint Resolve plain_scan_easyconfigs : emits_db.

Lemma plain_find_software_name_for_patch env patch_name ec_dirs :
  emits plain (find_software_name_for_patch env patch_name ec_dirs).
Proof. unfold find_software_name_for_patch. plain_auto. Qed.
#[export] Hint Resolve plain_find_software_name_for_patch : emits_db.

Lemma plain_det_patch_spec env file_info ec_dirs patch_path :
  emits plain (det_patch_spec env file_info ec_dirs patch_path).
Proof. unfold det_patch_spec. plain_auto. Qed.
#[export] Hint Resolve plain_det_patch_spec : emits_db.

Lemma plain_det_patch_specs env patch_paths file_info ec_dirs :
  emits plain (det_patch_specs env patch_paths file_info ec_dirs).
Proof. unfold det_patch_specs. plain_auto. Qed.
#[export] Hint Resolve plain_det_patch_specs : emits_db.

Lemma plain_new_dep_paths n idx info : emits plain (new_dep_paths n idx info).
Proof. revert idx. induction n; intros; simpl; plain_auto. Qed.
#[export] Hint Resolve plain_new_dep_paths : emits_db.

Lemma plain_det_deleted_paths env repo_path fns :
  emits plain (det_deleted_paths env repo_path fns).
Proof. induction fns; simpl; plain_auto. Qed.
#[export] Hint Resolve plain_det_deleted_paths : emits_db.

Lemma plain_stage_changes env cfg paths ecs start_branch pr_branch
    start_account commit_msg :
  emits plain (stage_changes env cfg paths ecs start_branch pr_branch
                 start_account commit_msg).
Proof. unfold stage_changes. plain_auto. Qed.

(** ** Dry-run mode (C9) *)

Lemma quiet_post_comment_dry env cfg issue txt account repo user :
  dry_run_mode cfg = true ->
  emits plain (post_comment_in_issue env cfg issue txt account repo user).
Proof. intros H. unfold post_comment_in_issue. rewrite H. cbn beta iota delta [negb]. plain_auto. Qed.

Lemma quiet_push_dry env cfg git_repo account repo branch :
  dry_run_mode cfg = true ->
  emits plain (push_branch_to_github env cfg git_repo account repo branch).
Proof. intros H. unfold push_branch_to_github. rewrite H. cbn beta iota delta [negb]. plain_auto. Qed.

Lemma plain_closing_comment env cfg pr motivation user :
  emits plain (closing_comment env cfg pr motivation user).
Proof. unfold closing_comment. plain_auto. Qed.

Lemma quiet_close_pr_dry env cfg pr motivation :
  dry_run_mode cfg = true -> emits plain (close_pr env cfg pr motivation).
Proof.
  intros H. unfold close_pr. rewrite H. cbn beta iota delta [negb]. emits_auto.
  - apply plain_closing_comment.
  - now apply quiet_post_comment_dry.
Qed.

Lemma closing_comment_real_run env cfg pr motivation user :
  closing_comment env (real_run cfg) pr motivation user
  = closing_comment env cfg pr motivation user.
Proof. reflexivity. Qed.

Lemma post_comment_dry env cfg issue n txt account repo user w :
  dry_run_mode cfg = true -> issue_number issue = Some n ->
  post_comment_in_issue env cfg issue txt account repo user w
  = (Ok tt, record w [EvPrint ("[DRY RUN] " +:+ comment_msg repo n txt)]).
Proof.
  intros Hdry Hn. unfold post_comment_in_issue. rewrite Hdry.
  destruct issue as [m|s]; simpl in Hn.
  - inversion Hn; subst. reflexivity.
  - rewrite Hn. reflexivity.
Qed.

Lemma post_comment_real env cfg issue n txt account repo user w :
  issue_number issue = Some n ->
  exists r w',
    post_comment_in_issue env (real_run cfg) issue txt account repo user w
    = (r, w')
    /\ trace w' = (trace w ++ [EvPrint (comment_msg repo n txt);
                    EvApi (PostIssueComment account repo n txt)])%list.
Proof.
  intros Hn. unfold post_comment_in_issue.
  assert (Hm : forall (k : Z -> M unit), 
     bind (match issue with
           | IssueInt n => ret n
           | IssueStr s => match Py.int_of_string s with
               | Some n => ret n
               | None => raise (EasyBuildError
                     ("Failed to parse specified pull request number '"
                      +:+ s +:+ "' as an int: invalid literal; "))
               end
           end) k w = k n w).
  { intros k. destruct issue as [m|s]; simpl in Hn.
    - inversion Hn; subst. reflexivity.
    - rewrite Hn. reflexivity. }
  rewrite Hm. cbn [dry_run_mode real_run dry_run extended_dry_run orb negb].
  unfold bind, print_msg, emit, fetch_github_token, ask, ret.
  destruct user; cbn beta iota;
    match goal with |- context [negb ?b] => destruct b end;
    cbn [negb]; eexists _, _; (split; [reflexivity|]); simpl;
    rewrite <- app_assoc; reflexivity.
Qed.

Lemma push_dry_vs_real env cfg git_repo account repo branch w :
  dry_run_mode cfg = true ->
  match create_remote env git_repo account repo false w with
  | (Ok remote, w1) =>
      push_branch_to_github env cfg git_repo account repo branch w
      = (Ok tt, record w1
           [EvPrint (push_msg branch remote account repo +:+ " [DRY RUN]")])
      /\ exists r reply w',
           push_branch_to_github env (real_run cfg) git_repo account repo
             branch w = (r, w')
           /\ trace w' = (trace w1 ++
                [EvPrint (push_msg branch remote account repo);
                 EvGit git_repo (GitPush remote branch) reply])%list
  | (Raise e, w1) =>
      push_branch_to_github env cfg git_repo account repo branch w
      = (Raise e, w1)
      /\ push_branch_to_github env (real_run cfg) git_repo account repo
           branch w = (Raise e, w1)
  end.
Proof.
  intros Hdry. unfold push_branch_to_github. rewrite Hdry.
  cbn [dry_run_mode real_run dry_run extended_dry_run orb].
  destruct (create_remote env git_repo account repo false w)
    as [[remote|e] w1] eqn:E.
  - split; [unfold bind; rewrite E; reflexivity|].
    unfold bind at 1. rewrite E.
    unfold bind, print_msg, emit, try_except_GitCommandError, git_call.
    cbn beta iota. cbn [fs trace].
    match goal with |- context [git env git_repo (GitPush remote branch) ?ww] =>
      destruct (git env git_repo (GitPush remote branch) ww) as [reply fs'] end.
    destruct (g_error reply); [|destruct (g_info reply) as [[[] ?]|]];
      eexists _, reply, _; (split; [reflexivity|]); simpl;
      rewrite <- app_assoc; reflexivity.
  - split; unfold bind; rewrite E; reflexivity.
Qed.

Lemma close_pr_dry_vs_real env cfg pr motivation user w :
  dry_run_mode cfg = true -> github_user cfg = Some user ->
  match closing_comment env cfg pr motivation user w with
  | (Ok (txt, reopen), w1) =>
      close_pr env cfg pr motivation w
      = (Ok tt, record w1
           ([EvPrint ("[DRY RUN] " +:+ comment_msg (pr_target_repo cfg) pr txt);
             EvPrint (closed_msg cfg pr)]
            ++ if reopen then [EvPrint (reopened_msg cfg pr)] else []))
      /\ exists r w' post,
           close_pr env (real_run cfg) pr motivation w = (r, w')
           /\ trace w' = (trace w1 ++
                [EvPrint (comment_msg (pr_target_repo cfg) pr txt);
                 EvApi (PostIssueComment (pr_target_account cfg)
                          (pr_target_repo cfg) pr txt)] ++ post)%list
  | (Raise e, w1) =>
      close_pr env cfg pr motivation w = (Raise e, w1)
      /\ close_pr env (real_run cfg) pr motivation w = (Raise e, w1)
  end.
Proof.
  intros Hdry Huser. unfold close_pr.
  cbn [real_run github_user pr_target_account pr_target_repo].
  rewrite Huser, closing_comment_real_run.
  destruct (closing_comment env cfg pr motivation user w)
    as [[[txt reopen]|e] w1] eqn:E.
  - split.
    + unfold bind at 1. rewrite E. unfold bind at 1.
      rewrite (post_comment_dry env cfg (IssueInt pr) pr) by (auto; reflexivity).
      rewrite Hdry. unfold record, closed_msg, reopened_msg.
      destruct reopen; unfold bind, print_msg, emit, ret; cbn;
        rewrite <- ?app_assoc; reflexivity.
    + unfold bind at 1. rewrite E. unfold bind at 1.
      destruct (post_comment_real env cfg (IssueInt pr) pr txt
                  (pr_target_account cfg) (pr_target_repo cfg) (Some user) w1
                  eq_refl) as (r0 & w2 & Hr & Ht).
      rewrite Hr. destruct r0 as [[]|e0].
      * cbn [dry_run_mode real_run dry_run extended_dry_run orb].
        unfold bind, fetch_github_token, ask, emit, raise, ret.
        destruct (keyring_get_password env user w2);
          [|eexists _, _, []; split; [reflexivity|]; rewrite Ht; reflexivity].
        match goal with |- context [negb ?b] => destruct b end; cbn [negb].
        -- destruct reopen.
           ++ match goal with |- context [negb ?b] => destruct b end; cbn [negb];
                eexists _, _, _; (split; [reflexivity|]); cbn [trace];
                rewrite Ht, <- !app_assoc; reflexivity.
           ++ eexists _, _, _; (split; [reflexivity|]); cbn [trace];
                rewrite Ht, <- !app_assoc; reflexivity.
        -- eexists _, _, _; (split; [reflexivity|]); cbn [trace];
             rewrite Ht, <- !app_assoc; reflexivity.
      * eexists _, _, []. split; [reflexivity|]. rewrite Ht. reflexivity.
  - split; unfold bind; rewrite E; reflexivity.
Qed.

(** C9: with the dry-run (or extended dry-run) option set, no comment,
    state change or push is sent.  [post_comment_in_issue] prints the
    comment message prefixed with "[DRY RUN] " where a real run prints
    the message and posts; [push_branch_to_github] creates the remote as
    a real run does and prints the push message suffixed with
    " [DRY RUN]" where a real run prints it and pushes; [close_pr] runs
    everything up to the comment exactly as a real run does (same
    events, same outcome), then prints the dry-run traces where a real
    run posts the comment and the state change. *)
Theorem dry_run_replaces_mutations env cfg :
  dry_run_mode cfg = true ->
  (* no comment, state change or push is ever sent *)
  (forall issue txt account repo user,
     emits quiet (post_comment_in_issue env cfg issue txt account repo user))
  /\ (forall git_repo account repo branch,
        emits quiet (push_branch_to_github env cfg git_repo account repo branch))
  /\ (forall pr motivation, emits quiet (close_pr env cfg pr motivation))
  (* post_comment_in_issue: the trace instead of the POST *)
  /\ (forall issue n txt account repo user w,
        issue_number issue = Some n ->
        post_comment_in_issue env cfg issue txt account repo user w
        = (Ok tt, record w [EvPrint ("[DRY RUN] " +:+ comment_msg repo n txt)])
        /\ exists r w',
             post_comment_in_issue env (real_run cfg) issue txt account repo
               user w = (r, w')
             /\ trace w' = (trace w ++ [EvPrint (comment_msg repo n txt);
                              EvApi (PostIssueComment account repo n txt)])%list)
  (* push_branch_to_github: the remote is created as in a real run, then
     the trace instead of the push *)
  /\ (forall git_repo account repo branch w,
        match create_remote env git_repo account repo false w with
        | (Ok remote, w1) =>
            push_branch_to_github env cfg git_repo account repo branch w
            = (Ok tt, record w1
                 [EvPrint (push_msg branch remote account repo +:+ " [DRY RUN]")])
            /\ exists r reply w',
                 push_branch_to_github env (real_run cfg) git_repo account repo
                   branch w = (r, w')
                 /\ trace w' = (trace w1 ++
                      [EvPrint (push_msg branch remote account repo);
                       EvGit git_repo (GitPush remote branch) reply])%list
        | (Raise e, w1) =>
            push_branch_to_github env cfg git_repo account repo branch w
            = (Raise e, w1)
            /\ push_branch_to_github env (real_run cfg) git_repo account repo
                 branch w = (Raise e, w1)
        end)
  (* close_pr: everything up to the comment runs as in a real run, then
     the traces instead of the comment and the state change *)
  /\ (forall pr motivation user w,
        github_user cfg = Some user ->
        closing_comment env (real_run cfg) pr motivation user
        = closing_comment env cfg pr motivation user
        /\ match closing_comment env cfg pr motivation user w with
           | (Ok (txt, reopen), w1) =>
               close_pr env cfg pr motivation w
               = (Ok tt, record w1
                    ([EvPrint ("[DRY RUN] "
                               +:+ comment_msg (pr_target_repo cfg) pr txt);
                      EvPrint (closed_msg cfg pr)]
                     ++ if reopen then [EvPrint (reopened_msg cfg pr)] else []))
               /\ exists r w' post,
                    close_pr env (real_run cfg) pr motivation w = (r, w')
                    /\ trace w' = (trace w1 ++
                         [EvPrint (comment_msg (pr_target_repo cfg) pr txt);
                          EvApi (PostIssueComment (pr_target_account cfg)
                                   (pr_target_repo cfg) pr txt)] ++ post)%list
           | (Raise e, w1) =>
               close_pr env cfg pr motivation w = (Raise e, w1)
               /\ close_pr env (real_run cfg) pr motivation w = (Raise e, w1)
           end).
Proof.
  intros Hdry. split; [|split; [|split; [|split; [|split]]]].
  - intros. eapply emits_weaken; [apply plain_quiet|].
    now apply quiet_post_comment_dry.
  - intros. eapply emits_weaken; [apply plain_quiet|].
    now apply quiet_push_dry.
  - intros. eapply emits_weaken; [apply plain_quiet|].
    now apply quiet_close_pr_dry.
  - intros issue n txt account repo user w Hn. split.
    + now apply post_comment_dry.
    + now apply post_comment_real.
  - intros. now apply push_dry_vs_real.
  - intros pr motivation user w Huser. split; [reflexivity|].
    now apply close_pr_dry_vs_real.
Qed.

Lemma dry_run_replaces_mutations_witness :
  dry_run_mode (Demo.cfg "alice" true false) = true
  /\ post_comment_in_issue (Demo.env (Demo.pull "open" false "toy") true "")
       (Demo.cfg "alice" true false) (IssueStr "42") "thanks" "easybuilders"
       GITHUB_EASYCONFIGS_REPO None Demo.w0
     = (Ok tt, record Demo.w0
          [EvPrint ("[DRY RUN] "
                    +:+ comment_msg GITHUB_EASYCONFIGS_REPO 42 "thanks")]).
Proof.
  split; [reflexivity|].
  destruct (dry_run_replaces_mutations
              (Demo.env (Demo.pull "open" false "toy") true "")
              (Demo.cfg "alice" true false) eq_refl)
    as (_ & _ & _ & Hcomment & _).
  apply Hcomment. reflexivity.
Defined.

(** ** Merging one's own pull request (C10) *)

(** C10: when the author of the pull request is the configured GitHub
    user, [merge_pr] raises "Please do not merge your own PRs!" right
    after fetching the record and printing who submitted it: nothing is
    checked for eligibility, no comment is posted and no merge request
    is sent (the run appends one print to the fetch, and the fetch
    itself sends nothing that changes state), whatever the force and
    dry-run options are. *)
Theorem merge_pr_refuses_own_pr env cfg pr user pr_data w w1 :
  github_user cfg = Some user ->
  fetch_pr_data_full env cfg pr (pr_target_account cfg) (pr_target_repo cfg)
    (Some user) w = (Ok pr_data, w1) ->
  user_login (pr_core pr_data) = user ->
  (exists msg,
     merge_pr env cfg pr w
     = (Raise (EasyBuildError "Please do not merge your own PRs!"),
        mkWorld (fs w1) (trace w1 ++ [EvPrint msg])))
  /\ (exists evs, trace w1 = (trace w ++ evs)%list /\ Forall quiet evs).
Proof.
  intros Huser Hfetch Hlogin. split.
  - unfold merge_pr. rewrite Huser. unfold bind at 1. rewrite Hfetch.
    unfold bind at 1. unfold print_msg at 1, emit at 1. cbn beta iota.
    rewrite Hlogin, String.eqb_refl. eexists. reflexivity.
  - destruct (plain_fetch_pr_data_full env cfg pr (pr_target_account cfg)
                (pr_target_repo cfg) (Some user) w) as (evs & E & F).
    rewrite Hfetch in E. exists evs. split; [exact E|].
    eapply Forall_impl; [exact F | apply plain_quiet].
Qed.

Lemma merge_pr_refuses_own_pr_witness :
  exists msg w1,
    merge_pr (Demo.env (Demo.pull "open" false "toy") true "") (Demo.cfg "bob" false true) 42 Demo.w0
    = (Raise (EasyBuildError "Please do not merge your own PRs!"),
       mkWorld (fs w1) (trace w1 ++ [EvPrint msg]))
    /\ Forall quiet (trace w1).
Proof.
  pose (pr_data := {| pr_core := Demo.pull "open" false "toy";
                      status_last_commit := "success";
                      issue_comments := []; reviews := [] |}).
  pose (w1 := mkWorld (∅ : gmap string node)
     [EvApi (GetPull "easybuilders" GITHUB_EASYCONFIGS_REPO 42);
      EvApi (GetCommitStatus "easybuilders" GITHUB_EASYCONFIGS_REPO "abc123");
      EvApi (GetIssueComments "easybuilders" GITHUB_EASYCONFIGS_REPO 42);
      EvApi (GetPullReviews "easybuilders" GITHUB_EASYCONFIGS_REPO 42)]).
  destruct (merge_pr_refuses_own_pr
              (Demo.env (Demo.pull "open" false "toy") true "")
              (Demo.cfg "bob" false true) 42 "bob" pr_data Demo.w0 w1)
    as [[msg Hrun] (evs & E & F)].
  - reflexivity.
  - vm_compute. reflexivity.
  - reflexivity.
  - exists msg, w1. split; [exact Hrun|].
    change (trace Demo.w0 ++ evs)%list with evs in E. rewrite E. exact F.
Defined.

(** ** No empty pull request (C4) *)

Lemma plain_not_commit_push e : plain e -> is_commit e || is_push e = false.
Proof.
  unfold plain. destruct e as [| | | | | | | | | | |repo cmd r]; try reflexivity.
  destruct cmd; simpl; auto; discriminate.
Qed.

Lemma plain_not_diff_stat e : plain e -> is_diff_stat e = false.
Proof.
  unfold plain. intros H. apply orb_false_iff in H. tauto.
Qed.

Lemma not_diff_stat_nonempty e : is_diff_stat e = false -> nonempty_diff_stat e = false.
Proof.
  destruct e as [| | | | | | | | | | |repo cmd r]; try reflexivity.
  destruct cmd as [| | | | | | | | | | |[]| |]; simpl; auto; discriminate.
Qed.

Lemma not_diff_stat_empty e : is_diff_stat e = false -> empty_diff_stat e = false.
Proof.
  destruct e as [| | | | | | | | | | |repo cmd r]; try reflexivity.
  destruct cmd as [| | | | | | | | | | |[]| |]; simpl; auto; discriminate.
Qed.

Lemma diff_stat_not_commit_push e :
  is_diff_stat e = true -> is_commit e || is_push e = false.
Proof.
  destruct e as [| | | | | | | | | | |repo cmd r]; try discriminate.
  destruct cmd; simpl; auto; discriminate.
Qed.

Lemma guarded_true evs : guarded true evs = true.
Proof. induction evs as [|e tl IH]; simpl; [done|]. destruct (_ || _); auto. Qed.

Lemma guarded_plain_app seen pre evs :
  Forall plain pre -> guarded seen (pre ++ evs) = guarded seen evs.
Proof.
  induction 1 as [|e pre He Hpre IH]; simpl; [done|].
  rewrite (plain_not_commit_push e He).
  rewrite (not_diff_stat_nonempty e (plain_not_diff_stat e He)), orb_false_r.
  exact IH.
Qed.

(** What the monitor accepts: each commit or push has a non-empty
    staged diff somewhere before it. *)
Lemma guarded_spec seen evs :
  guarded seen evs = true ->
  forall pre e post, evs = (pre ++ e :: post)%list ->
    is_commit e || is_push e = true ->
    seen = true \/ Exists (fun d => nonempty_diff_stat d = true) pre.
Proof.
  revert seen. induction evs as [|x tl IH]; intros seen Hg pre e post Heq He.
  - destruct pre; discriminate.
  - destruct pre as [|y pre]; simpl in Heq; inversion Heq; subst.
    + simpl in Hg. rewrite He in Hg. apply andb_true_iff in Hg. tauto.
    + simpl in Hg. destruct (is_commit y || is_push y).
      * apply andb_true_iff in Hg. tauto.
      * destruct (IH _ Hg pre e post eq_refl He) as [Hs|Hex].
        -- apply orb_true_iff in Hs. destruct Hs as [Hs|Hs]; [tauto|].
           right. now apply Exists_cons_hd.
        -- right. now apply Exists_cons_tl.
Qed.

Lemma no_diff_stat_create_remote env git_repo account repo https :
  emits no_diff_stat (create_remote env git_repo account repo https).
Proof.
  unfold create_remote, random_salt. emits_auto; intros; reflexivity.
Qed.

Lemma no_diff_stat_push env cfg git_repo account repo branch :
  emits no_diff_stat (push_branch_to_github env cfg git_repo account repo branch).
Proof.
  unfold push_branch_to_github. emits_auto; try (intros; reflexivity).
  apply no_diff_stat_create_remote.
Qed.

(** The shape of what [commit_and_push] appends: plain events, then
    possibly the staged diff and, only if it is not empty, more. *)
Lemma commit_and_push_shape env cfg staged w r w' :
  commit_and_push env cfg staged w = (r, w') ->
  (exists pre, trace w' = (trace w ++ pre)%list /\ Forall plain pre)
  \/ (exists pre d rest,
        trace w' = (trace w ++ pre ++ d :: rest)%list
        /\ Forall plain pre /\ is_diff_stat d = true
        /\ Forall no_diff_stat rest
        /\ (nonempty_diff_stat d = false -> rest = [])
        /\ (empty_diff_stat d = true -> r = Raise (EasyBuildError EMPTY_PR_MSG))).
Proof.
  unfold commit_and_push. intros Hrun.
  set (prelude := (if extended_dry_run cfg then _ else ret tt) : M unit) in Hrun.
  assert (Hpre : emits plain prelude).
  { subst prelude. plain_auto. }
  unfold bind at 1 in Hrun.
  destruct (Hpre w) as (pre & Epre & Fpre).
  destruct (prelude w) as [[[]|e] w1]; simpl in Epre.
  2:{ inversion Hrun; subst. left. eauto. }
  unfold bind at 1, git_call at 1 in Hrun.
  destruct (git env (st_git_repo staged) (GitDiff true) w1) as [d fs1] eqn:Ed.
  right. exists pre, (EvGit (st_git_repo staged) (GitDiff true) d).
  destruct (g_error d) as [err|] eqn:Eerr.
  { inversion Hrun; subst. exists []. simpl. rewrite Epre, Eerr, <- app_assoc.
    repeat split; auto. discriminate. }
  destruct (truthy (g_out d)) eqn:Eout; cbn [negb] in Hrun.
  2:{ inversion Hrun; subst. exists []. simpl.
      rewrite Epre, Eerr, Eout, <- app_assoc. repeat split; auto. }
  set (rest_m := bind _ _) in Hrun.
  assert (Hrest : emits no_diff_stat rest_m).
  { subst rest_m. emits_auto; try (intros; reflexivity).
    apply no_diff_stat_push. }
  destruct (Hrest (mkWorld fs1 (trace w1 ++ [EvGit (st_git_repo staged) (GitDiff true) d])))
    as (rest & Erest & Frest).
  rewrite Hrun in Erest. simpl in Erest.
  exists rest. rewrite Erest, Epre, <- !app_assoc. simpl.
  rewrite Eerr, Eout. repeat split; auto; discriminate.
Qed.

(** C4: in every run of [_easyconfigs_pr_common], a commit or a push
    to GitHub happens only after the diff of the staged tree
    ([git diff --cached --stat]) was seen to be non-empty; and when that
    diff is empty the run ends with the "No changed files found ...
    Refused to make empty pull request." error, having committed and
    pushed nothing. *)
Theorem no_empty_pull_request env cfg paths ecs start_branch pr_branch
    start_account commit_msg w r w' :
  _easyconfigs_pr_common env cfg paths ecs start_branch pr_branch
    start_account commit_msg w = (r, w') ->
  exists evs,
    trace w' = (trace w ++ evs)%list
    /\ (forall pre e post,
          evs = (pre ++ e :: post)%list ->
          is_commit e || is_push e = true ->
          Exists (fun d => nonempty_diff_stat d = true) pre)
    /\ (Exists (fun d => empty_diff_stat d = true) evs ->
        r = Raise (EasyBuildError EMPTY_PR_MSG)
        /\ Forall (fun e => is_commit e || is_push e = false) evs).
Proof.
  unfold _easyconfigs_pr_common, bind. intros Hrun.
  destruct (plain_stage_changes env cfg paths ecs start_branch pr_branch
              start_account commit_msg w) as (evs1 & E1 & F1).
  destruct (stage_changes env cfg paths ecs start_branch pr_branch
              start_account commit_msg w) as [[staged|e] w1]; simpl in E1.
  2:{ inversion Hrun; subst. exists evs1. split; [exact E1|]. split.
      - intros pre e0 post Heq He.
        assert (Hg : guarded false evs1 = true).
        { rewrite <- (app_nil_r evs1). now rewrite guarded_plain_app. }
        destruct (guarded_spec _ _ Hg pre e0 post Heq He); [discriminate|done].
      - intros Hex. exfalso. apply Exists_exists in Hex.
        destruct Hex as (d & Hd & Hempty).
        rewrite Forall_forall in F1.
        rewrite (not_diff_stat_empty d (plain_not_diff_stat d (F1 d Hd))) in Hempty.
        discriminate. }
  destruct (commit_and_push_shape env cfg staged w1 r w' Hrun)
    as [(pre & E2 & F2)|(pre & d & rest & E2 & F2 & Hd & Frest & Hrest & Hempty)].
  - exists (evs1 ++ pre)%list. rewrite E2, E1, app_assoc. split; [done|].
    assert (F : Forall plain (evs1 ++ pre)) by (apply Forall_app; auto).
    split.
    + intros pre0 e0 post Heq He.
      assert (Hg : guarded false (evs1 ++ pre) = true).
      { rewrite <- (app_nil_r (evs1 ++ pre)). now rewrite guarded_plain_app. }
      destruct (guarded_spec _ _ Hg pre0 e0 post Heq He); [discriminate|done].
    + intros Hex. exfalso. apply Exists_exists in Hex.
      destruct Hex as (x & Hx & Hxe). rewrite Forall_forall in F.
      rewrite (not_diff_stat_empty x (plain_not_diff_stat x (F x Hx))) in Hxe.
      discriminate.
  - exists (evs1 ++ pre ++ d :: rest)%list. rewrite E2, E1, <- !app_assoc.
    split; [done|]. split.
    + intros pre0 e0 post Heq He.
      assert (Hg : guarded false (evs1 ++ pre ++ d :: rest) = true).
      { rewrite !guarded_plain_app by auto. simpl.
        rewrite (diff_stat_not_commit_push d Hd).
        destruct (nonempty_diff_stat d) eqn:En.
        - apply guarded_true.
        - now rewrite (Hrest eq_refl). }
      destruct (guarded_spec _ _ Hg pre0 e0 post Heq He); [discriminate|done].
    + intros Hex.
      assert (He : empty_diff_stat d = true).
      { rewrite !Exists_app, Exists_cons in Hex.
        destruct Hex as [Hex|[Hex|[Hex|Hex]]]; [| |exact Hex|].
        - exfalso. apply Exists_exists in Hex. destruct Hex as (x & Hx & Hxe).
          rewrite Forall_forall in F1.
          rewrite (not_diff_stat_empty x (plain_not_diff_stat x (F1 x Hx))) in Hxe.
          discriminate.
        - exfalso. apply Exists_exists in Hex. destruct Hex as (x & Hx & Hxe).
          rewrite Forall_forall in F2.
          rewrite (not_diff_stat_empty x (plain_not_diff_stat x (F2 x Hx))) in Hxe.
          discriminate.
        - exfalso. apply Exists_exists in Hex. destruct Hex as (x & Hx & Hxe).
          rewrite Forall_forall in Frest.
          rewrite (not_diff_stat_empty x (Frest x Hx)) in Hxe. discriminate. }
      split; [now apply Hempty|].
      assert (Hn : nonempty_diff_stat d = false).
      { destruct d as [| | | | | | | | | | |repo cmd reply]; try discriminate.
        destruct cmd as [| | | | | | | | | | |[]| |]; try discriminate.
        simpl in *. destruct (g_error reply); [done|].
        destruct (truthy (g_out reply)); [discriminate|done]. }
      rewrite (Hrest Hn). rewrite !Forall_app. repeat split.
      * eapply Forall_impl; [exact F1 | apply plain_not_commit_push].
      * eapply Forall_impl; [exact F2 | apply plain_not_commit_push].
      * constructor; [now apply diff_stat_not_commit_push | constructor].
Qed.

Lemma no_empty_pull_request_witness :
  let run := _easyconfigs_pr_common
               (Demo.env (Demo.pull "open" false "toy") true "")
               (Demo.cfg "alice" false false) Demo.paths None None None
               (Some "easybuilders") None Demo.home in
  fst run = Raise (EasyBuildError EMPTY_PR_MSG)
  /\ Forall (fun e => is_commit e || is_push e = false) (trace (snd run)).
Proof.
  intros run.
  destruct (no_empty_pull_request _ _ _ _ _ _ _ _ _ (fst run) (snd run)
              (surjective_pairing run)) as (evs & E & _ & H).
  change (trace Demo.home ++ evs)%list with evs in E. rewrite E. apply H.
  rewrite <- E. apply List.Exists_exists, List.existsb_exists.
  vm_compute. reflexivity.
Defined.

(** ** Stepping through a run *)

Lemma bind_run {A B} (m : M A) (k : A -> M B) w :
  bind m k w = match m w with
               | (Ok a, w') => k a w'
               | (Raise e, w') => (Raise e, w')
               end.
Proof. reflexivity. Qed.

Lemma bind_ok_inv {A B} (m : M A) (k : A -> M B) w b w' :
  bind m k w = (Ok b, w') ->
  exists a w1, m w = (Ok a, w1) /\ k a w1 = (Ok b, w').
Proof.
  rewrite bind_run. destruct (m w) as [[a|e] w1]; [eauto | discriminate].
Qed.

Lemma run_eq {A} (run : Res A * World) r : fst run = r -> run = (r, snd run).
Proof. intros <-. apply surjective_pairing. Qed.

(** ** The sanity check of the PR content resolver (C7) *)

(** The sanity check finds the first missing file, or returns all the
    expected paths; it leaves the world as it is. *)
Lemma check_patched_files_spec path files w :
  check_patched_files path files w =
  match List.find (fun f => negb (bool_decide (is_Some (fs w !! expected_path path f))))
          files with
  | None => (Ok (expected_path path <$> files), w)
  | Some f => (Raise (EasyBuildError
                 ("Couldn't find path to patched file " +:+ expected_path path f)), w)
  end.
Proof.
  induction files as [|f files IH]; [reflexivity|].
  cbn [check_patched_files List.find]. rewrite bind_run. unfold os_path_exists.
  fold (expected_path path f).
  destruct (bool_decide (is_Some (fs w !! expected_path path f))); cbn [negb].
  - rewrite bind_run, IH. destruct (List.find _ files); reflexivity.
  - reflexivity.
Qed.

Lemma startswith_spec s p :
  Py.startswith s p = true <-> exists rest, s = p +:+ rest.
Proof.
  unfold Py.startswith. revert s.
  induction p as [|a p IH]; intros s; simpl.
  - split; [eauto|]. intros _. destruct s; reflexivity.
  - destruct s as [|b s]; simpl;
      [split; [discriminate|intros [? ?]; discriminate]|].
    destruct (ascii_dec a b) as [->|Hne].
    + rewrite IH. split; intros [rest H]; exists rest.
      * change (String b s = String b (p +:+ rest)). now rewrite H.
      * change (String b s = String b (p +:+ rest)) in H. now inversion H.
    + split; [discriminate|]. intros [rest H].
      change (String b s = String a (p +:+ rest)) in H. inversion H.
      congruence.
Qed.

Lemma non_test_files_kept patched_files :
  kept_files patched_files (non_test_files patched_files).
Proof.
  unfold non_test_files.
  induction patched_files as [|f l IH]; simpl; [constructor|].
  destruct (Py.startswith f "test/") eqn:E; cbn [negb].
  - apply kept_skip; [|exact IH]. now apply startswith_spec.
  - apply kept_keep; [|exact IH]. intros H. apply startswith_spec in H.
    congruence.
Qed.

Lemma kept_files_unique l k1 k2 : kept_files l k1 -> kept_files l k2 -> k1 = k2.
Proof.
  intros H1. revert k2. induction H1; intros k2 H2; inversion H2; subst;
    try contradiction; auto. f_equal. auto.
Qed.

(** C7: once the tree of the PR is rebuilt, [fetch_easyconfigs_from_pr]
    looks for every file the diff names whose path does not start with
    test/, at its expected path under the destination (the last three
    components of its name).  If all are there it returns exactly the
    list of these paths, in the order of the diff; otherwise it raises
    "Couldn't find path to patched file <path>" for the first one that
    is absent.  The check leaves the world as it is, and whenever the
    function returns a list, it is that list and every path in it
    exists. *)
Theorem fetched_files_are_checked env cfg pr path user w :
  match pr_tree env cfg pr path user w with
  | (Raise e, w1) =>
      fetch_easyconfigs_from_pr env cfg pr path user w = (Raise e, w1)
  | (Ok (dest, patched_files), w1) =>
      exists kept,
        kept_files patched_files kept
        /\ let expected := expected_path dest <$> kept in
           (Forall (fun p => is_Some (fs w1 !! p)) expected ->
            fetch_easyconfigs_from_pr env cfg pr path user w = (Ok expected, w1))
           /\ (forall present q rest,
                 expected = (present ++ q :: rest)%list ->
                 Forall (fun p => is_Some (fs w1 !! p)) present ->
                 fs w1 !! q = None ->
                 fetch_easyconfigs_from_pr env cfg pr path user w
                 = (Raise (EasyBuildError
                      ("Couldn't find path to patched file " +:+ q)), w1))
           /\ (forall files w',
                 fetch_easyconfigs_from_pr env cfg pr path user w = (Ok files, w') ->
                 files = expected /\ w' = w1
                 /\ Forall (fun p => is_Some (fs w1 !! p)) files)
  end.
Proof.
  unfold fetch_easyconfigs_from_pr. rewrite bind_run.
  destruct (pr_tree env cfg pr path user w) as [[[dest patched]|e] w1];
    [|reflexivity].
  exists (non_test_files patched). split; [apply non_test_files_kept|].
  rewrite check_patched_files_spec. cbn zeta.
  generalize (non_test_files patched). intros kept.
  split; [|split].
  - intros Hall. destruct (List.find _ kept) as [f|] eqn:Hfind; [|reflexivity].
    apply List.find_some in Hfind. destruct Hfind as [Hin Hmiss].
    apply negb_true_iff, bool_decide_eq_false in Hmiss.
    exfalso. apply Hmiss. rewrite Forall_forall in Hall. apply Hall.
    apply list_elem_of_fmap. exists f. split; [done|]. now apply list_elem_of_In.
  - intros present q rest Hsplit Hpresent Hq.
    apply fmap_app_inv in Hsplit.
    destruct Hsplit as (kp & kr & -> & Hkr & ->).
    destruct kr as [|f kr]; [discriminate|]. rewrite fmap_cons in Hkr.
    inversion Hkr; subst; clear Hkr.
    assert (Hfind : List.find
              (fun f0 => negb (bool_decide (is_Some (fs w1 !! expected_path dest f0))))
              (kp ++ f :: kr) = Some f).
    { clear -Hpresent Hq. induction kp as [|x l IH]; cbn [List.find app].
      - rewrite bool_decide_eq_false_2; [reflexivity|].
        rewrite Hq. intros [? ?]; discriminate.
      - rewrite fmap_cons in Hpresent. apply Forall_cons in Hpresent.
        destruct Hpresent as [Hx Hl].
        rewrite bool_decide_eq_true_2 by exact Hx. apply IH, Hl. }
    rewrite Hfind. reflexivity.
  - intros files w' Heq.
    destruct (List.find _ kept) as [f|] eqn:Hfind; [discriminate|].
    inversion Heq; subst. split; [reflexivity|]. split; [reflexivity|].
    apply Forall_fmap, Forall_forall. intros f Hf.
    apply list_elem_of_In in Hf.
    pose proof (List.find_none _ _ Hfind f Hf) as Hn. simpl in Hn.
    apply negb_false_iff, bool_decide_eq_true in Hn. exact Hn.
Qed.

Lemma fetched_files_are_checked_witness :
  let base := Demo.env (Demo.pull "open" false "toy") true "" in
  let cfg := Demo.cfg "alice" false false in
  let toy := "easybuild/easyconfigs/t/toy/toy-1.0.eb" in
  let test := "test/easyconfigs/easyconfigs.py" in
  let bar := "easybuild/easyconfigs/b/bar/bar-0.3.eb" in
  let env1 := with_patched_files base [test; toy] in
  let env2 := with_patched_files base [toy; test; bar] in
  let tree1 := pr_tree env1 cfg 42 None None Demo.w0 in
  let tree2 := pr_tree env2 cfg 42 None None Demo.w0 in
  fst tree1 = Ok ("/prs", [test; toy])
  /\ fs (snd tree1) !! "/prs/test/easyconfigs/easyconfigs.py" = None
  /\ fetch_easyconfigs_from_pr env1 cfg 42 None None Demo.w0
     = (Ok ["/prs/t/toy/toy-1.0.eb"], snd tree1)
  /\ fst tree2 = Ok ("/prs", [toy; test; bar])
  /\ fetch_easyconfigs_from_pr env2 cfg 42 None None Demo.w0
     = (Raise (EasyBuildError
          "Couldn't find path to patched file /prs/b/bar/bar-0.3.eb"),
        snd tree2).
Proof.
  intros base cfg toy test bar env1 env2 tree1 tree2.
  assert (Htoy : ~ in_test_dir toy) by (intros [rest H]; discriminate H).
  assert (Hbar : ~ in_test_dir bar) by (intros [rest H]; discriminate H).
  assert (Htest : in_test_dir test) by (eexists; reflexivity).
  assert (E1 : fst tree1 = Ok ("/prs", [test; toy])) by (vm_compute; reflexivity).
  assert (E2 : fst tree2 = Ok ("/prs", [toy; test; bar]))
    by (vm_compute; reflexivity).
  split; [exact E1|]. split; [vm_compute; reflexivity|].
  split; [|split; [exact E2|]].
  - pose proof (fetched_files_are_checked env1 cfg 42 None None Demo.w0) as H.
    fold tree1 in H. rewrite (surjective_pairing tree1), E1 in H.
    destruct H as (kept & Hkept & Hok & _).
    rewrite (kept_files_unique _ _ [toy] Hkept) in Hok
      by (apply kept_skip; [exact Htest|]; apply kept_keep; [exact Htoy|];
          constructor).
    apply Hok. constructor; [|constructor]. vm_compute. eexists. reflexivity.
  - pose proof (fetched_files_are_checked env2 cfg 42 None None Demo.w0) as H.
    fold tree2 in H. rewrite (surjective_pairing tree2), E2 in H.
    destruct H as (kept & Hkept & _ & Hmiss & _).
    rewrite (kept_files_unique _ _ [toy; bar] Hkept) in Hmiss
      by (apply kept_keep; [exact Htoy|]; apply kept_skip; [exact Htest|];
          apply kept_keep; [exact Hbar|]; constructor).
    apply (Hmiss ["/prs/t/toy/toy-1.0.eb"] "/prs/b/bar/bar-0.3.eb" []).
    + reflexivity.
    + constructor; [|constructor]. vm_compute. eexists. reflexivity.
    + vm_compute. reflexivity.
Defined.

(** ** A merged pull request (C5) *)

Lemma emits_bind_returns {A B} P (m : M A) (k : A -> M B) Q :
  emits P m -> returns m Q -> (forall a, Q a -> emits P (k a)) ->
  emits P (bind m k).
Proof.
  intros Hm Hr Hk w. rewrite bind_run.
  destruct (Hm w) as (evs1 & E1 & F1).
  destruct (m w) as [[a|e] w1] eqn:Em; simpl in E1.
  - destruct (Hk a (Hr w a w1 Em) w1) as (evs2 & E2 & F2).
    exists (evs1 ++ evs2)%list. rewrite E2, E1, app_assoc. split; [done|].
    apply Forall_app; auto.
  - exists evs1. auto.
Qed.

Lemma returns_fetch_pr_data env cfg pr account repo user :
  returns (fetch_pr_data env cfg pr account repo user)
    (fun d => exists w, d = data (api_pull env account repo pr w)).
Proof.
  intros w d w'. unfold fetch_pr_data, github_api_get_request.
  rewrite !bind_run.
  destruct (fetch_github_token env _ w) as [[tok|e] w1]; [|discriminate].
  unfold bind, ask, emit, ret, raise. cbn beta iota.
  match goal with |- context [negb ?b] => destruct b end;
    cbn [negb]; [|discriminate].
  intros H. inversion H. eauto.
Qed.

Ltac no_apply_auto := emits_auto; try (intros; reflexivity).

Lemma no_apply_api_get {A} env cfg call (get : World -> Reply A) u :
  emits no_apply_patch (github_api_get_request env cfg call get u).
Proof. unfold github_api_get_request. no_apply_auto. Qed.

Lemma no_apply_download_repo env cfg repo branch account path u :
  emits no_apply_patch (download_repo env cfg repo branch account path u).
Proof.
  unfold download_repo, fetch_latest_commit_sha. no_apply_auto.
  apply no_apply_api_get.
Qed.

Lemma no_apply_fetch_pr_data env cfg pr account repo u :
  emits no_apply_patch (fetch_pr_data env cfg pr account repo u).
Proof. unfold fetch_pr_data. no_apply_auto. apply no_apply_api_get. Qed.

Lemma no_apply_link env final_path path :
  emits no_apply_patch (link_easyconfig_dirs env final_path path).
Proof. unfold link_easyconfig_dirs. no_apply_auto. Qed.

Lemma no_apply_check path files :
  emits no_apply_patch (check_patched_files path files).
Proof. induction files; simpl; no_apply_auto. Qed.

(** A merged PR: the base branch as acquired is the tree, and nothing
    else happens. *)
Lemma pr_final_path_merged env pr pr_data account repo path rtb diff files w :
  merged pr_data = true ->
  pr_final_path env pr pr_data account repo path rtb diff files w = (Ok rtb, w).
Proof. intros H. unfold pr_final_path. rewrite H. reflexivity. Qed.

Lemma no_apply_pr_tree env cfg pr path user :
  (forall w, merged (data (api_pull env (pr_target_account cfg)
                             GITHUB_EASYCONFIGS_REPO pr w)) = true) ->
  emits no_apply_patch (pr_tree env cfg pr path user).
Proof.
  intros Hm. unfold pr_tree.
  apply emits_bind; [no_apply_auto|]. intros dest.
  eapply emits_bind_returns;
    [apply no_apply_fetch_pr_data | apply returns_fetch_pr_data |].
  intros pr_data [w0 ->].
  apply emits_bind; [apply no_apply_download_repo|]. intros rtb.
  apply emits_bind; [no_apply_auto|]. intros _.
  apply emits_bind; [no_apply_auto|]. intros diff_txt.
  apply emits_bind.
  { intros w. rewrite pr_final_path_merged by apply Hm.
    exists []. simpl. rewrite app_nil_r. auto. }
  intros final_path. apply emits_bind; [apply no_apply_link|].
  intros _. apply emits_ret.
Qed.

(** The links are made one after the other. *)
Lemma for_each_links env tree dest entries w w' :
  for_each entries (fun eb_dir =>
    tool (symlink env (Py.path_join (easyconfigs_dir tree) eb_dir)
                  (Py.path_join dest (Py.basename eb_dir)))
         (EvSymlink (Py.path_join (easyconfigs_dir tree) eb_dir)
                    (Py.path_join dest (Py.basename eb_dir)))) w
  = (Ok tt, w') ->
  w' = after_links env tree dest entries w.
Proof.
  revert w. induction entries as [|e l IH]; intros w H; simpl in H.
  - now inversion H.
  - apply bind_ok_inv in H. destruct H as ([] & w1 & H1 & H2).
    cbn [after_links]. rewrite (IH _ H2). f_equal.
    unfold tool in H1. destruct (symlink env _ _ w) as [r fs'].
    inversion H1; subst. reflexivity.
Qed.

Lemma after_links_trace env tree dest entries w :
  trace (after_links env tree dest entries w)
  = (trace w ++ (link_event tree dest <$> entries))%list.
Proof.
  revert w. induction entries as [|e l IH]; intros w; simpl.
  - now rewrite app_nil_r.
  - rewrite IH. cbn [trace]. now rewrite <- app_assoc.
Qed.

(** What a successful rebuild went through. *)
Lemma pr_tree_ok_inv env cfg pr path user w dest patched w' :
  pr_tree env cfg pr path user w = (Ok (dest, patched), w') ->
  let u := match user with None => github_user cfg | Some u => Some u end in
  exists pr_data rtb final_path diff_txt w0 w1 w2 w4,
    trace w0 = trace w
    /\ fetch_pr_data env cfg pr (pr_target_account cfg)
         GITHUB_EASYCONFIGS_REPO u w0 = (Ok pr_data, w1)
    /\ download_repo env cfg GITHUB_EASYCONFIGS_REPO (base_ref pr_data)
         (pr_target_account cfg) None u w1 = (Ok rtb, w2)
    /\ fs (after_diff_download env pr_data dest w2)
         !! Py.path_join dest (Py.basename (diff_url pr_data))
       = Some (File diff_txt)
    /\ patched = det_patched_files env diff_txt
    /\ pr_final_path env pr pr_data (pr_target_account cfg)
         GITHUB_EASYCONFIGS_REPO dest rtb
         (Py.path_join dest (Py.basename (diff_url pr_data))) patched
         (after_diff_download env pr_data dest w2)
       = (Ok final_path, w4)
    /\ link_easyconfig_dirs env final_path dest w4 = (Ok tt, w').
Proof.
  unfold pr_tree. intros H.
  apply bind_ok_inv in H. destruct H as (dest0 & w0 & Hdest & H).
  apply bind_ok_inv in H. destruct H as (pr_data & w1 & Hpr & H).
  apply bind_ok_inv in H. destruct H as (rtb & w2 & Hrtb & H).
  apply bind_ok_inv in H. destruct H as ([] & w3 & Hdiff & H).
  apply bind_ok_inv in H. destruct H as (diff_txt & w3' & Hread & H).
  apply bind_ok_inv in H. destruct H as (final_path & w4 & Hfinal & H).
  apply bind_ok_inv in H. destruct H as ([] & w5 & Hlink & H).
  inversion H; subst; clear H.
  assert (Hw3 : w3 = after_diff_download env pr_data dest w2).
  { unfold tool in Hdiff. unfold after_diff_download, diff_download.
    destruct (download_file env _ _ _ w2). inversion Hdiff; subst. reflexivity. }
  subst w3.
  assert (Htxt : w3' = after_diff_download env pr_data dest w2
                 /\ fs (after_diff_download env pr_data dest w2)
                      !! Py.path_join dest (Py.basename (diff_url pr_data))
                    = Some (File diff_txt)).
  { unfold read_file in Hread.
    destruct (fs (after_diff_download env pr_data dest w2) !! _) as [[]|];
      inversion Hread; auto. }
  destruct Htxt as [-> Htxt].
  assert (Htr0 : trace w0 = trace w).
  { destruct (match path with None => pr_path cfg | Some p => Some p end).
    - apply bind_ok_inv in Hdest. destruct Hdest as ([] & wa & Ha & Hb).
      inversion Hb; subst. unfold mkdir in Ha.
      destruct (fs w !! dest); inversion Ha; reflexivity.
    - unfold tempfile_mkdtemp in Hdest. destruct (mkdtemp env "" w).
      inversion Hdest; reflexivity. }
  exists pr_data, rtb, final_path, diff_txt, w0, w1, w2, w4. cbn zeta. auto 10.
Qed.

Lemma check_patched_files_world path files w r w' :
  check_patched_files path files w = (r, w') -> w' = w.
Proof.
  rewrite check_patched_files_spec. destruct (List.find _ files); now inversion 1.
Qed.

(** What [fetch_easyconfigs_from_pr] returns: the expected paths of the
    files of the diff that are kept, all of them present. *)
Lemma fetch_easyconfigs_from_pr_ok env cfg pr path user w files w' :
  fetch_easyconfigs_from_pr env cfg pr path user w = (Ok files, w') ->
  exists dest patched kept,
    pr_tree env cfg pr path user w = (Ok (dest, patched), w')
    /\ kept_files patched kept
    /\ files = expected_path dest <$> kept
    /\ Forall (fun p => is_Some (fs w' !! p)) files.
Proof.
  unfold fetch_easyconfigs_from_pr. intros H.
  apply bind_ok_inv in H. destruct H as ([dest patched] & wt & Htree & Hcheck).
  rewrite check_patched_files_spec in Hcheck.
  destruct (List.find _ (non_test_files patched)) eqn:Hfind; [discriminate|].
  inversion Hcheck; subst; clear Hcheck.
  exists dest, patched, (non_test_files patched).
  split; [exact Htree|]. split; [apply non_test_files_kept|].
  split; [reflexivity|].
  apply Forall_fmap, Forall_forall. intros f Hf. apply list_elem_of_In in Hf.
  pose proof (List.find_none _ _ Hfind f Hf) as Hn. simpl in Hn.
  apply negb_false_iff, bool_decide_eq_true in Hn. exact Hn.
Qed.

(** C5: when the forge reports the pull request as merged,
    [fetch_easyconfigs_from_pr] never calls [apply_patch].  In a run
    that returns files for a merged PR, the base branch of the PR is
    acquired with [download_repo] (into [tree]); after that the diff is
    downloaded, and then the only thing that happens is that every entry
    of [<tree>/easybuild/easyconfigs] is linked into the destination: no
    file is fetched from the PR.  The files returned are the files the
    diff names outside test/, at their expected paths under the
    destination, where they are found once these links are made. *)
Theorem merged_pr_uses_base_branch env cfg pr path user :
  let u := match user with None => github_user cfg | Some u => Some u end in
  ((forall w, merged (data (api_pull env (pr_target_account cfg)
                              GITHUB_EASYCONFIGS_REPO pr w)) = true) ->
   emits no_apply_patch (fetch_easyconfigs_from_pr env cfg pr path user))
  /\ (forall w files w',
        fetch_easyconfigs_from_pr env cfg pr path user w = (Ok files, w') ->
        exists dest pr_data tree w0 w1 w2,
          trace w0 = trace w
          /\ fetch_pr_data env cfg pr (pr_target_account cfg)
               GITHUB_EASYCONFIGS_REPO u w0 = (Ok pr_data, w1)
          /\ download_repo env cfg GITHUB_EASYCONFIGS_REPO (base_ref pr_data)
               (pr_target_account cfg) None u w1 = (Ok tree, w2)
          /\ (merged pr_data = true ->
              let w3 := after_diff_download env pr_data dest w2 in
              exists diff_txt kept,
                fs w3 !! Py.path_join dest (Py.basename (diff_url pr_data))
                = Some (File diff_txt)
                /\ kept_files (det_patched_files env diff_txt) kept
                /\ files = expected_path dest <$> kept
                /\ Forall (fun p => is_Some (fs w' !! p)) files
                /\ if String.eqb tree dest then w' = w3
                   else exists entries,
                     os_listdir env (easyconfigs_dir tree) (fs w3)
                     = Some entries
                     /\ w' = after_links env tree dest entries w3
                     /\ trace w' = (trace w2 ++ diff_download pr_data dest
                                    :: (link_event tree dest <$> entries))%list)).
Proof.
  cbn zeta. split.
  - intros Hm. unfold fetch_easyconfigs_from_pr.
    apply emits_bind; [now apply no_apply_pr_tree|].
    intros [dest patched]. apply no_apply_check.
  - intros w files w' H.
    apply fetch_easyconfigs_from_pr_ok in H.
    destruct H as (dest & patched & kept & Htree & Hkept & Hfiles & Hall).
    apply pr_tree_ok_inv in Htree. cbn zeta in Htree.
    destruct Htree as (pr_data & tree & final_path & diff_txt & w0 & w1 & w2 & w4
                       & Htr0 & Hpr & Htree & Htxt & Hpatched & Hfinal & Hlink).
    exists dest, pr_data, tree, w0, w1, w2.
    split; [exact Htr0|]. split; [exact Hpr|]. split; [exact Htree|].
    intros Hmerged. rewrite pr_final_path_merged in Hfinal by exact Hmerged.
    inversion Hfinal; subst final_path w4; clear Hfinal.
    exists diff_txt, kept. split; [exact Htxt|]. subst patched.
    split; [exact Hkept|]. split; [exact Hfiles|]. split; [exact Hall|].
    unfold link_easyconfig_dirs in Hlink.
    destruct (String.eqb tree dest); cbn [negb] in Hlink.
    + now inversion Hlink.
    + apply bind_ok_inv in Hlink. destruct Hlink as (entries & wl & Hls & Hfor).
      unfold look in Hls. inversion Hls; subst; clear Hls.
      change (Py.path_join (Py.path_join tree "easybuild") "easyconfigs")
        with (easyconfigs_dir tree) in Hfor.
      match type of Hfor with context [os_listdir env ?d ?f] =>
        destruct (os_listdir env d f) as [entries|] eqn:Hlist end;
        [|discriminate].
      exists entries. split; [exact Hlist|].
      apply for_each_links in Hfor. split; [exact Hfor|].
      rewrite Hfor, after_links_trace. unfold after_diff_download.
      cbn [trace]. rewrite <- app_assoc. reflexivity.
Qed.

Lemma merged_pr_uses_base_branch_witness :
  let env := Demo.env (Demo.pull "closed" true "toy") true "" in
  let cfg := Demo.cfg "alice" false false in
  let run := fetch_easyconfigs_from_pr env cfg 42 None None Demo.w0 in
  emits no_apply_patch (fetch_easyconfigs_from_pr env cfg 42 None None)
  /\ fst run = Ok ["/prs/t/toy/toy-1.0.eb"]
  /\ trace (snd run)
     = [EvApi (GetPull "easybuilders" "easybuild-easyconfigs" 42);
        EvApi (GetBranches "easybuilders" "easybuild-easyconfigs");
        EvDownload "develop.tar.gz"
          "https://github.com/easybuilders/easybuild-easyconfigs/archive/develop.tar.gz"
          "/tmp/1/easybuilders/develop.tar.gz";
        EvExtract "/tmp/1/easybuilders/develop.tar.gz" "/tmp/1/easybuilders";
        EvDownload "42.diff"
          "https://github.com/easybuilders/easybuild-easyconfigs/pull/42.diff"
          "/prs/42.diff";
        EvSymlink
          "/tmp/1/easybuilders/easybuild-easyconfigs-develop/easybuild/easyconfigs/t"
          "/prs/t"]
  /\ exists dest pr_data tree w0 w1 w2,
       trace w0 = trace Demo.w0
       /\ fetch_pr_data env cfg 42 (pr_target_account cfg)
            GITHUB_EASYCONFIGS_REPO (github_user cfg) w0 = (Ok pr_data, w1)
       /\ download_repo env cfg GITHUB_EASYCONFIGS_REPO (base_ref pr_data)
            (pr_target_account cfg) None (github_user cfg) w1 = (Ok tree, w2)
       /\ (merged pr_data = true ->
           let w3 := after_diff_download env pr_data dest w2 in
           exists diff_txt kept,
             fs w3 !! Py.path_join dest (Py.basename (diff_url pr_data))
             = Some (File diff_txt)
             /\ kept_files (det_patched_files env diff_txt) kept
             /\ ["/prs/t/toy/toy-1.0.eb"] = expected_path dest <$> kept
             /\ Forall (fun p => is_Some (fs (snd run) !! p))
                  ["/prs/t/toy/toy-1.0.eb"]
             /\ if String.eqb tree dest then snd run = w3
                else exists entries,
                  os_listdir env (easyconfigs_dir tree) (fs w3) = Some entries
                  /\ snd run = after_links env tree dest entries w3
                  /\ trace (snd run)
                     = (trace w2 ++ diff_download pr_data dest
                        :: (link_event tree dest <$> entries))%list).
Proof.
  intros env cfg run.
  pose proof (merged_pr_uses_base_branch env cfg 42 None None) as [Hno Hok].
  split; [apply Hno; intros w; reflexivity|].
  assert (E : fst run = Ok ["/prs/t/toy/toy-1.0.eb"]) by (vm_compute; reflexivity).
  split; [exact E|]. split; [vm_compute; reflexivity|].
  exact (Hok Demo.w0 ["/prs/t/toy/toy-1.0.eb"] (snd run) (run_eq run _ E)).
Defined.

(** ** A pull request that is not merged (C6) *)

Lemma bind_assoc {A B C} (m : M A) (f : A -> M B) (g : B -> M C) w :
  bind (bind m f) g w = bind m (fun x => bind (f x) g) w.
Proof. unfold bind. destruct (m w) as [[a|e] w1]; reflexivity. Qed.

Lemma bind_ext {A B} (m : M A) (k1 k2 : A -> M B) w :
  (forall a w', k1 a w' = k2 a w') -> bind m k1 w = bind m k2 w.
Proof. intros H. unfold bind. destruct (m w) as [[a|e] w1]; auto. Qed.

Lemma pr_tree_setup env cfg pr path user w :
  pr_tree env cfg pr path user w
  = bind (pr_setup env cfg pr path user)
      (fun s =>
         let '(path, pr_data, repo_target_branch, diff_filepath,
               patched_files) := s in
         final_path <- pr_final_path env pr pr_data (pr_target_account cfg)
                         GITHUB_EASYCONFIGS_REPO path repo_target_branch
                         diff_filepath patched_files ;;
         link_easyconfig_dirs env final_path path ;;;
         ret (path, patched_files)) w.
Proof.
  unfold pr_tree, pr_setup.
  do 5 (rewrite bind_assoc; apply bind_ext; intros ? ?).
  reflexivity.
Qed.

(** The per-file strategy issues one download per file named in the
    diff, in order, at the head commit and into the destination; it
    stops only if a download raises. *)
Lemma download_patched_files_run env pr_data account repo dest files w r w' :
  download_patched_files env pr_data account repo dest files w = (r, w') ->
  exists done_,
    done_ `prefix_of` files
    /\ trace w' = (trace w ++ (raw_download pr_data account repo dest <$> done_))%list
    /\ match r with
       | Ok _ => done_ = files
       | Raise e =>
           exists f wd,
             last done_ = Some f /\ f ∈ files
             /\ fst (download_file env (last3_path f)
                       (Py.join URL_SEPARATOR
                          [GITHUB_RAW; account; repo; head_sha pr_data; f])
                       (Py.path_join dest (last3_path f)) wd) = Raise e
       end.
Proof.
  unfold download_patched_files. revert w.
  induction files as [|f files IH]; intros w H; simpl in H.
  - inversion H; subst. exists []. rewrite app_nil_r. auto.
  - rewrite bind_run in H. unfold tool at 1 in H.
    destruct (download_file env _ _ _ w) as [[[]|e] fs1] eqn:Ed.
    + destruct (IH _ H) as (d & Hp & Ht & Hr).
      exists (f :: d). split; [now apply prefix_cons|]. split.
      * rewrite Ht. simpl. now rewrite <- app_assoc.
      * destruct r as [[]|e]; [now rewrite Hr|].
        destruct Hr as (g & wd & Hlast & Hin & Hg).
        exists g, wd. split; [now rewrite last_cons, Hlast|].
        split; [now apply list_elem_of_further|exact Hg].
    + inversion H; subst. exists [f]. split; [apply prefix_cons, prefix_nil|].
      split; [reflexivity|]. exists f, w.
      split; [reflexivity|]. split; [apply list_elem_of_here|].
      simpl. now rewrite Ed.
Qed.

(** Once the per-file strategy is chosen, the rest of the run is the
    downloads and the sanity check. *)
Lemma per_file_run env cfg pr path user w dest pr_data tree diff files w1 start :
  pr_setup env cfg pr path user w = (Ok (dest, pr_data, tree, diff, files), w1) ->
  pr_final_path env pr pr_data (pr_target_account cfg) GITHUB_EASYCONFIGS_REPO
    dest tree diff files w1
  = bind (download_patched_files env pr_data (pr_target_account cfg)
            GITHUB_EASYCONFIGS_REPO dest files)
      (fun _ => ret dest) start ->
  fetched_per_file env cfg pr_data dest files start
    (fetch_easyconfigs_from_pr env cfg pr path user w).
Proof.
  intros Hsetup Hfinal.
  destruct (download_patched_files env pr_data (pr_target_account cfg)
              GITHUB_EASYCONFIGS_REPO dest files start) as [r0 w2] eqn:Ed.
  destruct (download_patched_files_run _ _ _ _ _ _ _ _ _ Ed)
    as (done_ & Hp & Ht & Hr).
  assert (Htree : pr_tree env cfg pr path user w
                  = match r0 with
                    | Ok _ => (Ok (dest, files), w2)
                    | Raise e => (Raise e, w2)
                    end).
  { rewrite pr_tree_setup, bind_run, Hsetup. cbn beta iota.
    rewrite bind_run, Hfinal, bind_run, Ed.
    destruct r0 as [[]|e]; [|reflexivity].
    unfold ret at 1. cbn beta iota. rewrite bind_run.
    unfold link_easyconfig_dirs. rewrite String.eqb_refl. reflexivity. }
  unfold fetch_easyconfigs_from_pr. rewrite bind_run, Htree.
  exists done_. split; [exact Hp|].
  destruct r0 as [[]|e].
  - rewrite check_patched_files_spec.
    pose proof (non_test_files_kept files) as Hkept.
    destruct (List.find _ (non_test_files files)) as [f|] eqn:Hfind;
      cbn [fst snd].
    + split; [exact Ht|]. right. split; [exact Hr|].
      apply List.find_some in Hfind. destruct Hfind as [Hin Hmiss].
      apply negb_true_iff, bool_decide_eq_false in Hmiss.
      exists (non_test_files files), (expected_path dest f).
      split; [exact Hkept|]. split.
      { apply list_elem_of_fmap. exists f. split; [done|].
        now apply list_elem_of_In. }
      split; [|reflexivity].
      destruct (fs w2 !! expected_path dest f) eqn:E; [|done].
      exfalso. apply Hmiss. eauto.
    + split; [exact Ht|]. split; [exact Hr|]. split; [eauto|].
      apply Forall_fmap, Forall_forall. intros f Hf. apply list_elem_of_In in Hf.
      pose proof (List.find_none _ _ Hfind f Hf) as Hn. simpl in Hn.
      apply negb_false_iff, bool_decide_eq_true in Hn. exact Hn.
  - cbn [fst snd]. split; [exact Ht|]. left. exact Hr.
Qed.

(** C6: for a pull request that is not merged, once the set-up of
    [fetch_easyconfigs_from_pr] is through (record fetched, base branch
    acquired, diff downloaded and read).  Open: when [apply_patch] fails
    with an [EasyBuildError], the error is not propagated: the run goes
    on, after the failed attempt, with the download of each file the
    diff names, individually and in order, at the head commit SHA of the
    PR, into the destination; it ends with the outcome of a download
    that raises or, when all are downloaded, with that of the sanity
    check.  Closed: [apply_patch] is not tried; the warning "Using
    easyconfigs from closed PR #<n>" is printed, then the same downloads
    follow. *)
Theorem unapplied_pr_falls_back_to_downloads env cfg pr path user w dest
    pr_data tree diff files w1 :
  pr_setup env cfg pr path user w = (Ok (dest, pr_data, tree, diff, files), w1) ->
  merged pr_data = false ->
  let run := fetch_easyconfigs_from_pr env cfg pr path user w in
  (state pr_data <> GITHUB_STATE_CLOSED ->
   forall msg fs1,
     apply_patch env diff tree w1 = (Raise (EasyBuildError msg), fs1) ->
     fetched_per_file env cfg pr_data dest files
       (mkWorld fs1 (trace w1 ++ [EvApplyPatch diff tree])) run)
  /\ (state pr_data = GITHUB_STATE_CLOSED ->
      fetched_per_file env cfg pr_data dest files
        (record w1 [EvWarn ("Using easyconfigs from closed PR #" +:+ pretty pr)])
        run).
Proof.
  intros Hsetup Hm run. subst run. split.
  - intros Hopen msg fs1 Happly. apply (per_file_run _ _ _ _ _ _ _ _ _ _ _ _ _ Hsetup).
    unfold pr_final_path. rewrite Hm.
    apply String.eqb_neq in Hopen. rewrite Hopen. cbn [andb negb].
    rewrite bind_run. unfold try_except_EasyBuildError.
    rewrite bind_run. unfold tool at 1. rewrite Happly.
    unfold ret at 1. cbn beta iota. rewrite bind_run. reflexivity.
  - intros Hclosed. apply (per_file_run _ _ _ _ _ _ _ _ _ _ _ _ _ Hsetup).
    unfold pr_final_path. rewrite Hm.
    apply String.eqb_eq in Hclosed. rewrite Hclosed. cbn [andb negb].
    rewrite bind_run. unfold ret at 1. cbn beta iota.
    rewrite bind_run. reflexivity.
Qed.

Lemma unapplied_pr_falls_back_to_downloads_witness :
  let cfg := Demo.cfg "alice" false false in
  let tree := "/tmp/1/easybuilders/easybuild-easyconfigs-develop" in
  let file := "easybuild/easyconfigs/t/toy/toy-1.0.eb" in
  (* an open pull request whose diff does not apply *)
  let opened := Demo.pull "open" false "toy" in
  let env := Demo.env opened false "" in
  let setup := pr_setup env cfg 42 None None Demo.w0 in
  let run := fetch_easyconfigs_from_pr env cfg 42 None None Demo.w0 in
  (* a closed pull request *)
  let closed := Demo.pull "closed" false "toy" in
  let env' := Demo.env closed false "" in
  let setup' := pr_setup env' cfg 42 None None Demo.w0 in
  let run' := fetch_easyconfigs_from_pr env' cfg 42 None None Demo.w0 in
  (fst setup = Ok ("/prs", opened, tree, "/prs/42.diff", [file])
   /\ apply_patch env "/prs/42.diff" tree (snd setup)
      = (Raise (EasyBuildError "patch does not apply"), fs (snd setup))
   /\ fst run = Ok ["/prs/t/toy/toy-1.0.eb"]
   /\ trace (snd run)
      = (trace (snd setup)
         ++ [EvApplyPatch "/prs/42.diff" tree;
             raw_download opened "easybuilders" GITHUB_EASYCONFIGS_REPO "/prs"
               file])%list
   /\ fetched_per_file env cfg opened "/prs" [file]
        (mkWorld (fs (snd setup))
           (trace (snd setup) ++ [EvApplyPatch "/prs/42.diff" tree]))
        run)
  /\ (fst setup' = Ok ("/prs", closed, tree, "/prs/42.diff", [file])
      /\ fst run' = Ok ["/prs/t/toy/toy-1.0.eb"]
      /\ trace (snd run')
         = (trace (snd setup')
            ++ [EvWarn "Using easyconfigs from closed PR #42";
                raw_download closed "easybuilders" GITHUB_EASYCONFIGS_REPO
                  "/prs" file])%list
      /\ fetched_per_file env' cfg closed "/prs" [file]
           (record (snd setup') [EvWarn "Using easyconfigs from closed PR #42"])
           run').
Proof.
  intros cfg tree file opened env setup run closed env' setup' run'.
  assert (E : fst setup = Ok ("/prs", opened, tree, "/prs/42.diff", [file]))
    by (vm_compute; reflexivity).
  assert (E' : fst setup' = Ok ("/prs", closed, tree, "/prs/42.diff", [file]))
    by (vm_compute; reflexivity).
  split.
  - split; [exact E|]. split; [reflexivity|].
    split; [vm_compute; reflexivity|]. split; [vm_compute; reflexivity|].
    apply (proj1 (unapplied_pr_falls_back_to_downloads env cfg 42 None None
                    Demo.w0 "/prs" opened tree "/prs/42.diff" [file]
                    (snd setup) (run_eq setup _ E) eq_refl)
             ltac:(discriminate) "patch does not apply" (fs (snd setup))).
    reflexivity.
  - split; [exact E'|].
    split; [vm_compute; reflexivity|]. split; [vm_compute; reflexivity|].
    apply (proj2 (unapplied_pr_falls_back_to_downloads env' cfg 42 None None
                    Demo.w0 "/prs" closed tree "/prs/42.diff" [file]
                    (snd setup') (run_eq setup' _ E') eq_refl)).
    reflexivity.
Defined.

(** ** Patch attribution (C8) *)

Lemma is_patch_for_spec fn ec : is_patch_for fn ec = true <-> declares_patch ec fn.
Proof.
  unfold is_patch_for, declares_patch. rewrite List.existsb_exists. split.
  - intros (patch & Hin & Heq). apply String.eqb_eq in Heq.
    apply List.in_app_or in Hin. destruct Hin as [Hin|Hin].
    + left. exists patch. split; [now apply list_elem_of_In | done].
    + right. apply List.in_flat_map in Hin. destruct Hin as (ext & Hext & Hp).
      destruct ext as [| |name version ext_patches|]; simpl in Hp; try done.
      exists name, version, ext_patches, patch.
      split; [now apply list_elem_of_In|]. split; [now apply list_elem_of_In | done].
  - intros [(patch & Hin & Heq)|(name & version & ps & patch & Hext & Hin & Heq)];
      exists patch; (split; [|now apply String.eqb_eq]); apply List.in_or_app.
    + left. now apply list_elem_of_In.
    + right. apply List.in_flat_map. exists (ExtFull name version ps).
      split; [now apply list_elem_of_In|]. simpl. now apply list_elem_of_In.
Qed.

Lemma find_first_declaring file_info fn :
  match List.find (is_patch_for fn) (fi_ecs file_info) with
  | Some ec => first_declaring file_info fn ec
  | None => Forall (fun e => ~ declares_patch e fn) (fi_ecs file_info)
  end.
Proof.
  unfold first_declaring. generalize (fi_ecs file_info). intros ecs.
  induction ecs as [|e ecs IH]; simpl; [constructor|].
  destruct (is_patch_for fn e) eqn:E.
  - exists [], ecs. split; [reflexivity|]. split; [|constructor].
    now apply is_patch_for_spec.
  - assert (He : ~ declares_patch e fn).
    { intros H. apply is_patch_for_spec in H. congruence. }
    destruct (List.find (is_patch_for fn) ecs) as [ec|].
    + destruct IH as (before & after & -> & Hd & Hb).
      exists (e :: before), after. split; [reflexivity|]. split; [exact Hd|].
      constructor; assumption.
    + constructor; assumption.
Qed.

Lemma first_declaring_unique file_info fn ec1 ec2 :
  first_declaring file_info fn ec1 -> first_declaring file_info fn ec2 ->
  ec1 = ec2.
Proof.
  intros (b1 & a1 & E1 & D1 & F1) (b2 & a2 & E2 & D2 & F2).
  rewrite E1 in E2. clear E1. revert b2 E2 F2.
  induction F1 as [|x b1 Hx F1 IH]; intros b2 E2 F2.
  - destruct b2 as [|y b2]; simpl in E2; inversion E2; subst; [reflexivity|].
    inversion F2; subst. contradiction.
  - destruct b2 as [|y b2]; simpl in E2; inversion E2; subst.
    + contradiction.
    + inversion F2; subst. eapply IH; eauto.
Qed.

Lemma truthy_nonempty s : s <> "" -> truthy s = true.
Proof.
  intros H. unfold truthy. apply negb_true_iff. now apply String.eqb_neq.
Qed.

Lemma truthy_empty s : truthy s = false -> s = "".
Proof.
  unfold truthy. intros H. apply negb_false_iff in H. now apply String.eqb_eq.
Qed.

(** The body of the loop settles one patch file as [attributed] says. *)
Lemma det_patch_spec_attributed env file_info ec_dirs patch_path w :
  attributed env file_info ec_dirs patch_path w
    (fst (det_patch_spec env file_info ec_dirs patch_path w))
    (snd (det_patch_spec env file_info ec_dirs patch_path w)).
Proof.
  pose proof (find_first_declaring file_info (Py.basename patch_path)) as Hfind.
  assert (Hscan :
    ~ known_owner file_info patch_path ->
    attributed env file_info ec_dirs patch_path w
      (fst (bind (find_software_name_for_patch env (Py.basename patch_path)
                    ec_dirs)
              (fun soft_name =>
                 if truthy_opt soft_name
                 then ret (patch_path, str_opt soft_name)
                 else raise (unresolved_patch patch_path))
              (record w (scan_notice patch_path))))
      (snd (bind (find_software_name_for_patch env (Py.basename patch_path)
                    ec_dirs)
              (fun soft_name =>
                 if truthy_opt soft_name
                 then ret (patch_path, str_opt soft_name)
                 else raise (unresolved_patch patch_path))
              (record w (scan_notice patch_path))))).
  { intros Hunknown. rewrite bind_run.
    destruct (find_software_name_for_patch env (Py.basename patch_path)
                ec_dirs (record w (scan_notice patch_path)))
      as [[[name|]|e] w'] eqn:Escan; cbn [truthy_opt str_opt].
    - destruct (truthy name) eqn:Et; cbn [fst snd].
      + eapply attributed_scanned; eauto. intros ->. discriminate.
      + eapply attributed_unresolved; eauto. right. f_equal.
        now apply truthy_empty.
    - eapply attributed_unresolved; eauto.
    - eapply attributed_scan_failed; eauto. }
  assert (Hrun : forall k : M (string * string),
            (emit (EvPrint ("Matching easyconfig for " +:+ patch_path
                            +:+ " not found on the first try:")) ;;;
             emit (EvPrint "scanning all easyconfigs to determine where patch file belongs (this may take a while)...") ;;;
             k) w = k (record w (scan_notice patch_path))).
  { intros k. unfold bind at 1 2, emit, record, scan_notice. cbn beta iota.
    cbn [fs trace]. rewrite <- app_assoc. reflexivity. }
  unfold det_patch_spec.
  destruct (List.find (is_patch_for (Py.basename patch_path))
              (fi_ecs file_info)) as [ec|].
  - destruct (truthy (ec_name ec)) eqn:Et.
    + apply attributed_known; [exact Hfind|]. intros E. rewrite E in Et.
      discriminate.
    + rewrite Hrun. apply Hscan.
      intros (before & ec' & after & E & Hd & Hb & Hname).
      assert (ec' = ec) as ->.
      { eapply first_declaring_unique; [|exact Hfind].
        exists before, after. auto. }
      apply Hname. now apply truthy_empty.
  - rewrite Hrun. apply Hscan.
    intros (before & ec' & after & E & Hd & Hb & Hname).
    rewrite E in Hfind. apply Forall_app in Hfind. destruct Hfind as [_ Hf].
    inversion Hf; subst. contradiction.
Qed.

Lemma map_m_in_turn {A B} (body : A -> M B)
    (step : A -> World -> Res B -> World -> Prop) l w :
  (forall x w0, step x w0 (fst (body x w0)) (snd (body x w0))) ->
  in_turn step l w (fst (map_m body l w)) (snd (map_m body l w)).
Proof.
  intros Hstep. revert w. induction l as [|x l IH]; intros w; simpl.
  - constructor.
  - rewrite bind_run. pose proof (Hstep x w) as Hx.
    destruct (body x w) as [[b|e] w1]; cbn [fst snd] in Hx |- *.
    + rewrite bind_run. pose proof (IH w1) as Hl.
      destruct (map_m body l w1) as [[bs|e] w2]; cbn [fst snd] in Hl |- *.
      * eapply in_turn_cons; eauto.
      * eapply in_turn_later; eauto.
    + now apply in_turn_raise.
Qed.

(** When every patch file has a known owner, nothing happens. *)
Lemma in_turn_all_known env file_info ec_dirs patch_paths w r w' :
  in_turn (attributed env file_info ec_dirs) patch_paths w r w' ->
  (forall p, p ∈ patch_paths -> known_owner file_info p) ->
  w' = w
  /\ exists specs,
       r = Ok specs
       /\ Forall2 (fun p spec =>
                     exists ec,
                       first_declaring file_info (Py.basename p) ec
                       /\ spec = (p, ec_name ec))
            patch_paths specs.
Proof.
  induction 1 as [w|x l w b w1 bs w2 Hx Hl IH|x l w b w1 e w2 Hx Hl IH
                  |x l w e w1 Hx]; intros Hall.
  - split; [reflexivity|]. exists []. split; [reflexivity|constructor].
  - assert (Hk : known_owner file_info x) by (apply Hall, list_elem_of_here).
    inversion Hx; subst; try contradiction.
    destruct IH as (-> & specs & Hs & HF).
    { intros p Hp. apply Hall. now apply list_elem_of_further. }
    inversion Hs; subst. split; [reflexivity|].
    eexists. split; [reflexivity|]. constructor; [eauto|exact HF].
  - assert (Hk : known_owner file_info x) by (apply Hall, list_elem_of_here).
    inversion Hx; subst; try contradiction.
    destruct IH as (_ & specs & Hs & _); [|discriminate].
    intros p Hp. apply Hall. now apply list_elem_of_further.
  - assert (Hk : known_owner file_info x) by (apply Hall, list_elem_of_here).
    inversion Hx; subst; contradiction.
Qed.

(** C8 (as amended): [det_patch_specs] prints its heading and then
    settles the patch files it is given one after the other, up to the
    first it cannot settle.  For each of them: when a known package
    record declares a patch of that file name, among its own patches or
    among those of an extension in [exts_list], and the first record
    that does has a name, the owner is that name and nothing else
    happens: no directory is walked and no file read or parsed.
    Otherwise (no known record declares it, or the first that does has
    an empty name) the two notices are printed and the search roots are
    scanned with [find_software_name_for_patch]: the name the scan finds
    is the owner, and when it finds none the function raises "Failed to
    determine software name to which patch file <path> relates".  In
    particular, when every patch file has a known owner, the heading is
    all that is printed and each file is paired with the name of the
    first record that declares it. *)
Theorem patch_owner_resolution env patch_paths file_info ec_dirs w :
  let heading := EvPrint "determining software names for patch files..." in
  let run := det_patch_specs env patch_paths file_info ec_dirs w in
  in_turn (attributed env file_info ec_dirs) patch_paths
    (record w [heading]) (fst run) (snd run)
  /\ ((forall p, p ∈ patch_paths -> known_owner file_info p) ->
      snd run = record w [heading]
      /\ exists specs,
           fst run = Ok specs
           /\ Forall2 (fun p spec =>
                         exists ec,
                           first_declaring file_info (Py.basename p) ec
                           /\ spec = (p, ec_name ec))
                patch_paths specs).
Proof.
  cbn zeta.
  assert (H : in_turn (attributed env file_info ec_dirs) patch_paths
                (record w [EvPrint "determining software names for patch files..."])
                (fst (det_patch_specs env patch_paths file_info ec_dirs w))
                (snd (det_patch_specs env patch_paths file_info ec_dirs w))).
  { unfold det_patch_specs. rewrite bind_run.
    unfold print_msg at 1, emit at 1. cbn beta iota.
    apply map_m_in_turn. intros x w0. apply det_patch_spec_attributed. }
  split; [exact H|]. intros Hall.
  exact (in_turn_all_known _ _ _ _ _ _ _ H Hall).
Qed.

Lemma patch_owner_resolution_witness :
  let env := Demo.env (Demo.pull "open" false "toy") true "" in
  let file_info := {| fi_ecs := [demo_bar];
                      fi_paths_in_repo := ["easybuild/easyconfigs/b/bar/bar-0.3.eb"];
                      fi_new := [true] |} in
  let heading := EvPrint "determining software names for patch files..." in
  let bar := "/home/alice/bar.patch" in
  let toy := "/home/alice/toy-fix.patch" in
  let other := "/home/alice/other.patch" in
  let run := det_patch_specs env [bar; toy] file_info ["/robot/t/toy"]
               demo_robot in
  let known := det_patch_specs env [bar] file_info ["/robot/t/toy"]
                 demo_robot in
  let lost := det_patch_specs env [bar; other; toy] file_info ["/robot/t/toy"]
                demo_robot in
  (* a known owner, then one the scan finds *)
  (fst run = Ok [(bar, "bar"); (toy, "toy")]
   /\ trace (snd run)
      = heading :: (scan_notice toy
                    ++ [EvWalk "/robot/t/toy"; EvParse "/robot/t/toy/toy-2.0.eb";
                        EvPrint (String "013" "1 of 1 easyconfigs checked");
                        EvPrint (String "010" "")])%list
   /\ in_turn (attributed env file_info ["/robot/t/toy"]) [bar; toy]
        (record demo_robot [heading]) (fst run) (snd run))
  (* known owners only *)
  /\ (known_owner file_info bar
      /\ snd known = record demo_robot [heading]
      /\ exists specs,
           fst known = Ok specs
           /\ Forall2 (fun p spec =>
                         exists ec,
                           first_declaring file_info (Py.basename p) ec
                           /\ spec = (p, ec_name ec))
                [bar] specs)
  (* a patch file nobody declares *)
  /\ (fst lost = Raise (unresolved_patch other)
      /\ in_turn (attributed env file_info ["/robot/t/toy"]) [bar; other; toy]
           (record demo_robot [heading]) (fst lost) (snd lost)).
Proof.
  intros env file_info heading bar toy other run known lost.
  assert (Hbar : known_owner file_info bar).
  { exists [], demo_bar, []. split; [reflexivity|]. split; [|split].
    - left. exists (PatchName "bar.patch").
      split; [apply list_elem_of_here|reflexivity].
    - constructor.
    - discriminate. }
  split; [|split].
  - split; [vm_compute; reflexivity|]. split; [vm_compute; reflexivity|].
    exact (proj1 (patch_owner_resolution env [bar; toy] file_info
                    ["/robot/t/toy"] demo_robot)).
  - split; [exact Hbar|].
    apply (proj2 (patch_owner_resolution env [bar] file_info
                    ["/robot/t/toy"] demo_robot)).
    intros p Hp. apply list_elem_of_singleton in Hp. rewrite Hp. exact Hbar.
  - split; [vm_compute; reflexivity|].
    exact (proj1 (patch_owner_resolution env [bar; other; toy] file_info
                    ["/robot/t/toy"] demo_robot)).
Defined.

(** C8 as stated fails for a record without a name: the known record
    declares toy-fix.patch, yet the search root is scanned, and the owner
    that is returned is the one the scan finds there, not the record's. *)
Lemma nameless_record_is_scanned :
  let env := Demo.env (Demo.pull "open" false "toy") true "" in
  let file_info := {| fi_ecs := [demo_nameless];
                      fi_paths_in_repo := ["easybuild/easyconfigs/n/nameless.eb"];
                      fi_new := [true] |} in
  let run := det_patch_specs env ["/home/alice/toy-fix.patch"] file_info
               ["/robot/t/toy"] demo_robot in
  declares_patch demo_nameless (Py.basename "/home/alice/toy-fix.patch")
  /\ fst run = Ok [("/home/alice/toy-fix.patch", "toy")]
  /\ trace (snd run)
     = EvPrint "determining software names for patch files..."
       :: (scan_notice "/home/alice/toy-fix.patch"
           ++ [EvWalk "/robot/t/toy"; EvParse "/robot/t/toy/toy-2.0.eb";
               EvPrint (String "013" "1 of 1 easyconfigs checked");
               EvPrint (String "010" "")])%list.
Proof.
  intros env file_info run. split; [|split].
  - left. exists (PatchName "toy-fix.patch").
    split; [apply list_elem_of_here|reflexivity].
  - vm_compute. reflexivity.
  - vm_compute. reflexivity.
Qed.

(** ** Eligibility for merging (C2) *)

Lemma check_test_reports_run comments res w :
  exists w',
    check_test_reports comments res w
    = (Ok (match first_outcome comments with
           | Some true => (res, true)
           | Some false => (false, true)
           | None => (res, false)
           end), w').
Proof.
  revert w. induction comments as [|c rest IH]; intros w; simpl.
  - eexists. reflexivity.
  - destruct (test_report_regex_search (c_body c)); [|apply IH].
    destruct (Py.contains (c_body c) "SUCCESS").
    { eexists. reflexivity. }
    destruct (Py.contains (c_body c) "FAILED").
    { eexists. reflexivity. }
    rewrite bind_run. unfold print_warning, emit. cbn beta iota. apply IH.
Qed.

(** The scan, read declaratively. *)
Lemma first_outcome_rev_true comments :
  first_outcome (rev comments) = Some true <-> decisive_test_report_ok comments.
Proof.
  unfold decisive_test_report_ok, is_test_report, says_success, says_failed.
  induction comments as [|c comments IH] using rev_ind.
  - simpl. split; [discriminate|].
    intros (older & c & newer & H & _). destruct older; discriminate.
  - rewrite rev_unit. simpl.
    destruct (test_report_regex_search (c_body c)) eqn:Er.
    + destruct (Py.contains (c_body c) "SUCCESS") eqn:Es.
      * split; [|done]. intros _. exists comments, c, []. auto.
      * destruct (Py.contains (c_body c) "FAILED") eqn:Ef.
        -- split; [discriminate|].
           intros (older & c0 & newer & H & Hr & Hs & Hn). exfalso.
           destruct newer as [|x newer _] using rev_ind.
           ++ apply app_inj_tail in H. destruct H as [_ <-]. congruence.
           ++ rewrite app_comm_cons, app_assoc in H.
              apply app_inj_tail in H. destruct H as [_ <-].
              apply Forall_app in Hn. destruct Hn as [_ Hn].
              inversion Hn; subst. tauto.
        -- rewrite IH. split.
           ++ intros (older & c0 & newer & H & Hr & Hs & Hn).
              exists older, c0, (newer ++ [c])%list.
              split; [rewrite H, <- app_assoc; reflexivity|].
              split; [done|]. split; [done|].
              apply Forall_app. split; [done|]. constructor; [|constructor].
              intros [_ [H'|H']]; congruence.
           ++ intros (older & c0 & newer & H & Hr & Hs & Hn).
              destruct newer as [|x newer _] using rev_ind.
              ** apply app_inj_tail in H. destruct H as [_ <-]. congruence.
              ** rewrite app_comm_cons, app_assoc in H.
                 apply app_inj_tail in H. destruct H as [-> ->].
                 apply Forall_app in Hn. destruct Hn as [Hn _].
                 exists older, c0, newer. auto.
    + rewrite IH. split.
      * intros (older & c0 & newer & H & Hr & Hs & Hn).
        exists older, c0, (newer ++ [c])%list.
        split; [rewrite H, <- app_assoc; reflexivity|].
        split; [done|]. split; [done|].
        apply Forall_app. split; [done|]. constructor; [|constructor].
        intros [H' _]; congruence.
      * intros (older & c0 & newer & H & Hr & Hs & Hn).
        destruct newer as [|x newer _] using rev_ind.
        -- apply app_inj_tail in H. destruct H as [_ <-]. congruence.
        -- rewrite app_comm_cons, app_assoc in H.
           apply app_inj_tail in H. destruct H as [-> ->].
           apply Forall_app in Hn. destruct Hn as [Hn _].
           exists older, c0, newer. auto.
Qed.

Lemma approved_filter_nil reviews :
  existsb (fun review => String.eqb (r_state review) "APPROVED") reviews
  = match r_user <$> List.filter (fun review => String.eqb (r_state review) "APPROVED")
                       reviews with
    | [] => false
    | _ :: _ => true
    end.
Proof.
  induction reviews as [|r rs IH]; simpl; [done|].
  destruct (String.eqb (r_state r) "APPROVED"); simpl; [done | exact IH].
Qed.

(** [check_pr_eligible_to_merge] always returns, and its verdict is
    [eligible]. *)
Lemma check_pr_eligible_to_merge_run pr_data w :
  exists w', check_pr_eligible_to_merge pr_data w = (Ok (eligible pr_data), w').
Proof.
  unfold check_pr_eligible_to_merge, eligible.
  rewrite approved_filter_nil.
  unfold not_eligible, print_msg, print_warning, bind, emit, ret.
  cbn beta iota.
  destruct (String.eqb (base_ref (pr_core pr_data)) "develop");
  destruct (String.eqb (status_last_commit pr_data) "success");
  try destruct (String.eqb (status_last_commit pr_data) "pending");
  try destruct (String.eqb (status_last_commit pr_data) "error"
                || String.eqb (status_last_commit pr_data) "failure");
  destruct (String.eqb (base_repo_name (pr_core pr_data)) GITHUB_EASYCONFIGS_REPO);
  cbn beta iota;
  try match goal with
      | |- context [check_test_reports ?c ?r ?w0] =>
          destruct (check_test_reports_run c r w0) as [w1 ->];
          destruct (first_outcome c) as [[]|]
      end;
  cbn beta iota;
  destruct (r_user <$> List.filter _ (reviews pr_data));
  destruct (milestone (pr_core pr_data));
  cbn beta iota; eexists; reflexivity.
Qed.

Lemma eligible_spec pr_data :
  eligible pr_data = true <-> criteria_pass decisive_test_report_ok pr_data.
Proof.
  unfold eligible, criteria_pass. rewrite !andb_true_iff, !String.eqb_eq.
  rewrite List.existsb_exists.
  assert (Hrep :
    (if String.eqb (base_repo_name (pr_core pr_data)) GITHUB_EASYCONFIGS_REPO
     then match first_outcome (rev (issue_comments pr_data)) with
          | Some true => true
          | _ => false
          end
     else true) = true
    <-> (base_repo_name (pr_core pr_data) = GITHUB_EASYCONFIGS_REPO ->
         decisive_test_report_ok (issue_comments pr_data))).
  { rewrite <- first_outcome_rev_true.
    destruct (String.eqb _ GITHUB_EASYCONFIGS_REPO) eqn:E.
    - apply String.eqb_eq in E.
      destruct (first_outcome _) as [[]|]; split; auto; try discriminate;
        intros H; specialize (H E); discriminate.
    - apply String.eqb_neq in E. split; [contradiction | done]. }
  rewrite Hrep.
  assert (Hrev :
    (exists x, In x (reviews pr_data) /\ String.eqb (r_state x) "APPROVED" = true)
    <-> (exists review, review ∈ reviews pr_data /\ r_state review = "APPROVED")).
  { split; intros (x & Hin & Hx); exists x.
    - split; [now apply list_elem_of_In | now apply String.eqb_eq].
    - split; [now apply list_elem_of_In | now apply String.eqb_eq]. }
  rewrite Hrev.
  assert (Hms : match milestone (pr_core pr_data) with
                | Some _ => true | None => false end = true
                <-> milestone (pr_core pr_data) <> None).
  { destruct (milestone _); split; try done. }
  rewrite Hms. tauto.
Qed.

(** C2 (as amended): [check_pr_eligible_to_merge] always returns, and
    it returns true exactly when all fixed criteria pass: the base
    branch is "develop", the status of the last commit is "success",
    (when the base repository is the easyconfigs repository) the most
    recent test report that carries an outcome, "SUCCESS" or "FAILED",
    exists and contains "SUCCESS", some review has state "APPROVED", and
    a milestone is attached.  A test report is a comment whose body
    starts with "Test report by @" and a non-blank character. *)
Theorem eligible_iff_criteria pr_data w :
  exists b w',
    check_pr_eligible_to_merge pr_data w = (Ok b, w')
    /\ (b = true <-> criteria_pass decisive_test_report_ok pr_data).
Proof.
  destruct (check_pr_eligible_to_merge_run pr_data w) as [w' H].
  exists (eligible pr_data), w'. split; [exact H | apply eligible_spec].
Qed.

(** C2 as stated fails: the newest test report of [pending_report_pr]
    carries no outcome, so the criterion "the most recent test-report
    comment contains SUCCESS" does not pass, yet the code skips that
    comment with a warning, finds the older successful report and
    returns true. *)
Lemma eligible_despite_pending_report :
  (exists w', check_pr_eligible_to_merge pending_report_pr Demo.w0 = (Ok true, w'))
  /\ ~ criteria_pass stated_test_report_ok pending_report_pr.
Proof.
  split.
  - eexists. vm_compute. reflexivity.
  - intros (_ & _ & Hrep & _). specialize (Hrep eq_refl).
    destruct Hrep as (older & c & newer & Heq & Hr & Hs & Hn).
    unfold pending_report_pr in Heq. cbn [issue_comments] in Heq.
    change [?a; ?b] with ([a] ++ [b])%list in Heq.
    destruct newer as [|x newer _] using rev_ind.
    + apply app_inj_tail in Heq. destruct Heq as [_ <-].
      vm_compute in Hs. discriminate.
    + rewrite app_comm_cons, app_assoc in Heq.
      apply app_inj_tail in Heq. destruct Heq as [_ <-].
      apply Forall_app in Hn. destruct Hn as [_ Hn]. inversion Hn; subst.
      match goal with H : ~ is_test_report _ |- _ => apply H end.
      vm_compute. reflexivity.
Qed.

(** ** The repository cache (C3) *)

(** The miss branch of [download_repo] fetches a new snapshot. *)
Lemma download_block_run env repo branch account path sha w :
  (tool (download_file env (branch +:+ ".tar.gz")
           (Py.join URL_SEPARATOR
              [GITHUB_URL; account; repo; "archive"; branch +:+ ".tar.gz"])
           (Py.path_join (Py.path_join path account) (branch +:+ ".tar.gz")))
        (EvDownload (branch +:+ ".tar.gz")
           (Py.join URL_SEPARATOR
              [GITHUB_URL; account; repo; "archive"; branch +:+ ".tar.gz"])
           (Py.path_join (Py.path_join path account) (branch +:+ ".tar.gz"))) ;;;
   dir <- tool (extract_file env
                  (Py.path_join (Py.path_join path account) (branch +:+ ".tar.gz"))
                  (Py.path_join path account))
               (EvExtract
                  (Py.path_join (Py.path_join path account) (branch +:+ ".tar.gz"))
                  (Py.path_join path account)) ;;
   isdir <- os_path_isdir (Py.path_join dir (repo +:+ "-" +:+ branch)) ;;
   if negb isdir
   then raise (EasyBuildError
          (Py.path_join dir (repo +:+ "-" +:+ branch)
           +:+ " should exist and contain the repo " +:+ repo
           +:+ " at branch " +:+ branch))
   else write_file
          (Py.path_join (Py.path_join (Py.path_join path account)
             (repo +:+ "-" +:+ branch)) "latest-sha") sha ;;;
        ret (Py.path_join dir (repo +:+ "-" +:+ branch))) w
  = fetch_snapshot env repo branch account path sha w.
Proof.
  unfold fetch_snapshot, archive_path, archive_url, sha_marker, expected_dir,
    account_dir.
  rewrite bind_run. unfold tool at 1.
  destruct (download_file env _ _ _ w) as [[[]|e] disk1]; [|reflexivity].
  rewrite bind_run. unfold tool at 1.
  destruct (extract_file env _ _ _) as [[dir|e] disk2]; [|reflexivity].
  rewrite bind_run. unfold os_path_isdir. cbn [fs].
  destruct (disk2 !! Py.path_join dir (repo +:+ "-" +:+ branch)) as [[]|];
    reflexivity.
Qed.

(** [download_repo] with an explicit destination is the cache contract. *)
Lemma download_repo_acquire env cfg repo branch account path user w :
  download_repo env cfg repo branch account (Some path) user w
  = acquire env cfg repo branch account path user w.
Proof.
  unfold download_repo, acquire, marker_current, sha_marker, expected_dir,
    account_dir.
  cbv zeta.
  rewrite bind_run. unfold ret at 1. cbn beta iota.
  rewrite bind_run.
  destruct (mkdir (Py.path_join path account) w) as [[[]|e] w0] eqn:Emk.
  2:{ unfold mkdir in Emk. destruct (fs w !! _); discriminate. }
  cbn [snd]. rewrite bind_run.
  destruct (fetch_latest_commit_sha env cfg repo account branch user w0)
    as [[sha|e] w1]; [|reflexivity].
  rewrite bind_run. unfold os_path_exists, read_file.
  destruct (fs w1 !! _) as [[txt|]|] eqn:Em.
  - rewrite bool_decide_true by eauto. cbn beta iota. rewrite bind_run, Em.
    destruct (String.eqb sha (Py.rstrip (Py.first_line txt))); [reflexivity|].
    apply download_block_run.
  - rewrite bool_decide_true by eauto. cbn beta iota. rewrite bind_run, Em.
    reflexivity.
  - rewrite bool_decide_false by (intros [x Hx]; discriminate).
    apply download_block_run.
Qed.

Lemma mkdir_trace p w : trace (snd (mkdir p w)) = trace w.
Proof. unfold mkdir. destruct (fs w !! p); reflexivity. Qed.

Lemma mkdir_keeps p w q x :
  fs w !! q = Some x -> fs (snd (mkdir p w)) !! q = Some x.
Proof.
  intros H. unfold mkdir. destruct (fs w !! p) eqn:E; [exact H|].
  cbn [snd fs]. rewrite lookup_insert_ne; [exact H|]. congruence.
Qed.

(** The tip lookup asks the forge once, leaves the disk alone, and its
    answer is a function of the forge's reply. *)
Lemma fetch_latest_commit_sha_run env cfg repo account branch user w :
  snd (fetch_latest_commit_sha env cfg repo account branch user w)
  = record w [EvApi (GetBranches account repo)]
  /\ (forall w2,
        api_branches env account repo w2 = api_branches env account repo w ->
        fst (fetch_latest_commit_sha env cfg repo account branch user w2)
        = fst (fetch_latest_commit_sha env cfg repo account branch user w))
  /\ (forall sha,
        fst (fetch_latest_commit_sha env cfg repo account branch user w) = Ok sha ->
        exists b, b ∈ data (api_branches env account repo w) /\ br_sha b = sha).
Proof.
  unfold fetch_latest_commit_sha, github_api_get_request.
  assert (Htok : forall u w0, fetch_github_token env u w0
                 = (Ok (match u with
                        | Some u => keyring_get_password env u w0
                        | None => None end), w0)).
  { intros [u|] w0; reflexivity. }
  split; [|split].
  - rewrite !bind_run, Htok. unfold bind, ask, emit, ret, raise. cbn beta iota.
    destruct (negb _); [reflexivity|]. destruct (List.find _ _); reflexivity.
  - intros w2 Heq. rewrite !bind_run, !Htok.
    unfold bind, ask, emit, ret, raise. cbn beta iota. rewrite Heq.
    destruct (negb _); [reflexivity|]. destruct (List.find _ _); reflexivity.
  - intros sha. rewrite !bind_run, Htok.
    unfold bind, ask, emit, ret, raise. cbn beta iota.
    destruct (negb _); [discriminate|].
    destruct (List.find _ _) as [b|] eqn:Ef; [|discriminate].
    cbn [fst]. intros H. inversion H; subst.
    apply List.find_some in Ef. exists b. split; [|reflexivity].
    apply list_elem_of_In. tauto.
Qed.

Lemma content_fetches_app evs1 evs2 :
  content_fetches (evs1 ++ evs2) = (content_fetches evs1 + content_fetches evs2)%nat.
Proof. unfold content_fetches. now rewrite List.filter_app, List.length_app. Qed.

(** Two calls with the same destination. *)
Lemma download_repo_twice env cfg repo branch account path user w p1 w1 :
  (forall wa wb, api_branches env account repo wa = api_branches env account repo wb) ->
  (forall w0 b, b ∈ data (api_branches env account repo w0) -> clean_sha (br_sha b)) ->
  download_repo env cfg repo branch account (Some path) user w = (Ok p1, w1) ->
  exists sha w2 evs,
    download_repo env cfg repo branch account (Some path) user w1
    = (Ok (expected_dir path account repo branch), w2)
    /\ trace w2 = (trace w1 ++ [EvApi (GetBranches account repo)])%list
    /\ marker_current (fs w1) (sha_marker path account repo branch) sha = true
    /\ trace w2 = (trace w ++ evs)%list
    /\ content_fetches evs
       = (if marker_current (fs (snd (mkdir (account_dir path account) w)))
               (sha_marker path account repo branch) sha
          then 0 else 1)%nat
    /\ ((forall archive dest w0 dir disk,
           extract_file env archive dest w0 = (Ok dir, disk) -> dir = dest) ->
        p1 = expected_dir path account repo branch).
Proof.
  intros Htip Hclean Hfirst.
  rewrite download_repo_acquire in Hfirst. rewrite download_repo_acquire.
  unfold acquire in *.
  set (A := account_dir path account) in *.
  set (marker := sha_marker path account repo branch) in *.
  set (w0 := snd (mkdir A w)) in *.
  destruct (fetch_latest_commit_sha_run env cfg repo account branch user w0)
    as (Hw & _ & Hin).
  destruct (fetch_latest_commit_sha env cfg repo account branch user w0)
    as [[sha|e] wf] eqn:Ef; [|discriminate].
  cbn [fst snd] in Hw, Hin. subst wf.
  destruct (Hin sha eq_refl) as (b & Hb & Hsha).
  assert (Hcl : clean_sha sha) by (rewrite <- Hsha; eapply Hclean; eauto).
  (* the second lookup gives the same tip *)
  assert (Hsecond : forall wx,
    fetch_latest_commit_sha env cfg repo account branch user wx
    = (Ok sha, record wx [EvApi (GetBranches account repo)])).
  { intros wx.
    destruct (fetch_latest_commit_sha_run env cfg repo account branch user w0)
      as (_ & Hsame & _).
    destruct (fetch_latest_commit_sha_run env cfg repo account branch user wx)
      as (Hwx & _ & _).
    specialize (Hsame wx (Htip _ _)). rewrite Ef in Hsame. cbn [fst] in Hsame.
    destruct (fetch_latest_commit_sha env cfg repo account branch user wx).
    cbn [fst snd] in *. now subst. }
  (* after the first call the marker records the tip *)
  assert (Hmark : marker_current (fs w1) marker sha = true
          /\ exists evs1, trace w1 = (trace w ++ evs1)%list
             /\ content_fetches (evs1 ++ [EvApi (GetBranches account repo)])
                = (if marker_current (fs w0) marker sha then 0 else 1)%nat
             /\ ((forall archive dest wz dir disk,
                    extract_file env archive dest wz = (Ok dir, disk) -> dir = dest) ->
                 p1 = expected_dir path account repo branch)).
  { cbn [fs record] in Hfirst.
    destruct (marker_current (fs w0) marker sha) eqn:Ehit.
    - inversion Hfirst; subst. cbn [fs record]. split; [exact Ehit|].
      exists [EvApi (GetBranches account repo)]. cbn [trace record].
      subst w0. rewrite mkdir_trace. auto.
    - assert (Hfs : fetch_snapshot env repo branch account path sha
                      (record w0 [EvApi (GetBranches account repo)]) = (Ok p1, w1)).
      { destruct (fs w0 !! marker) as [[]|]; try discriminate; exact Hfirst. }
      clear Hfirst. unfold fetch_snapshot in Hfs.
      destruct (download_file env _ _ _ _) as [[[]|e] disk1]; [|discriminate].
      destruct (extract_file env _ _ _) as [[dir|e] disk2] eqn:Ex; [|discriminate].
      destruct (disk2 !! _) as [[]|] eqn:Ed; try discriminate.
      inversion Hfs; subst p1 w1; clear Hfs. cbn [fs trace record].
      fold marker. split.
      + unfold marker_current. rewrite lookup_insert_eq.
        unfold clean_sha in Hcl. rewrite Hcl. apply String.eqb_refl.
      + eexists. split.
        * subst w0. rewrite mkdir_trace, <- !app_assoc. reflexivity.
        * split; [reflexivity|]. intros Hx. apply Hx in Ex. subst dir.
          reflexivity. }
  destruct Hmark as (Hcur & evs1 & Htr1 & Hcount & Hpath).
  set (w0' := snd (mkdir A w1)).
  assert (Hcur' : marker_current (fs w0') marker sha = true).
  { unfold marker_current in *.
    destruct (fs w1 !! marker) as [[txt|]|] eqn:Em; try discriminate.
    subst w0'. now rewrite (mkdir_keeps _ _ _ _ Em). }
  rewrite Hsecond. cbn [fs record]. rewrite Hcur'.
  exists sha, (record w0' [EvApi (GetBranches account repo)]),
    (evs1 ++ [EvApi (GetBranches account repo)])%list.
  split; [reflexivity|]. cbn [trace record]. subst w0'. rewrite mkdir_trace.
  split; [reflexivity|]. split; [exact Hcur|].
  split; [now rewrite Htr1, <- app_assoc|]. split; [exact Hcount | exact Hpath].
Qed.

(** C3 (as amended): with an explicit destination, [download_repo] is
    the cache contract [acquire]: after looking up the branch's tip SHA
    it returns the expected extraction path, downloading nothing,
    exactly when the marker is a regular file whose first line, trailing
    whitespace trimmed, is that SHA; when the marker is absent or
    records something else it downloads and force-extracts the archive,
    raises if the extracted directory is not there, and only then
    writes the marker and returns the path.  Hence, if the forge keeps
    answering the branch query the same way, with SHAs free of line
    breaks and trailing blanks, and a first call returns, a second call
    with the same destination returns the expected path after the tip
    lookup alone; both calls together fetch content at most once (once
    exactly when the marker was not current before the first call), and
    the first call returned that same path provided the extraction tool
    reports the destination it was given. *)
Theorem download_repo_cache env cfg repo branch account path user :
  (forall w,
     download_repo env cfg repo branch account (Some path) user w
     = acquire env cfg repo branch account path user w)
  /\ (forall w p1 w1,
        (forall wa wb,
           api_branches env account repo wa = api_branches env account repo wb) ->
        (forall w0 b,
           b ∈ data (api_branches env account repo w0) -> clean_sha (br_sha b)) ->
        download_repo env cfg repo branch account (Some path) user w = (Ok p1, w1) ->
        exists sha w2 evs,
          download_repo env cfg repo branch account (Some path) user w1
          = (Ok (expected_dir path account repo branch), w2)
          /\ trace w2 = (trace w1 ++ [EvApi (GetBranches account repo)])%list
          /\ marker_current (fs w1) (sha_marker path account repo branch) sha = true
          /\ trace w2 = (trace w ++ evs)%list
          /\ content_fetches evs
             = (if marker_current (fs (snd (mkdir (account_dir path account) w)))
                     (sha_marker path account repo branch) sha
                then 0 else 1)%nat
          /\ ((forall archive dest w0 dir disk,
                 extract_file env archive dest w0 = (Ok dir, disk) -> dir = dest) ->
              p1 = expected_dir path account repo branch)).
Proof.
  split.
  - intros w. apply download_repo_acquire.
  - intros w p1 w1. apply download_repo_twice.
Qed.

Lemma download_repo_cache_witness :
  let env := Demo.env (Demo.pull "open" false "toy") true "" in
  let cfg := Demo.cfg "alice" false false in
  let run1 := download_repo env cfg GITHUB_EASYCONFIGS_REPO "develop"
                "easybuilders" (Some "/cache") None Demo.w0 in
  exists w2 evs,
    download_repo env cfg GITHUB_EASYCONFIGS_REPO "develop" "easybuilders"
      (Some "/cache") None (snd run1)
    = (Ok "/cache/easybuilders/easybuild-easyconfigs-develop", w2)
    /\ trace w2 = evs /\ content_fetches evs = 1%nat.
Proof.
  intros env cfg run1.
  assert (E : run1 = (Ok "/cache/easybuilders/easybuild-easyconfigs-develop",
                      snd run1)).
  { rewrite (surjective_pairing run1) at 1. f_equal. }
  destruct (proj2 (download_repo_cache env cfg GITHUB_EASYCONFIGS_REPO "develop"
                     "easybuilders" "/cache" None) Demo.w0 _ _
              ltac:(reflexivity)
              ltac:(intros w0 b Hb; cbn in Hb;
                    apply list_elem_of_In in Hb;
                    destruct Hb as [<-|[<-|[]]]; reflexivity)
              E)
    as (sha & w2 & evs & Hrun & _ & _ & Htr & Hcount & _).
  exists w2, evs. split; [exact Hrun|]. split; [exact Htr|].
  rewrite Hcount. vm_compute. reflexivity.
Defined.

(** C3 as stated fails: the destination is not among (account, repo,
    branch) and defaults to a new temporary directory per call, so two
    calls with an unchanged tip SHA fetch the content twice and return
    two different paths. *)
Lemma default_destination_is_not_reused :
  let env := Demo.env (Demo.pull "open" false "toy") true "" in
  let cfg := Demo.cfg "alice" false false in
  let run1 := download_repo env cfg GITHUB_EASYCONFIGS_REPO "develop"
                "easybuilders" None None Demo.w0 in
  let run2 := download_repo env cfg GITHUB_EASYCONFIGS_REPO "develop"
                "easybuilders" None None (snd run1) in
  (forall wa wb,
     api_branches env "easybuilders" GITHUB_EASYCONFIGS_REPO wa
     = api_branches env "easybuilders" GITHUB_EASYCONFIGS_REPO wb)
  /\ fst run1 = Ok "/tmp/0/easybuilders/easybuild-easyconfigs-develop"
  /\ fst run2 = Ok "/tmp/3/easybuilders/easybuild-easyconfigs-develop"
  /\ content_fetches (trace (snd run2)) = 2%nat.
Proof.
  cbv zeta. split; [reflexivity|]. split; [|split]; vm_compute; reflexivity.
Qed.

(** ** Reasons for closing: obsolescence (C1) *)

Lemma emit_ok_inv e w (u : unit) w' : emit e w = (Ok u, w') -> fs w' = fs w.
Proof. unfold emit. inversion 1. reflexivity. Qed.

Lemma parse_easyconfig_inv env path w ec w' :
  parse_easyconfig env path w = (Ok ec, w') ->
  get_config_dict env path (fs w) = Ok ec /\ fs w' = fs w.
Proof.
  unfold parse_easyconfig, bind, look, emit, ret, raise. cbn beta iota.
  destruct (get_config_dict env path (fs w)); inversion 1; subst. auto.
Qed.

Lemma walk_files_inv env top w files w' :
  walk_files env top is_eb w = (Ok files, w') ->
  files = eb_files_under env (fs w) top /\ fs w' = fs w.
Proof.
  unfold walk_files, bind, look, emit, ret. cbn beta iota.
  inversion 1; subst. auto.
Qed.

Lemma set_add_nonempty x l : set_add x l <> [].
Proof.
  destruct l as [|y l]; simpl; [discriminate|].
  destruct (String.eqb x y); [discriminate|].
  destruct (String.ltb x y); discriminate.
Qed.

(** The versions collected are non-empty exactly when some file of the
    walk parses to a newer version. *)
Lemma newer_versions_loop_inv env pr_ec files acc w vs w' :
  newer_versions_loop env pr_ec files acc w = (Ok vs, w') ->
  fs w' = fs w
  /\ (vs <> [] <->
      acc <> [] \/
      exists f ec, f ∈ files /\ get_config_dict env f (fs w) = Ok ec
        /\ LooseVersion.gt (ec_version ec) (ec_version pr_ec) = Some true).
Proof.
  revert acc w. induction files as [|f files IH]; intros acc w H; simpl in H.
  - inversion H; subst. split; [done|]. split; [tauto|].
    intros [Ha|(f & ec & Hf & _)]; [done|]. inversion Hf.
  - apply bind_ok_inv in H. destruct H as (ec & w1 & Hp & H).
    apply parse_easyconfig_inv in Hp. destruct Hp as [Hec Hfs1].
    destruct (LooseVersion.gt (ec_version ec) (ec_version pr_ec)) as [[]|] eqn:Eg;
      [| |discriminate]; apply IH in H; destruct H as [Hfs Hiff];
      rewrite Hfs1 in *; (split; [exact Hfs|]); rewrite Hiff; split.
    + intros _. right. exists f, ec. split; [apply list_elem_of_here | auto].
    + intros _. left. apply set_add_nonempty.
    + intros [Ha|(f' & ec' & Hf' & Hec' & Hgt)]; [tauto|].
      right. exists f', ec'. split; [now apply list_elem_of_further | auto].
    + intros [Ha|(f' & ec' & Hf' & Hec' & Hgt)]; [tauto|].
      apply elem_of_cons in Hf'. destruct Hf' as [->|Hf'].
      * exfalso. congruence.
      * right. eauto.
Qed.

Lemma archived_toolchain_loop_inv env pr_ec pr_tc files acc w acc' w' :
  archived_toolchain_loop env pr_ec pr_tc files acc w = (Ok acc', w') ->
  fs w' = fs w.
Proof.
  revert acc w. induction files as [|f files IH]; intros acc w H; simpl in H.
  - now inversion H.
  - apply bind_ok_inv in H. destruct H as (ec & w1 & Hp & H).
    apply parse_easyconfig_inv in Hp. destruct Hp as [_ Hfs1].
    destruct (ec_easyblock ec) as [easyblock|]; [|apply IH in H; congruence].
    destruct (String.eqb easyblock "Toolchain"); [|apply IH in H; congruence].
    destruct (String.eqb pr_tc _); [|apply IH in H; congruence].
    apply bind_ok_inv in H. destruct H as ([] & w2 & Hpr & H).
    apply emit_ok_inv in Hpr. apply IH in H. congruence.
Qed.

(** One PR easyconfig against all robot paths: it is appended to
    [obsoleted] once per robot path that holds a newer version. *)
Lemma robot_paths_loop_inv env pr_ec pr_tc rps arch obs w arch' obs' w' :
  robot_paths_loop env pr_ec pr_tc rps (arch, obs) w = (Ok (arch', obs'), w') ->
  fs w' = fs w
  /\ exists k : nat,
       obs' = (obs ++ replicate k pr_ec)%list
       /\ ((0 < k)%nat <->
           exists rp, rp ∈ rps /\ newer_version_in env (fs w) rp pr_ec).
Proof.
  revert arch obs w. induction rps as [|rp rps IH]; intros arch obs w H;
    simpl in H.
  - inversion H; subst. split; [done|]. exists 0%nat. simpl.
    rewrite app_nil_r. split; [done|]. split; [lia|].
    intros (rp & Hrp & _). inversion Hrp.
  - apply bind_ok_inv in H. destruct H as (afiles & w1 & Hwalk1 & H).
    apply walk_files_inv in Hwalk1. destruct Hwalk1 as [_ Hfs1].
    apply bind_ok_inv in H. destruct H as (arch1 & w2 & Harch & H).
    apply archived_toolchain_loop_inv in Harch.
    destruct (ec_name pr_ec) as [|c rest] eqn:En; [discriminate|].
    apply bind_ok_inv in H. destruct H as (files & w3 & Hwalk2 & H).
    apply walk_files_inv in Hwalk2. destruct Hwalk2 as [Hfiles Hfs3].
    apply bind_ok_inv in H. destruct H as (vs & w4 & Hnewer & H).
    apply newer_versions_loop_inv in Hnewer. destruct Hnewer as [Hfs4 Hvs].
    assert (Hdisk : fs w4 = fs w) by congruence.
    assert (Hhere : vs <> [] <-> newer_version_in env (fs w) rp pr_ec).
    { rewrite Hvs. unfold newer_version_in, package_dir. rewrite En.
      replace (fs w3) with (fs w) by congruence.
      replace (fs w2) with (fs w) in Hfiles by congruence.
      rewrite <- Hfiles. split.
      - intros [Hn|Hex]; [done | exact Hex].
      - intros Hex. right. exact Hex. }
    destruct vs as [|v vs].
    + apply IH in H. destruct H as (Hfs & k & Hobs & Hk).
      split; [congruence|]. exists k. split; [exact Hobs|].
      rewrite Hk, Hdisk. split.
      * intros (rp' & Hin & Hn). exists rp'. split; [now apply list_elem_of_further | done].
      * intros (rp' & Hin & Hn). apply elem_of_cons in Hin.
        destruct Hin as [->|Hin]; [|eauto].
        exfalso. apply Hhere in Hn. done.
    + apply bind_ok_inv in H. destruct H as ([] & w5 & Hpr & H).
      apply emit_ok_inv in Hpr. apply IH in H.
      destruct H as (Hfs & k & Hobs & Hk).
      split; [congruence|]. exists (S k). split.
      * rewrite Hobs, <- app_assoc. reflexivity.
      * split; [|lia]. intros _. exists rp. split; [apply list_elem_of_here|].
        apply Hhere. discriminate.
Qed.

(** All PR easyconfigs: [obsoleted] holds exactly those for which some
    robot path has a newer version. *)
Lemma pr_files_loop_inv env cfg pr_files arch obs w arch' obs' w' :
  pr_files_loop env cfg pr_files (arch, obs) w = (Ok (arch', obs'), w') ->
  fs w' = fs w
  /\ forall e,
       e ∈ obs' <->
       e ∈ obs \/
       exists pr_file, pr_file ∈ pr_files
         /\ get_config_dict env pr_file (fs w) = Ok e
         /\ newer_version_exists env cfg (fs w) e.
Proof.
  revert arch obs w. induction pr_files as [|f files IH]; intros arch obs w H;
    simpl in H.
  - inversion H; subst. split; [done|]. intros e. split; [tauto|].
    intros [He|(f & Hf & _)]; [done|]. inversion Hf.
  - apply bind_ok_inv in H. destruct H as (pr_ec & w1 & Hp & H).
    apply parse_easyconfig_inv in Hp. destruct Hp as [Hec Hfs1].
    apply bind_ok_inv in H. destruct H as ([] & w2 & Hpr & H).
    apply emit_ok_inv in Hpr.
    apply bind_ok_inv in H. destruct H as ([arch1 obs1] & w3 & Hrp & H).
    apply robot_paths_loop_inv in Hrp. destruct Hrp as (Hfs3 & k & Hobs1 & Hk).
    apply IH in H. destruct H as (Hfs & Hmem).
    assert (Hd2 : fs w2 = fs w) by congruence.
    assert (Hd3 : fs w3 = fs w) by congruence.
    split; [congruence|]. intros e. rewrite Hmem, Hobs1, Hd3.
    rewrite elem_of_app, elem_of_replicate. rewrite Hd2 in Hk. split.
    + intros [[He|[-> Hk0]]|(f' & Hf' & He' & Hn)].
      * now left.
      * right. exists f. split; [apply list_elem_of_here|]. split; [exact Hec|].
        apply Hk. lia.
      * right. exists f'. split; [now apply list_elem_of_further | auto].
    + intros [He|(f' & Hf' & He' & Hn)]; [now left; left|].
      apply elem_of_cons in Hf'. destruct Hf' as [->|Hf'].
      * left. right. assert (e = pr_ec) as -> by congruence.
        split; [reflexivity|]. assert (0 < k)%nat by (now apply Hk). lia.
      * right. eauto.
Qed.

Lemma obsolete_in_reasons inactive pr_title arch obs :
  (inactive = [] \/ inactive = ["inactive"]) ->
  "obsolete" ∈ (inactive ++ archived_and_obsolete pr_title arch obs)%list
  <-> exists e, e ∈ obs /\ Py.contains pr_title (ec_name e) = true.
Proof.
  intros Hin. unfold archived_and_obsolete.
  assert (Hex : existsb (fun e => Py.contains pr_title (ec_name e)) obs = true
                <-> exists e, e ∈ obs /\ Py.contains pr_title (ec_name e) = true).
  { rewrite List.existsb_exists. split; intros (e & He & Hc); exists e;
      (split; [now apply list_elem_of_In | done]). }
  rewrite <- Hex. rewrite !elem_of_app.
  destruct (existsb _ obs); split; intros H; try done.
  - right. right. apply list_elem_of_here.
  - exfalso. destruct H as [H|[H|H]].
    + destruct Hin as [->| ->]; [inversion H|].
      apply elem_of_cons in H. destruct H as [H|H]; [discriminate | inversion H].
    + destruct arch; [inversion H|].
      apply elem_of_cons in H. destruct H as [H|H]; [discriminate | inversion H].
    + inversion H.
Qed.

(** C1 (as amended): whenever [reasons_for_closing] returns, its list
    contains "obsolete" exactly when, for some easyconfig file (.eb)
    among those [fetch_easyconfigs_from_pr] returned for the PR, a newer
    version of the same-named package exists in the indexed tree (some
    easyconfig under <robot path>/<first letter>/<name> has a version
    that LooseVersion ranks above the PR's) and the name of that
    package occurs in the title of the pull request. *)
Theorem obsolete_needs_name_in_title env cfg pr_data w reasons w' :
  reasons_for_closing env cfg pr_data w = (Ok reasons, w') ->
  exists files w1 w2,
    fetch_easyconfigs_from_pr env cfg (number (pr_core pr_data)) None None w1
    = (Ok files, w2)
    /\ fs w' = fs w2
    /\ ("obsolete" ∈ reasons <->
        exists pr_file pr_ec,
          pr_file ∈ files /\ is_eb pr_file = true
          /\ get_config_dict env pr_file (fs w') = Ok pr_ec
          /\ newer_version_exists env cfg (fs w') pr_ec
          /\ Py.contains (title (pr_core pr_data)) (ec_name pr_ec) = true).
Proof.
  unfold reasons_for_closing. intros H.
  apply bind_ok_inv in H. destruct H as ([] & wa & _ & H).
  apply bind_ok_inv in H. destruct H as ([] & wb & _ & H).
  apply bind_ok_inv in H. destruct H as ([] & wc & _ & H).
  apply bind_ok_inv in H. destruct H as ([] & wd & _ & H).
  apply bind_ok_inv in H. destruct H as (last_updated & we & _ & H).
  apply bind_ok_inv in H. destruct H as (current & w1 & _ & H).
  apply bind_ok_inv in H. destruct H as (files & w2 & Hfetch & H).
  apply bind_ok_inv in H. destruct H as ([arch obs] & w3 & Hloop & H).
  inversion H; subst; clear H.
  apply pr_files_loop_inv in Hloop. destruct Hloop as [Hfs Hobs].
  exists files, w1, w2. split; [exact Hfetch|]. split; [exact Hfs|].
  rewrite obsolete_in_reasons by (destruct (_ <? _); auto).
  rewrite Hfs. split.
  - intros (e & He & Hc). apply Hobs in He.
    destruct He as [He|(f & Hf & Hp & Hn)]; [inversion He|].
    apply list_elem_of_In, List.filter_In in Hf. destruct Hf as [Hf Heb].
    exists f, e. split; [now apply list_elem_of_In | auto].
  - intros (f & e & Hf & Heb & Hp & Hn & Hc). exists e. split; [|exact Hc].
    apply Hobs. right. exists f. split; [|auto].
    apply list_elem_of_In, List.filter_In. split; [now apply list_elem_of_In | done].
Qed.

Lemma obsolete_needs_name_in_title_witness :
  let ttl := "{tools}[GCC/8.2.0] toy v1.0" in
  let env := Demo.env (Demo.pull "open" false ttl) true "" in
  let cfg := Demo.cfg "alice" false false in
  let run := reasons_for_closing env cfg (demo_full ttl) Demo.w0 in
  fst run = Ok ["obsolete"]
  /\ exists (files : list string) (pr_file : string),
       pr_file ∈ files /\ is_eb pr_file = true
       /\ Py.contains ttl "toy" = true.
Proof.
  intros ttl env cfg run.
  assert (E : fst run = Ok ["obsolete"]) by (vm_compute; reflexivity).
  split; [exact E|].
  destruct (obsolete_needs_name_in_title env cfg (demo_full ttl) Demo.w0
              ["obsolete"] (snd run)) as (files & w1 & w2 & _ & _ & Hiff).
  { rewrite <- E. apply surjective_pairing. }
  destruct (proj1 Hiff) as (pr_file & pr_ec & Hf & Heb & _ & _ & _).
  { apply list_elem_of_here. }
  exists files, pr_file. split; [exact Hf|]. split; [exact Heb|].
  vm_compute. reflexivity.
Defined.

(** C1 as stated fails: the PR changes toy-1.0.eb and the robot path
    holds toy-2.0.eb, but the title spells the name in capitals, so
    [reasons_for_closing] returns no reason at all. *)
Lemma newer_version_without_obsolete :
  let ttl := "{tools}[GCC/8.2.0] TOY v1.0" in
  let env := Demo.env (Demo.pull "open" false ttl) true "" in
  let cfg := Demo.cfg "alice" false false in
  let run := reasons_for_closing env cfg (demo_full ttl) Demo.w0 in
  fst run = Ok []
  /\ get_config_dict env "/prs/t/toy/toy-1.0.eb" (fs (snd run)) = Ok (Demo.toy "1.0")
  /\ newer_version_exists env cfg (fs (snd run)) (Demo.toy "1.0").
Proof.
  intros ttl env cfg run. split; [vm_compute; reflexivity|].
  split; [reflexivity|].
  exists "/robot". split; [apply list_elem_of_here|].
  exists "/robot/t/toy/toy-2.0.eb", (Demo.toy "2.0").
  split; [|split]; [|reflexivity | vm_compute; reflexivity].
  apply list_elem_of_In. vm_compute. auto.
Qed.

(** * Properties of the other functions *)

Lemma find_first_iff {A} (p : A -> bool) (l : list A) (x : A) :
  List.find p l = Some x <->
  exists before after,
    l = (before ++ x :: after)%list
    /\ Forall (fun y => p y = false) before /\ p x = true.
Proof.
  induction l as [|y l IH]; simpl.
  - split; [discriminate|]. intros (b & a & E & _). destruct b; discriminate.
  - destruct (p y) eqn:Ey.
    + split.
      * intros H. inversion H; subst. exists [], l. auto.
      * intros ([|z b] & a & E & F & Hx).
        -- inversion E. reflexivity.
        -- inversion E; subst. inversion F; subst. congruence.
    + rewrite IH. split.
      * intros (b & a & E & F & Hx). exists (y :: b), a. subst. auto.
      * intros ([|z b] & a & E & F & Hx).
        -- inversion E; subst. congruence.
        -- inversion E; subst. inversion F; subst. eauto.
Qed.

Lemma fetch_github_token_run env u w :
  fetch_github_token env u w
  = (Ok (match u with
         | Some u => keyring_get_password env u w
         | None => None
         end), w).
Proof. destruct u; reflexivity. Qed.

(** X1: fetch_latest_commit_sha sends exactly one request, the listing
    of the branches, whatever the outcome. It returns a SHA exactly when
    the listing answers with status 200 and holds an entry for the
    branch, and the SHA is that of the first such entry; every error it
    raises is an EasyBuildError. *)
Theorem fetch_latest_commit_sha_first_match env cfg repo account branch user w :
  let r := api_branches env account repo w in
  (forall sha,
     fst (fetch_latest_commit_sha env cfg repo account branch user w) = Ok sha
     <-> status r = HTTP_STATUS_OK
         /\ exists before b after,
              data r = (before ++ b :: after)%list
              /\ Forall (fun e => br_name e <> branch) before
              /\ br_name b = branch /\ br_sha b = sha)
  /\ (forall e,
        fst (fetch_latest_commit_sha env cfg repo account branch user w) = Raise e ->
        exists msg, e = EasyBuildError msg)
  /\ snd (fetch_latest_commit_sha env cfg repo account branch user w)
     = record w [EvApi (GetBranches account repo)].
Proof.
  intros r. unfold fetch_latest_commit_sha, github_api_get_request.
  rewrite !bind_run, fetch_github_token_run.
  unfold bind, ask, emit, ret, raise. cbn beta iota. fold r.
  destruct (status r =? HTTP_STATUS_OK) eqn:Es; cbn [negb].
  - apply Z.eqb_eq in Es.
    destruct (List.find _ (data r)) as [b|] eqn:Ef.
    + cbn [fst snd]. split; [|split; [discriminate|reflexivity]].
      intros sha. apply find_first_iff in Ef as Ef'.
      destruct Ef' as (before & after & E & F & Hb).
      apply String.eqb_eq in Hb. split.
      * intros H. inversion H; subst. split; [exact Es|].
        exists before, b, after. repeat split; auto.
        eapply Forall_impl; [exact F|]. cbn. intros y Hy Hn.
        apply String.eqb_eq in Hn. congruence.
      * intros (_ & before' & b' & after' & E' & F' & Hn & Hs).
        assert (Ef2 : List.find (fun e => String.eqb (br_name e) branch) (data r) = Some b').
        { apply find_first_iff. exists before', after'. repeat split; auto.
          - eapply Forall_impl; [exact F'|]. cbn. intros y Hy.
            apply String.eqb_neq. exact Hy.
          - apply String.eqb_eq. exact Hn. }
        rewrite Ef in Ef2. inversion Ef2; subst. reflexivity.
    + cbn [fst snd]. split; [|split; [|reflexivity]].
      * intros sha. split; [discriminate|].
        intros (_ & before' & b' & after' & E' & F' & Hn & Hs).
        assert (Ef2 : List.find (fun e => String.eqb (br_name e) branch) (data r) = Some b').
        { apply find_first_iff. exists before', after'. repeat split; auto.
          - eapply Forall_impl; [exact F'|]. cbn. intros y Hy.
            apply String.eqb_neq. exact Hy.
          - apply String.eqb_eq. exact Hn. }
        rewrite Ef in Ef2. discriminate.
      * intros e H. inversion H. eauto.
  - cbn [fst snd]. split; [|split; [|reflexivity]].
    + intros sha. split; [discriminate|]. intros (Hs & _).
      apply Z.eqb_neq in Es. contradiction.
    + intros e H. inversion H. eauto.
Qed.

Lemma git_call_run env repo cmd w :
  git_call env repo cmd w
  = (match g_error (fst (git env repo cmd w)) with
     | Some err => Raise (GitCommandError err)
     | None => Ok (fst (git env repo cmd w))
     end,
     mkWorld (snd (git env repo cmd w))
       (trace w ++ [EvGit repo cmd (fst (git env repo cmd w))])).
Proof.
  unfold git_call. destruct (git env repo cmd w) as [r fs']. simpl.
  destruct (g_error r); reflexivity.
Qed.

Lemma post_comment_cases env cfg issue txt account repo user w :
  dry_run_mode cfg = false ->
  match post_comment_in_issue env cfg issue txt account repo user w with
  | (Ok _, w') =>
      exists n,
        issue_number issue = Some n
        /\ w' = record w [EvPrint (comment_msg repo n txt);
                          EvApi (PostIssueComment account repo n txt)]
        /\ status (api_post env (PostIssueComment account repo n txt)
                     (record w [EvPrint (comment_msg repo n txt)]))
           = HTTP_STATUS_CREATED
  | (Raise e, w') =>
      (exists msg, e = EasyBuildError msg)
      /\ ((issue_number issue = None /\ w' = w)
          \/ exists n,
               issue_number issue = Some n
               /\ w' = record w [EvPrint (comment_msg repo n txt);
                                 EvApi (PostIssueComment account repo n txt)]
               /\ status (api_post env (PostIssueComment account repo n txt)
                            (record w [EvPrint (comment_msg repo n txt)]))
                  <> HTTP_STATUS_CREATED)
  end.
Proof.
  intros Hreal. unfold post_comment_in_issue. rewrite Hreal. cbn [negb].
  rewrite bind_run.
  assert (Hcase : (exists n, issue_number issue = Some n) \/ issue_number issue = None).
  { destruct (issue_number issue); eauto. }
  destruct Hcase as [[n Hn]|Hn].
  - assert (Hm : (match issue with
           | IssueInt n => ret n
           | IssueStr s => match Py.int_of_string s with
               | Some n => ret n
               | None => raise (EasyBuildError
                     ("Failed to parse specified pull request number '"
                      +:+ s +:+ "' as an int: invalid literal; "))
               end
           end) w = (Ok n, w)).
    { destruct issue as [m|s]; simpl in Hn.
      - inversion Hn; subst. reflexivity.
      - rewrite Hn. reflexivity. }
    rewrite Hm. unfold bind, print_msg, emit, ask, ret, raise.
    rewrite fetch_github_token_run. cbn beta iota. cbn [fs trace].
    fold (comment_msg repo n txt).
    change (mkWorld (fs w) (trace w ++ [EvPrint (comment_msg repo n txt)]))
      with (record w [EvPrint (comment_msg repo n txt)]).
    destruct (status _ =? HTTP_STATUS_CREATED) eqn:Es; cbn [negb].
    + exists n. split; [exact Hn|]. split.
      * unfold record. cbn [fs trace]. rewrite <- app_assoc. reflexivity.
      * apply Z.eqb_eq. exact Es.
    + split; [eauto|]. right. exists n. split; [exact Hn|]. split.
      * unfold record. cbn [fs trace]. rewrite <- app_assoc. reflexivity.
      * apply Z.eqb_neq. exact Es.
  - destruct issue as [m|s]; simpl in Hn; [discriminate|].
    rewrite Hn. cbn. split; [eauto|]. left. auto.
Qed.

(** X2: Outside dry-run, post_comment_in_issue succeeds only if the
    issue number is an integer (or parses as one) and the POST of the
    comment answers 201; it has then printed its notice and sent that
    one POST. If the number does not parse it raises an EasyBuildError
    having done nothing; if the POST answers anything else it raises an
    EasyBuildError after the notice and the POST. *)
Theorem post_comment_outcome env cfg issue txt account repo user w :
  dry_run_mode cfg = false ->
  match post_comment_in_issue env cfg issue txt account repo user w with
  | (Ok _, w') =>
      exists n,
        issue_number issue = Some n
        /\ w' = record w [EvPrint (comment_msg repo n txt);
                          EvApi (PostIssueComment account repo n txt)]
        /\ status (api_post env (PostIssueComment account repo n txt)
                     (record w [EvPrint (comment_msg repo n txt)]))
           = HTTP_STATUS_CREATED
  | (Raise e, w') =>
      (exists msg, e = EasyBuildError msg)
      /\ ((issue_number issue = None /\ w' = w)
          \/ exists n,
               issue_number issue = Some n
               /\ w' = record w [EvPrint (comment_msg repo n txt);
                                 EvApi (PostIssueComment account repo n txt)]
               /\ status (api_post env (PostIssueComment account repo n txt)
                            (record w [EvPrint (comment_msg repo n txt)]))
                  <> HTTP_STATUS_CREATED)
  end.
Proof. exact (post_comment_cases env cfg issue txt account repo user w). Qed.

Lemma post_comment_outcome_witness :
  let env := Demo.env (Demo.pull "open" false "toy") true "" in
  let cfg := Demo.cfg "alice" false false in
  let run := post_comment_in_issue env cfg (IssueStr " 42") "thanks"
               "easybuilders" "easybuild-easyconfigs" (Some "alice") Demo.w0 in
  dry_run_mode cfg = false
  /\ fst run = Ok tt
  /\ match run with
     | (Ok _, w') =>
         exists n,
           issue_number (IssueStr " 42") = Some n
           /\ w' = record Demo.w0
                     [EvPrint (comment_msg "easybuild-easyconfigs" n "thanks");
                      EvApi (PostIssueComment "easybuilders"
                               "easybuild-easyconfigs" n "thanks")]
           /\ status (api_post env
                        (PostIssueComment "easybuilders" "easybuild-easyconfigs"
                           n "thanks")
                        (record Demo.w0
                           [EvPrint (comment_msg "easybuild-easyconfigs" n
                                       "thanks")]))
              = HTTP_STATUS_CREATED
     | (Raise e, w') =>
         (exists msg, e = EasyBuildError msg)
         /\ ((issue_number (IssueStr " 42") = None /\ w' = Demo.w0)
             \/ exists n,
                  issue_number (IssueStr " 42") = Some n
                  /\ w' = record Demo.w0
                            [EvPrint (comment_msg "easybuild-easyconfigs" n
                                        "thanks");
                             EvApi (PostIssueComment "easybuilders"
                                      "easybuild-easyconfigs" n "thanks")]
                  /\ status (api_post env
                               (PostIssueComment "easybuilders"
                                  "easybuild-easyconfigs" n "thanks")
                               (record Demo.w0
                                  [EvPrint (comment_msg "easybuild-easyconfigs"
                                              n "thanks")]))
                     <> HTTP_STATUS_CREATED)
     end.
Proof.
  intros env cfg run. split; [reflexivity|].
  split; [vm_compute; reflexivity|].
  exact (post_comment_outcome env cfg (IssueStr " 42") "thanks" "easybuilders"
           "easybuild-easyconfigs" (Some "alice") Demo.w0 eq_refl).
Defined.

Lemma try_git_run {A} (m : M A) (h : string -> M A) w :
  try_except_GitCommandError m h w
  = match m w with
    | (Raise (GitCommandError msg), w') => h msg w'
    | r => r
    end.
Proof. reflexivity. Qed.

Lemma git_unit_run env repo cmd (h : string -> string) w :
  try_except_GitCommandError (git_call env repo cmd ;;; ret tt)
    (fun err => raise (EasyBuildError (h err))) w
  = (match g_error (fst (git env repo cmd w)) with
     | Some err => Raise (EasyBuildError (h err))
     | None => Ok tt
     end,
     mkWorld (snd (git env repo cmd w))
       (trace w ++ [EvGit repo cmd (fst (git env repo cmd w))])).
Proof.
  rewrite try_git_run, bind_run, git_call_run.
  destruct (g_error (fst (git env repo cmd w))); reflexivity.
Qed.


(** ** Setting up the working copy *)

Lemma remote_url_setup_repo_from env git_repo url account branch urls :
  url ∈ urls ->
  emits (remote_url_in urls) (setup_repo_from env git_repo url account branch).
Proof.
  intros Hin. unfold setup_repo_from, random_salt. emits_auto; simpl; auto.
Qed.

Lemma remote_url_setup_repo_loop env git_repo account repo branch allowed urls errors :
  (forall u, u ∈ urls -> u ∈ allowed) ->
  emits (remote_url_in allowed)
    (setup_repo_loop env git_repo account repo branch urls errors).
Proof.
  revert errors. induction urls as [|u urls IH]; intros errors Hsub; simpl.
  - emits_auto.
  - emits_step.
    + emits_step; [|emits_auto].
      emits_step; [|emits_auto].
      apply remote_url_setup_repo_from. apply Hsub. left.
    + destruct a; [emits_auto|]. apply IH. intros v Hv. apply Hsub. now right.
Qed.

(** X4: setup_repo creates remotes only for the URLs of the given
    account's repository: the git@github.com URL alone when git_only is
    set, that one or the https://github.com URL otherwise. *)
Theorem setup_repo_urls env git_repo account repo branch (git_only : bool) :
  emits (remote_url_in (if git_only then [ssh_url account repo]
                        else [https_url account repo; ssh_url account repo]))
    (setup_repo env git_repo account repo branch git_only).
Proof.
  unfold setup_repo. emits_step.
  - apply remote_url_setup_repo_loop. destruct git_only; auto.
  - emits_auto.
Qed.

Lemma setup_repo_from_ok env git_repo url account branch w name w' :
  setup_repo_from env git_repo url account branch w = (Ok name, w') ->
  exists salt evs,
    name = "pr_target_account_" +:+ account +:+ "_" +:+ salt
    /\ trace w' = (trace w ++ evs)%list
    /\ fetched_and_checked_out git_repo url branch salt name evs.
Proof.
  unfold setup_repo_from, random_salt. rewrite bind_run. unfold ask at 1.
  cbn beta iota. set (salt := random_letters env 5 w).
  set (name0 := "pr_target_account_" +:+ account +:+ "_" +:+ salt).
  rewrite bind_run, git_call_run.
  destruct (git env git_repo (GitCreateRemote name0 url) w) as [created fs1].
  cbn [fst snd]. destruct (g_error created) eqn:Ec; [discriminate|].
  rewrite bind_run, git_call_run.
  match goal with |- context [git env git_repo (GitRemoteExists name0) ?ww] =>
    destruct (git env git_repo (GitRemoteExists name0) ww) as [present fs2] end.
  cbn [fst snd]. destruct (g_error present) eqn:Ep; [discriminate|].
  destruct (g_flag present) eqn:Efl; cbn [negb]; [|discriminate].
  rewrite bind_run. unfold print_msg at 1, emit at 1. cbn beta iota.
  rewrite bind_run, try_git_run, git_call_run. cbn [fs trace].
  match goal with |- context [git env git_repo (GitFetch name0) ?ww] =>
    destruct (git env git_repo (GitFetch name0) ww) as [fetched fs3] end.
  cbn [fst snd]. destruct (g_error fetched) eqn:Ef; [discriminate|].
  destruct (g_info fetched) as [[[] note]|] eqn:Ei; try discriminate.
  rewrite bind_run, git_call_run. cbn [fs trace].
  match goal with |- context [git env git_repo (GitHasRef name0 branch) ?ww] =>
    destruct (git env git_repo (GitHasRef name0 branch) ww) as [has fs4] end.
  cbn [fst snd]. destruct (g_error has) eqn:Eh; [discriminate|].
  destruct (g_flag has) eqn:Ehf; cbn [negb]; [|discriminate].
  rewrite bind_run, try_git_run, bind_run, git_call_run. cbn [fs trace].
  match goal with |- context [git env git_repo (GitCheckoutNew name0 branch branch false) ?ww] =>
    destruct (git env git_repo (GitCheckoutNew name0 branch branch false) ww)
      as [r1 fs5] end.
  cbn [fst snd]. destruct (g_error r1) eqn:E1.
  - rewrite try_git_run, bind_run, git_call_run. cbn [fs trace].
    match goal with |- context [git env git_repo (GitCheckoutNew name0 branch ?alt true) ?ww] =>
      destruct (git env git_repo (GitCheckoutNew name0 branch alt true) ww)
        as [r2 fs6] end.
    cbn [fst snd]. destruct (g_error r2) eqn:E2; [discriminate|].
    intros H. inversion H; subst. exists salt. eexists. split; [reflexivity|].
    split; [cbn [trace]; rewrite <- !app_assoc; reflexivity|].
    exists created, present, fetched, note, has. eexists.
    split; [reflexivity|]. repeat (split; [assumption|]).
    right. exists r1, r2. split; [reflexivity|]. split; [congruence|assumption].
  - intros H. inversion H; subst. exists salt. eexists. split; [reflexivity|].
    split; [cbn [trace]; rewrite <- !app_assoc; reflexivity|].
    exists created, present, fetched, note, has. eexists.
    split; [reflexivity|]. repeat (split; [assumption|]).
    left. exists r1. split; [reflexivity|assumption].
Qed.

Lemma try_eb_run {A} (m : M A) (h : string -> M A) w :
  try_except_EasyBuildError m h w
  = match m w with
    | (Raise (EasyBuildError msg), w') => h msg w'
    | r => r
    end.
Proof. reflexivity. Qed.

Lemma setup_repo_loop_ok env git_repo account repo branch urls errors w name errs w' :
  setup_repo_loop env git_repo account repo branch urls errors w
  = (Ok (Some name, errs), w') ->
  exists tried url rest salt failed evs,
    urls = (tried ++ url :: rest)%list
    /\ name = "pr_target_account_" +:+ account +:+ "_" +:+ salt
    /\ trace w' = (trace w ++ failed ++ evs)%list
    /\ fetched_and_checked_out git_repo url branch salt name evs
    /\ Forall (remote_url_in tried) failed
    /\ (tried = [] -> failed = []).
Proof.
  revert errors w. induction urls as [|u urls IH]; intros errors w; simpl.
  - discriminate.
  - rewrite bind_run, try_eb_run, bind_run.
    destruct (remote_url_setup_repo_from env git_repo u account branch [u]
                ltac:(left) w) as (evs1 & E1 & F1).
    destruct (setup_repo_from env git_repo u account branch w)
      as [[res|[msg|msg|k]] w1] eqn:Erun; cbn [snd] in E1; try discriminate.
    + cbn. intros H. inversion H; subst.
      destruct (setup_repo_from_ok _ _ _ _ _ _ _ _ Erun) as (salt & evs & Hn & Ht & Hf).
      exists [], u, urls, salt, [], evs. simpl. repeat split; auto.
    + cbn beta iota. unfold ret at 1. cbn beta iota. intros H.
      destruct (IH _ _ H) as (tried & url & rest & salt & failed & evs
                              & Hu & Hn & Ht & Hf & Ff & _).
      exists (u :: tried), url, rest, salt, (evs1 ++ failed)%list, evs.
      split; [now rewrite Hu|]. split; [exact Hn|].
      split; [rewrite Ht, E1, <- !app_assoc; reflexivity|].
      split; [exact Hf|]. split; [|discriminate].
      apply Forall_app. split.
      * eapply Forall_impl; [exact F1|]. intros [] He; simpl in *; auto.
        destruct cmd; auto. apply list_elem_of_singleton in He. subst. left.
      * eapply Forall_impl; [exact Ff|]. intros [] He; simpl in *; auto.
        destruct cmd; auto. now right.
Qed.

(** X5: When setup_repo returns a remote name, the name is
    pr_target_account_<account>_<salt> and the run ends with a complete
    set-up from one URL: the remote is created and exists, the fetch
    reports no error, the branch is among the remote's refs and is
    checked out (forcibly as <branch>_<salt> when the plain checkout
    fails). That URL is the https one at the first attempt, or the git@
    one, and then all that precedes is the failed https attempt (nothing
    when git_only is set). *)
Theorem setup_repo_success env git_repo account repo branch (git_only : bool)
    w name w' :
  setup_repo env git_repo account repo branch git_only w = (Ok name, w') ->
  exists url salt failed evs,
    name = "pr_target_account_" +:+ account +:+ "_" +:+ salt
    /\ trace w' = (trace w ++ failed ++ evs)%list
    /\ fetched_and_checked_out git_repo url branch salt name evs
    /\ ((url = https_url account repo /\ git_only = false /\ failed = [])
        \/ (url = ssh_url account repo
            /\ Forall (remote_url_in [https_url account repo]) failed
            /\ (git_only = true -> failed = []))).
Proof.
  unfold setup_repo. rewrite bind_run.
  fold (ssh_url account repo). fold (https_url account repo).
  destruct (setup_repo_loop env git_repo account repo branch _ [] w)
    as [[[[res|] errs]|e] w1] eqn:Erun; try discriminate.
  destruct (truthy res); [|discriminate].
  intros H. inversion H; subst.
  destruct (setup_repo_loop_ok _ _ _ _ _ _ _ _ _ _ _ Erun)
    as (tried & url & rest & salt & failed & evs & Hu & Hn & Ht & Hf & Ff & Hnil).
  exists url, salt, failed, evs. repeat (split; [assumption|]).
  destruct git_only.
  - destruct tried as [|? [|]]; inversion Hu; subst.
    right. split; [reflexivity|]. split; [|auto].
    rewrite (Hnil eq_refl). constructor.
  - destruct tried as [|? [|? [|]]]; inversion Hu; subst.
    + left. auto.
    + right. split; [reflexivity|]. split; [exact Ff|discriminate].
Qed.

Lemma setup_repo_success_witness :
  let run := setup_repo (Demo.env (Demo.pull "open" false "toy") true "")
               "/tmp/clone" "easybuilders" "easybuild-easyconfigs" "develop"
               false Demo.w0 in
  let name := "pr_target_account_easybuilders_abcde" in
  fst run = Ok name
  /\ exists url salt failed evs,
       name = "pr_target_account_" +:+ "easybuilders" +:+ "_" +:+ salt
       /\ trace (snd run) = (trace Demo.w0 ++ failed ++ evs)%list
       /\ fetched_and_checked_out "/tmp/clone" url "develop" salt name evs
       /\ ((url = https_url "easybuilders" "easybuild-easyconfigs"
            /\ false = false /\ failed = [])
           \/ (url = ssh_url "easybuilders" "easybuild-easyconfigs"
               /\ Forall (remote_url_in
                            [https_url "easybuilders" "easybuild-easyconfigs"])
                    failed
               /\ (false = true -> failed = []))).
Proof.
  intros run name.
  assert (E : fst run = Ok name) by (vm_compute; reflexivity).
  split; [exact E|].
  exact (setup_repo_success
           (Demo.env (Demo.pull "open" false "toy") true "")
           "/tmp/clone" "easybuilders" "easybuild-easyconfigs" "develop"
           false Demo.w0 name (snd run)
           (eq_trans (surjective_pairing run)
              (f_equal (fun r => (r, snd run)) E))).
Defined.

Lemma create_remote_run env git_repo account repo (https : bool) w :
  let url := if https then https_url account repo else ssh_url account repo in
  let remote := "github_" +:+ account +:+ "_" +:+ random_letters env 5 w in
  let reply := fst (git env git_repo (GitCreateRemote remote url) w) in
  create_remote env git_repo account repo https w
  = (match g_error reply with
     | Some err => Raise (EasyBuildError
         ("Failed to create remote " +:+ remote +:+ " for " +:+ url
          +:+ ": " +:+ err))
     | None => Ok remote
     end,
     mkWorld (snd (git env git_repo (GitCreateRemote remote url) w))
       (trace w ++ [EvGit git_repo (GitCreateRemote remote url) reply])).
Proof.
  intros url remote reply. unfold create_remote, random_salt.
  rewrite bind_run. unfold ask at 1. cbn beta iota.
  fold (https_url account repo). fold (ssh_url account repo). fold url.
  fold remote. rewrite bind_run, git_unit_run. fold reply.
  destruct (g_error reply); reflexivity.
Qed.

Lemma push_branch_cases env cfg git_repo account repo branch w :
  dry_run_mode cfg = false ->
  match push_branch_to_github env cfg git_repo account repo branch w with
  | (Ok _, w') =>
      exists salt created pushed summary,
        let remote := "github_" +:+ account +:+ "_" +:+ salt in
        trace w' = (trace w ++
          [EvGit git_repo (GitCreateRemote remote (ssh_url account repo)) created;
           EvPrint (push_msg branch remote account repo);
           EvGit git_repo (GitPush remote branch) pushed])%list
        /\ g_error created = None
        /\ g_error pushed = None
        /\ g_info pushed = Some (false, summary)
  | (Raise e, _) => exists msg, e = EasyBuildError msg
  end.
Proof.
  intros Hreal. unfold push_branch_to_github. rewrite Hreal.
  rewrite bind_run, create_remote_run. cbn beta iota zeta.
  set (remote := "github_" +:+ account +:+ "_" +:+ random_letters env 5 w).
  destruct (git env git_repo (GitCreateRemote remote (ssh_url account repo)) w)
    as [created fs1].
  cbn [fst snd]. destruct (g_error created) eqn:Ec; [eauto|].
  rewrite bind_run. unfold print_msg at 1, emit at 1. cbn beta iota.
  rewrite bind_run, try_git_run, git_call_run. cbn [fs trace].
  match goal with |- context [git env git_repo (GitPush remote branch) ?ww] =>
    destruct (git env git_repo (GitPush remote branch) ww) as [pushed fs2] end.
  cbn [fst snd]. destruct (g_error pushed) eqn:Ep; [cbn; eauto|].
  destruct (g_info pushed) as [[[] summary]|] eqn:Ei; cbn; eauto.
  exists (random_letters env 5 w), created, pushed, summary.
  cbn zeta. fold remote. rewrite <- !app_assoc. auto.
Qed.

(** X6: Outside dry-run, a push_branch_to_github that returns has done
    exactly this: created the remote github_<account>_<salt> for the
    git@github.com URL, printed the push message, and pushed the branch
    to that remote; neither git call raised and the push result carries
    no error flag. Every error it raises is an EasyBuildError. *)
Theorem push_branch_outcome env cfg git_repo account repo branch w :
  dry_run_mode cfg = false ->
  match push_branch_to_github env cfg git_repo account repo branch w with
  | (Ok _, w') =>
      exists salt created pushed summary,
        let remote := "github_" +:+ account +:+ "_" +:+ salt in
        trace w' = (trace w ++
          [EvGit git_repo (GitCreateRemote remote (ssh_url account repo)) created;
           EvPrint (push_msg branch remote account repo);
           EvGit git_repo (GitPush remote branch) pushed])%list
        /\ g_error created = None
        /\ g_error pushed = None
        /\ g_info pushed = Some (false, summary)
  | (Raise e, _) => exists msg, e = EasyBuildError msg
  end.
Proof. exact (push_branch_cases env cfg git_repo account repo branch w). Qed.

Lemma push_branch_outcome_witness :
  let env := Demo.env (Demo.pull "open" false "toy") true "" in
  let cfg := Demo.cfg "alice" false false in
  let run := push_branch_to_github env cfg "/tmp/clone" "alice"
               "easybuild-easyconfigs" "toy" Demo.w0 in
  dry_run_mode cfg = false
  /\ fst run = Ok tt
  /\ match run with
     | (Ok _, w') =>
         exists salt created pushed summary,
           let remote := "github_" +:+ "alice" +:+ "_" +:+ salt in
           trace w' = (trace Demo.w0 ++
             [EvGit "/tmp/clone"
                (GitCreateRemote remote (ssh_url "alice" "easybuild-easyconfigs"))
                created;
              EvPrint (push_msg "toy" remote "alice" "easybuild-easyconfigs");
              EvGit "/tmp/clone" (GitPush remote "toy") pushed])%list
           /\ g_error created = None
           /\ g_error pushed = None
           /\ g_info pushed = Some (false, summary)
     | (Raise e, _) => exists msg, e = EasyBuildError msg
     end.
Proof.
  intros env cfg run. split; [reflexivity|].
  split; [vm_compute; reflexivity|].
  exact (push_branch_outcome env cfg "/tmp/clone" "alice"
           "easybuild-easyconfigs" "toy" Demo.w0 eq_refl).
Defined.

(** ** Code that only reads *)

Section Reads.
Context (disk : FS).

Lemma record_nil w : record w [] = w.
Proof. destruct w. unfold record. simpl. now rewrite app_nil_r. Qed.

Lemma record_record w evs1 evs2 :
  record (record w evs1) evs2 = record w (evs1 ++ evs2).
Proof. unfold record. simpl. now rewrite app_assoc. Qed.

Lemma reads_ret {A} (a : A) P (Q : A -> Prop) : Q a -> reads disk (ret a) P Q.
Proof.
  intros H w _. exists []. simpl. rewrite record_nil.
  repeat split; auto. intros b Hb. inversion Hb; subst. exact H.
Qed.

Lemma reads_raise {A} e P (Q : A -> Prop) : reads disk (raise e) P Q.
Proof.
  intros w _. exists []. simpl. rewrite record_nil.
  repeat split; auto. discriminate.
Qed.

Lemma reads_bind {A B} (m : M A) (k : A -> M B) P (Q1 : A -> Prop)
    (Q2 : B -> Prop) :
  reads disk m P Q1 -> (forall a, Q1 a -> reads disk (k a) P Q2) ->
  reads disk (bind m k) P Q2.
Proof.
  intros Hm Hk w Hw. rewrite bind_run.
  destruct (Hm w Hw) as (evs1 & E1 & F1 & R1).
  destruct (m w) as [[a|e] w1]; simpl in *.
  - subst w1.
    destruct (Hk a (R1 a eq_refl) (record w evs1) Hw) as (evs2 & E2 & F2 & R2).
    exists (evs1 ++ evs2)%list. rewrite E2, record_record.
    repeat split; auto. apply Forall_app; auto.
  - exists evs1. repeat split; auto. discriminate.
Qed.

Lemma reads_weaken {A} (m : M A) (P P' : Event -> Prop) (Q Q' : A -> Prop) :
  (forall e, P e -> P' e) -> (forall a, Q a -> Q' a) ->
  reads disk m P Q -> reads disk m P' Q'.
Proof.
  intros HP HQ Hm w Hw. destruct (Hm w Hw) as (evs & E & F & R).
  exists evs. repeat split; auto. eapply Forall_impl; eauto.
Qed.

Lemma reads_emit e (P : Event -> Prop) : P e -> reads disk (emit e) P (fun _ => True).
Proof. intros H w _. exists [e]. simpl. repeat split; auto. Qed.

Lemma reads_look {A} (q : FS -> A) P :
  reads disk (look q) P (fun a => a = q disk).
Proof.
  intros w Hw. exists []. simpl. rewrite record_nil.
  repeat split; auto. intros a Ha. inversion Ha. now subst.
Qed.

Lemma reads_read_file p P :
  reads disk (read_file p) P (fun txt => disk !! p = Some (File txt)).
Proof.
  intros w Hw. exists []. rewrite record_nil. unfold read_file. rewrite Hw.
  destruct (disk !! p) as [[txt|]|]; simpl; repeat split; auto;
    try discriminate. intros a Ha. inversion Ha. now subst.
Qed.

Lemma reads_map_m {A B} (body : A -> M B) (l : list A) P (Q : A -> B -> Prop) :
  (forall x, x ∈ l -> reads disk (body x) P (Q x)) ->
  reads disk (map_m body l) P (fun ys => Forall2 Q l ys).
Proof.
  induction l as [|x l IH]; intros H; simpl.
  - apply reads_ret. constructor.
  - eapply reads_bind; [apply H; left|]. intros y Hy.
    eapply reads_bind; [apply IH; intros; apply H; now right|].
    intros ys Hys. apply reads_ret. now constructor.
Qed.

End Reads.

(** ** The scan for the owner of a patch *)

Lemma reads_walk_files env disk top keep P :
  P (EvWalk top) ->
  reads disk (walk_files env top keep) P
    (fun files => files = flat_map (fun '(dirpath, filenames) =>
                   Py.path_join dirpath <$> List.filter keep filenames)
                   (os_walk env top disk)).
Proof.
  intros HP. unfold walk_files.
  eapply reads_bind; [apply reads_emit; exact HP|]. intros _ _.
  eapply reads_bind; [apply reads_look|]. intros tree ->.
  apply reads_ret. reflexivity.
Qed.

Lemma reads_mentioning_patches disk paths P :
  reads disk (mentioning_patches paths) P
    (fun l => forall p, p ∈ l ->
       p ∈ paths /\ exists txt, disk !! p = Some (File txt)
                     /\ Py.contains txt "patches" = true).
Proof.
  induction paths as [|path rest IH]; simpl.
  - apply reads_ret. intros p Hp. inversion Hp.
  - eapply reads_bind; [apply reads_read_file|]. intros txt Htxt.
    eapply reads_bind; [apply IH|]. intros tl Htl.
    apply reads_ret. intros p Hp.
    destruct (Py.contains txt "patches") eqn:Ec.
    + apply elem_of_cons in Hp. destruct Hp as [->|Hp].
      * split; [left|exists txt; auto].
      * destruct (Htl p Hp) as [Hin Hx]. split; [now right|exact Hx].
    + destruct (Htl p Hp) as [Hin Hx]. split; [now right|exact Hx].
Qed.

Lemma reads_scan_easyconfigs env disk ec_dirs patch_name nr idx all_ecs soft_name :
  Forall (scannable env disk ec_dirs) all_ecs ->
  (forall name, soft_name = Some name ->
     scanned_owner env disk ec_dirs patch_name name) ->
  reads disk (scan_easyconfigs env patch_name nr idx all_ecs soft_name)
    (scan_event env disk ec_dirs)
    (fun res => forall name, res = Some name ->
       scanned_owner env disk ec_dirs patch_name name).
Proof.
  revert idx soft_name. induction all_ecs as [|path rest IH];
    intros idx soft_name Hall Hsoft; simpl.
  - apply reads_ret. exact Hsoft.
  - destruct (truthy_opt soft_name); [apply reads_ret; exact Hsoft|].
    inversion Hall as [|? ? Hpath Hrest]; subst.
    eapply reads_bind; [apply reads_read_file|]. intros _ _.
    eapply reads_bind; [apply reads_look|]. intros parsed ->.
    eapply reads_bind; [apply reads_emit; exact Hpath|]. intros _ _.
    eapply reads_bind with
      (Q1 := fun res => forall name, res = Some name ->
               scanned_owner env disk ec_dirs patch_name name).
    + destruct (process_easyconfig env path disk) as [ecs|[msg|msg|k]] eqn:Ep;
        try (apply reads_ret; exact Hsoft); try apply reads_raise.
      destruct (List.find (is_patch_for patch_name) ecs) as [ec|] eqn:Ef;
        [|apply reads_ret; exact Hsoft].
      apply reads_ret. intros name Hn. inversion Hn; subst.
      apply List.find_some in Ef. destruct Ef as [Hin Hp].
      exists path, ecs, ec. repeat split; auto. now apply list_elem_of_In.
    + intros soft' Hsoft'.
      eapply reads_bind; [apply reads_emit; exact I|]. intros _ _.
      apply IH; assumption.
Qed.

Lemma scannable_of_walk env disk ec_dirs ec_dir found :
  ec_dir ∈ ec_dirs ->
  (forall p, p ∈ found ->
     p ∈ flat_map (fun '(dirpath, filenames) =>
            Py.path_join dirpath <$>
              List.filter (fun fn => negb (String.eqb fn "TEMPLATE.eb")
                                     && negb (Py.endswith fn ".py")) filenames)
          (os_walk env ec_dir disk)
     /\ exists txt, disk !! p = Some (File txt)
                    /\ Py.contains txt "patches" = true) ->
  Forall (scannable env disk ec_dirs) found.
Proof.
  intros Hdir H. apply Forall_forall. intros p Hp.
  destruct (H p Hp) as [Hin (txt & Htxt & Hc)].
  apply list_elem_of_In, in_flat_map in Hin.
  destruct Hin as ([dirpath filenames] & Hw & Hin).
  apply list_elem_of_In, list_elem_of_fmap in Hin.
  destruct Hin as (fn & -> & Hfn).
  apply list_elem_of_In, filter_In in Hfn. destruct Hfn as [Hfn Hkeep].
  apply andb_true_iff in Hkeep. destruct Hkeep as [Hk1 Hk2].
  apply negb_true_iff in Hk1, Hk2. apply String.eqb_neq in Hk1.
  exists ec_dir, dirpath, filenames, fn, txt.
  repeat split; auto; now apply list_elem_of_In.
Qed.

(** X7: The scan for the owner of a patch (find_software_name_for_patch)
    only reads: it walks the given search roots, parses only files of
    those walks that are neither TEMPLATE.eb nor Python files and whose
    text mentions patches, and leaves the disk as it found it. An owner
    it reports is the name of a record parsed from such a file that
    declares the patch. *)
Theorem scan_reads_candidates_only env patch_name ec_dirs w :
  exists evs,
    snd (find_software_name_for_patch env patch_name ec_dirs w) = record w evs
    /\ Forall (scan_event env (fs w) ec_dirs) evs
    /\ forall name,
         fst (find_software_name_for_patch env patch_name ec_dirs w)
         = Ok (Some name) ->
         scanned_owner env (fs w) ec_dirs patch_name name.
Proof.
  assert (H : reads (fs w) (find_software_name_for_patch env patch_name ec_dirs)
                (scan_event env (fs w) ec_dirs)
                (fun res => forall name, res = Some name ->
                   scanned_owner env (fs w) ec_dirs patch_name name)).
  { unfold find_software_name_for_patch.
    eapply reads_bind.
    - apply reads_map_m with
        (Q := fun ec_dir found =>
                ec_dir ∈ ec_dirs -> Forall (scannable env (fs w) ec_dirs) found).
      intros ec_dir Hdir.
      eapply reads_bind; [apply reads_walk_files; exact Hdir|].
      intros files ->.
      eapply reads_weaken; [| |apply reads_mentioning_patches].
      + intros e He. exact He.
      + intros found Hfound _. now apply scannable_of_walk with ec_dir.
    - intros found Hfound.
      assert (Hall : Forall (scannable env (fs w) ec_dirs) (List.concat found)).
      { clear -Hfound.
        assert (Hgen : forall dirs, (forall d, d ∈ dirs -> d ∈ ec_dirs) ->
                  forall found, Forall2 (fun ec_dir found =>
                    ec_dir ∈ ec_dirs -> Forall (scannable env (fs w) ec_dirs) found)
                    dirs found ->
                  Forall (scannable env (fs w) ec_dirs) (List.concat found)).
        { intros dirs Hsub found0 HF. induction HF as [|d f ds fs0 Hd HF IH]; simpl.
          - constructor.
          - apply Forall_app. split.
            + apply Hd, Hsub. left.
            + apply IH. intros d' Hd'. apply Hsub. now right. }
        apply (Hgen ec_dirs); auto. }
      eapply reads_bind; [apply reads_scan_easyconfigs; [exact Hall|discriminate]|].
      intros soft Hsoft.
      eapply reads_bind; [apply reads_emit; exact I|]. intros _ _.
      apply reads_ret. exact Hsoft. }
  destruct (H w eq_refl) as (evs & E & F & R).
  exists evs. split; [exact E|]. split; [exact F|].
  intros name Hn. exact (R _ Hn name eq_refl).
Qed.

(** ** The eligibility check only prints *)

Lemma check_test_reports_log comments res w :
  exists evs,
    check_test_reports comments res w
    = (Ok (match first_outcome comments with
           | Some true => (res, true)
           | Some false => (false, true)
           | None => (res, false)
           end), record w evs)
    /\ forallb is_message evs = true
    /\ existsb is_print_err evs
       = match first_outcome comments with
         | Some false => true
         | _ => false
         end.
Proof.
  revert w. induction comments as [|c rest IH]; intros w; simpl.
  - exists []. rewrite record_nil. auto.
  - destruct (test_report_regex_search (c_body c)); [|apply IH].
    destruct (Py.contains (c_body c) "SUCCESS").
    { eexists [_]. split; [reflexivity|]. auto. }
    destruct (Py.contains (c_body c) "FAILED").
    { eexists [_]. split; [reflexivity|]. auto. }
    rewrite bind_run. unfold print_warning, emit. cbn beta iota.
    match goal with |- context [check_test_reports rest res ?ww] =>
      destruct (IH ww) as (evs & E & F & X) end.
    eexists (_ :: evs). rewrite E. split.
    + unfold record. cbn [fs trace]. rewrite <- app_assoc. reflexivity.
    + simpl. auto.
Qed.

Lemma judges_pass msg res : judges (print_msg msg ;;; ret res) res true.
Proof.
  intros w. exists [EvPrint msg]. rewrite andb_true_r. repeat split.
Qed.

Lemma judges_fail msg res : judges (not_eligible msg) res false.
Proof.
  intros w. eexists [EvPrintErr _]. rewrite andb_false_r. repeat split.
Qed.

Lemma judges_skip res : judges (ret res) res true.
Proof. intros w. exists []. rewrite andb_true_r, record_nil. repeat split. Qed.

Lemma judges_bind (m : M bool) (k : bool -> M bool) res ok1 ok2 :
  judges m res ok1 -> judges (k (res && ok1)) (res && ok1) ok2 ->
  judges (bind m k) res (ok1 && ok2).
Proof.
  intros Hm Hk w. rewrite bind_run.
  destruct (Hm w) as (evs1 & -> & F1 & X1).
  destruct (Hk (record w evs1)) as (evs2 & -> & F2 & X2).
  exists (evs1 ++ evs2)%list. rewrite record_record, andb_assoc.
  split; [reflexivity|]. rewrite forallb_app, existsb_app, F1, F2, X1, X2.
  split; [reflexivity|]. now destruct ok1, ok2.
Qed.

Lemma judges_test_reports comments res :
  judges (r <- check_test_reports comments res ;;
          let '(res, test_report_found) := r in
          if negb test_report_found then
            not_eligible
              "* last test report is successful: (no test reports found)"
          else ret res)
    res
    (match first_outcome comments with Some true => true | _ => false end).
Proof.
  intros w. rewrite bind_run.
  destruct (check_test_reports_log comments res w) as (evs & -> & F & X).
  destruct (first_outcome comments) as [[]|]; cbn beta iota delta [negb].
  - exists evs. rewrite andb_true_r. rewrite X. auto.
  - exists evs. rewrite andb_false_r. rewrite X. auto.
  - eexists (evs ++ [EvPrintErr _])%list. rewrite andb_false_r.
    unfold not_eligible, bind, emit, ret. cbn beta iota.
    unfold record. cbn [fs trace]. rewrite <- app_assoc.
    split; [reflexivity|]. rewrite forallb_app, existsb_app, F, X. auto.
Qed.

Lemma check_pr_eligible_to_merge_log pr_data w :
  exists evs,
    check_pr_eligible_to_merge pr_data w = (Ok (eligible pr_data), record w evs)
    /\ forallb is_message evs = true
    /\ (eligible pr_data = false <-> existsb is_print_err evs = true).
Proof.
  unfold check_pr_eligible_to_merge. rewrite bind_run.
  unfold print_msg at 1, emit at 1. cbn beta iota.
  match goal with |- context [bind ?m ?k ?ww] =>
    assert (H : judges (bind m k) true (eligible pr_data)); [|
      destruct (H ww) as (evs & E & F & X); rewrite E ] end.
  - unfold eligible. rewrite <- !andb_assoc.
    apply judges_bind.
    { destruct (String.eqb _ "develop"); [apply judges_pass|apply judges_fail]. }
    apply judges_bind.
    { destruct (String.eqb _ "success"); [apply judges_pass|].
      destruct (String.eqb _ "pending"); [apply judges_fail|].
      destruct (_ || _); apply judges_fail. }
    apply judges_bind.
    { destruct (String.eqb _ GITHUB_EASYCONFIGS_REPO);
        [apply judges_test_reports|apply judges_skip]. }
    apply judges_bind.
    { rewrite approved_filter_nil.
      destruct (r_user <$> List.filter _ (reviews pr_data));
        [apply judges_fail|apply judges_pass]. }
    rewrite <- (andb_true_r (match milestone _ with Some _ => true | None => false end)).
    apply judges_bind.
    { destruct (milestone (pr_core pr_data)); [apply judges_pass|apply judges_fail]. }
    apply judges_skip.
  - eexists (_ :: evs). split.
    + unfold record. cbn [fs trace]. rewrite <- app_assoc. reflexivity.
    + cbn [forallb existsb is_message is_print_err andb orb]. rewrite X.
      split; [exact F|]. destruct (eligible pr_data); simpl; intuition congruence.
Qed.

(** X8: check_pr_eligible_to_merge only prints (standard output,
    standard error, warnings): it sends nothing and leaves the disk
    alone. Its verdict is negative exactly when it printed a line to
    standard error. *)
Theorem eligibility_check_only_prints pr_data w :
  exists evs,
    check_pr_eligible_to_merge pr_data w = (Ok (eligible pr_data), record w evs)
    /\ forallb is_message evs = true
    /\ (eligible pr_data = false <-> existsb is_print_err evs = true).
Proof. exact (check_pr_eligible_to_merge_log pr_data w). Qed.

(** ** Merging *)

Lemma merge_pr_checked env cfg pr user pr_data w w1 :
  github_user cfg = Some user ->
  fetch_pr_data_full env cfg pr (pr_target_account cfg) (pr_target_repo cfg)
    (Some user) w = (Ok pr_data, w1) ->
  user_login (pr_core pr_data) <> user ->
  exists evs,
    forallb is_message evs = true
    /\ merge_pr env cfg pr w
       = (if eligible pr_data || force cfg then
            print_msg ("
Review " +:+ (if force cfg then "FAILed, yet forcibly" else "OK,")
       +:+ " merging pull request!
") ;;;
            post_comment_in_issue env cfg (IssueInt pr)
              ("Going in, thanks @" +:+ user_login (pr_core pr_data) +:+ "!")
              (pr_target_account cfg) (pr_target_repo cfg) (Some user) ;;;
            if dry_run_mode cfg then
              print_msg ("[DRY RUN] Merged " +:+ pr_target_account cfg +:+ "/"
                 +:+ pr_target_repo cfg +:+ " pull request #" +:+ pretty pr)
            else
              github_api_put_request env cfg (merge_request cfg pr pr_data)
                (Some user) ;;;
              ret tt
          else print_warning NOT_MERGED_WARNING) (record w1 evs).
Proof.
  intros Huser Hfetch Hlogin. unfold merge_pr. rewrite Huser.
  rewrite bind_run, Hfetch. rewrite bind_run.
  unfold print_msg at 1, emit at 1. cbn beta iota.
  apply String.eqb_neq in Hlogin. rewrite Hlogin.
  rewrite bind_run.
  match goal with |- context [check_pr_eligible_to_merge pr_data ?ww] =>
    destruct (check_pr_eligible_to_merge_log pr_data ww) as (evs & -> & F & _) end.
  eexists (_ :: evs). split; revgoals.
  - unfold record. cbn [fs trace]. rewrite <- app_assoc. reflexivity.
  - cbn [forallb is_message andb]. exact F.
Qed.

(** X9: For a pull request of somebody else that the check finds not
    eligible, merge_pr without --force returns normally having only
    printed after the fetch: no comment is posted and no merge request
    is sent, and the last thing printed is the warning that the PR
    should not be merged. *)
Theorem merge_pr_needs_eligibility_or_force env cfg pr user pr_data w w1 :
  github_user cfg = Some user ->
  fetch_pr_data_full env cfg pr (pr_target_account cfg) (pr_target_repo cfg)
    (Some user) w = (Ok pr_data, w1) ->
  user_login (pr_core pr_data) <> user ->
  eligible pr_data = false ->
  force cfg = false ->
  exists evs,
    merge_pr env cfg pr w = (Ok tt, record w1 evs)
    /\ forallb is_message evs = true
    /\ List.last evs (EvPrint "") = EvWarn NOT_MERGED_WARNING.
Proof.
  intros Huser Hfetch Hlogin Hel Hforce.
  destruct (merge_pr_checked _ _ _ _ _ _ _ Huser Hfetch Hlogin) as (evs & F & ->).
  rewrite Hel, Hforce. cbn [orb].
  exists (evs ++ [EvWarn NOT_MERGED_WARNING])%list.
  split; [|split].
  - unfold print_warning, emit, record. cbn [fs trace].
    rewrite <- app_assoc. reflexivity.
  - rewrite forallb_app, F. reflexivity.
  - apply List.last_last.
Qed.

Lemma put_request_run env cfg call user w :
  let reply := api_put env call w in
  snd (github_api_put_request env cfg call (Some user) w) = record w [EvApi call]
  /\ (fst (github_api_put_request env cfg call (Some user) w) = Ok reply
      <-> status reply = 200 /\ is_Some (data reply))
  /\ (forall r, fst (github_api_put_request env cfg call (Some user) w) = Ok r ->
      r = reply).
Proof.
  intros reply. unfold github_api_put_request.
  rewrite bind_run, fetch_github_token_run. cbn beta iota.
  unfold bind, ask, emit, ret, raise. cbn beta iota. fold reply.
  destruct (status reply =? 200) eqn:E200.
  - apply Z.eqb_eq in E200. destruct (data reply) as [message|] eqn:Ed.
    + split; [reflexivity|]. split.
      * split; [eauto|reflexivity].
      * intros r H. now inversion H.
    + split; [reflexivity|]. split.
      * split; [discriminate|]. intros [_ [x Hx]]. discriminate.
      * intros r H. discriminate.
  - apply Z.eqb_neq in E200.
    assert (Hno : forall e : Exn,
              Raise e = Ok reply <-> status reply = 200 /\ is_Some (data reply)).
    { intros e. split; [discriminate|]. intros [? _]. contradiction. }
    destruct ((status reply =? 405) || (status reply =? 409));
      [destruct (data reply)|]; (split; [reflexivity|]);
      (split; [apply Hno|]); intros r H; discriminate.
Qed.

Ltac norm_world :=
  unfold record; cbn [fs trace]; rewrite <- ?app_assoc; cbn [app].

Ltac norm_world_in H :=
  unfold record in H; cbn [fs trace] in H; rewrite <- ?app_assoc in H;
  cbn [app] in H.

(** X10: In a real run of merge_pr that goes ahead (PR of somebody else,
    eligible or forced), only messages are printed after the fetch until
    the comment 'Going in, thanks @<author>!' is posted. Only if that
    POST answers 201 is the merge request sent (a PUT with the title and
    head SHA of the PR), right after it, and merge_pr then succeeds
    exactly when the PUT answers 200 with a message in its data (the
    message is read for the log, so a 200 without one raises); when the
    POST answers anything else the run ends with an EasyBuildError after
    the comment and no merge request is sent. *)
Theorem merge_pr_comment_then_merge env cfg pr user pr_data w w1 :
  github_user cfg = Some user ->
  fetch_pr_data_full env cfg pr (pr_target_account cfg) (pr_target_repo cfg)
    (Some user) w = (Ok pr_data, w1) ->
  user_login (pr_core pr_data) <> user ->
  eligible pr_data || force cfg = true ->
  dry_run_mode cfg = false ->
  exists evs,
    forallb is_message evs = true
    /\ let wc := record w1 evs in
       let comment := going_in cfg pr pr_data in
       let merge := merge_request cfg pr pr_data in
       if status (api_post env comment wc) =? HTTP_STATUS_CREATED then
         snd (merge_pr env cfg pr w) = record wc [EvApi comment; EvApi merge]
         /\ (fst (merge_pr env cfg pr w) = Ok tt
             <-> status (api_put env merge (record wc [EvApi comment])) = 200
                 /\ is_Some (data (api_put env merge
                                     (record wc [EvApi comment]))))
       else
         snd (merge_pr env cfg pr w) = record wc [EvApi comment]
         /\ exists msg, fst (merge_pr env cfg pr w) = Raise (EasyBuildError msg).
Proof.
  intros Huser Hfetch Hlogin Hgo Hreal.
  destruct (merge_pr_checked _ _ _ _ _ _ _ Huser Hfetch Hlogin) as (evs & F & Hm).
  rewrite Hgo, Hreal in Hm. rewrite bind_run in Hm.
  unfold print_msg at 1, emit at 1 in Hm. cbn beta iota in Hm.
  rewrite bind_run in Hm.
  set (txt := "Going in, thanks @" +:+ user_login (pr_core pr_data) +:+ "!") in *.
  set (review := EvPrint _) in Hm.
  exists (evs ++ [review; EvPrint (comment_msg (pr_target_repo cfg) pr txt)])%list.
  split.
  { rewrite forallb_app, F. reflexivity. }
  cbn zeta. unfold going_in. fold txt.
  match type of Hm with context [post_comment_in_issue env cfg (IssueInt pr) txt ?a ?r ?u ?ww] =>
    pose proof (post_comment_cases env cfg (IssueInt pr) txt a r u ww Hreal) as Hpost;
    destruct (post_comment_in_issue env cfg (IssueInt pr) txt a r u ww)
      as [[[]|e] w2] eqn:Epost end; clear Epost.
  - destruct Hpost as (n & Hn & -> & Hst). inversion Hn; subst n.
    norm_world_in Hst. norm_world. rewrite Hst.
    cbn [Z.eqb HTTP_STATUS_CREATED Pos.eqb].
    rewrite bind_run in Hm.
    match type of Hm with context [github_api_put_request env cfg ?c ?u ?ww] =>
      destruct (put_request_run env cfg c user ww) as (Hs & Hok & Hr);
      destruct (github_api_put_request env cfg c u ww) as [[r|e] w3] eqn:Eput
    end; cbn [fst snd] in *; subst w3; norm_world_in Hok; norm_world_in Hr; norm_world_in Hm;
      rewrite Hm; cbn [fst snd].
    + split; [reflexivity|]. split; [intros _|reflexivity].
      apply Hok. f_equal. apply Hr. reflexivity.
    + split; [reflexivity|]. split; [discriminate|]. intros Hst2.
      apply Hok in Hst2. discriminate.
  - destruct Hpost as ((msg & ->) & [[Hn _]|(n & Hn & -> & Hst)]);
      [discriminate|]. inversion Hn; subst n.
    norm_world_in Hst. norm_world. norm_world_in Hm.
    apply Z.eqb_neq in Hst. rewrite Hst, Hm. cbn [fst snd].
    split; [reflexivity|eauto].
Qed.

Lemma merge_pr_needs_eligibility_or_force_witness :
  let env := Demo.env (Demo.pull "open" false "toy") true "" in
  let cfg := Demo.cfg "alice" false false in
  eligible (demo_full "toy") = false
  /\ exists evs,
       merge_pr env cfg 42 Demo.w0 = (Ok tt, record demo_fetched evs)
       /\ forallb is_message evs = true
       /\ List.last evs (EvPrint "") = EvWarn NOT_MERGED_WARNING.
Proof.
  intros env cfg. split; [reflexivity|].
  apply (merge_pr_needs_eligibility_or_force env cfg 42 "alice"
           (demo_full "toy") Demo.w0 demo_fetched).
  - reflexivity.
  - vm_compute. reflexivity.
  - discriminate.
  - reflexivity.
  - reflexivity.
Defined.

Lemma merge_pr_comment_then_merge_witness :
  let env := Demo.env (Demo.pull "open" false "toy") true "" in
  let cfg := Demo.cfg "alice" false true in
  let pr_data := demo_full "toy" in
  exists evs,
    forallb is_message evs = true
    /\ let wc := record demo_fetched evs in
       let comment := going_in cfg 42 pr_data in
       let merge := merge_request cfg 42 pr_data in
       if status (api_post env comment wc) =? HTTP_STATUS_CREATED then
         snd (merge_pr env cfg 42 Demo.w0) = record wc [EvApi comment; EvApi merge]
         /\ (fst (merge_pr env cfg 42 Demo.w0) = Ok tt
             <-> status (api_put env merge (record wc [EvApi comment])) = 200
                 /\ is_Some (data (api_put env merge
                                     (record wc [EvApi comment]))))
       else
         snd (merge_pr env cfg 42 Demo.w0) = record wc [EvApi comment]
         /\ exists msg, fst (merge_pr env cfg 42 Demo.w0) = Raise (EasyBuildError msg).
Proof.
  intros env cfg pr_data.
  apply (merge_pr_comment_then_merge env cfg 42 "alice" pr_data Demo.w0
           demo_fetched).
  - reflexivity.
  - vm_compute. reflexivity.
  - discriminate.
  - reflexivity.
  - reflexivity.
Defined.

(** ** Reasons for closing *)

Lemma reasons_for_closing_inv env cfg pr_data w reasons w' :
  reasons_for_closing env cfg pr_data w = (Ok reasons, w') ->
  exists evs last_updated arch obs,
    forallb is_message evs = true
    /\ strptime env (updated_at (pr_core pr_data)) = Some last_updated
    /\ reasons
       = ((if SIX_MONTHS <? now env (record w evs) - last_updated
           then ["inactive"] else [])
          ++ archived_and_obsolete (title (pr_core pr_data)) arch obs)%list.
Proof.
  unfold reasons_for_closing. intros H.
  apply bind_ok_inv in H. destruct H as ([] & wa & Ha & H).
  apply bind_ok_inv in H. destruct H as ([] & wb & Hb & H).
  apply bind_ok_inv in H. destruct H as ([] & wc & Hc & H).
  apply bind_ok_inv in H. destruct H as ([] & wd & Hd & H).
  apply bind_ok_inv in H. destruct H as (last_updated & we & He & H).
  apply bind_ok_inv in H. destruct H as (current & w1 & Hnow & H).
  apply bind_ok_inv in H. destruct H as (files & w2 & Hfetch & H).
  apply bind_ok_inv in H. destruct H as ([arch obs] & w3 & Hloop & H).
  inversion H; subst; clear H.
  assert (Hmsg : forall (m : M unit) w0 w1,
            (m = ret tt \/ exists msg, m = print_msg msg) ->
            m w0 = (Ok tt, w1) ->
            exists evs, w1 = record w0 evs /\ forallb is_message evs = true).
  { intros m w0 w1' [->|[msg ->]] E; inversion E; subst.
    - exists []. now rewrite record_nil.
    - exists [EvPrint msg]. auto. }
  apply Hmsg in Ha; [|destruct (truthy _); eauto].
  apply Hmsg in Hb; [|destruct (List.last _ _); eauto].
  apply Hmsg in Hc; [|destruct (List.last _ _); eauto].
  apply Hmsg in Hd; [|eauto].
  destruct Ha as (e1 & -> & F1). destruct Hb as (e2 & -> & F2).
  destruct Hc as (e3 & -> & F3). destruct Hd as (e4 & -> & F4).
  destruct (strptime env (updated_at (pr_core pr_data))) as [t|] eqn:Et;
    [|discriminate].
  inversion He; subst. inversion Hnow; subst.
  rewrite !record_record.
  exists (e1 ++ e2 ++ e3 ++ e4)%list, last_updated, arch, obs.
  split; [|split; reflexivity].
  rewrite !forallb_app, F1, F2, F3, F4. reflexivity.
Qed.

(** X11: The reasons reasons_for_closing returns are drawn from
    'inactive', 'archived', 'obsolete', in that order and each at most
    once. Each is a key of VALID_CLOSE_PR_REASONS, so looking up their
    texts, as close_pr does, raises no KeyError. *)
Theorem close_reasons_valid env cfg pr_data w reasons w' :
  reasons_for_closing env cfg pr_data w = (Ok reasons, w') ->
  reasons `sublist_of` ["inactive"; "archived"; "obsolete"]
  /\ exists texts,
       Forall2 (fun reason txt => VALID_CLOSE_PR_REASONS reason = Some txt)
         reasons texts
       /\ forall w2,
            map_m (fun reason =>
                     match VALID_CLOSE_PR_REASONS reason with
                     | Some txt => ret txt
                     | None => raise (PyError "KeyError")
                     end) reasons w2
            = (Ok texts, w2).
Proof.
  intros H. apply reasons_for_closing_inv in H.
  destruct H as (evs & t & arch & obs & _ & _ & ->).
  unfold archived_and_obsolete.
  destruct (SIX_MONTHS <? _); destruct arch; destruct (existsb _ obs);
    cbn [app]; (split; [repeat constructor|]);
    eexists; (split; [repeat constructor|reflexivity]).
Qed.

(** X12: When reasons_for_closing returns, 'inactive' is among the
    reasons exactly when more than 180 days lie between the time stamp
    updated_at of the PR and the moment the clock is read; up to that
    moment the run has only printed. *)
Theorem inactive_after_180_days env cfg pr_data w reasons w' :
  reasons_for_closing env cfg pr_data w = (Ok reasons, w') ->
  exists evs last_updated,
    forallb is_message evs = true
    /\ strptime env (updated_at (pr_core pr_data)) = Some last_updated
    /\ ("inactive" ∈ reasons
        <-> 180 * 86400 * 1000000 < now env (record w evs) - last_updated).
Proof.
  intros H. apply reasons_for_closing_inv in H.
  destruct H as (evs & t & arch & obs & F & Ht & ->).
  exists evs, t. split; [exact F|]. split; [exact Ht|].
  change (180 * 86400 * 1000000) with SIX_MONTHS.
  unfold archived_and_obsolete. rewrite <- Z.ltb_lt.
  destruct (SIX_MONTHS <? _); destruct arch; destruct (existsb _ obs);
    cbn [app]; split; intros Hin; try done;
    try apply list_elem_of_here;
    repeat (apply elem_of_cons in Hin; destruct Hin as [Hin|Hin];
            [discriminate|]); inversion Hin.
Qed.

Lemma close_reasons_valid_witness :
  let ttl := "{tools}[GCC/8.2.0] toy v1.0" in
  let env := Demo.env (Demo.pull "open" false ttl) true "" in
  let cfg := Demo.cfg "alice" false false in
  let run := reasons_for_closing env cfg (demo_full ttl) Demo.w0 in
  let reasons := ["obsolete"] in
  fst run = Ok reasons
  /\ reasons `sublist_of` ["inactive"; "archived"; "obsolete"]
  /\ exists texts,
       Forall2 (fun reason txt => VALID_CLOSE_PR_REASONS reason = Some txt)
         reasons texts
       /\ forall w2,
            map_m (fun reason =>
                     match VALID_CLOSE_PR_REASONS reason with
                     | Some txt => ret txt
                     | None => raise (PyError "KeyError")
                     end) reasons w2
            = (Ok texts, w2).
Proof.
  intros ttl env cfg run reasons.
  assert (E : fst run = Ok reasons) by (vm_compute; reflexivity).
  split; [exact E|].
  exact (close_reasons_valid env cfg (demo_full ttl) Demo.w0 reasons (snd run)
           (run_eq run _ E)).
Defined.

Lemma inactive_after_180_days_witness :
  let ttl := "{tools}[GCC/8.2.0] toy v1.0" in
  let env := Demo.env (Demo.pull "open" false ttl) true "" in
  let cfg := Demo.cfg "alice" false false in
  let run := reasons_for_closing env cfg (demo_full ttl) Demo.w0 in
  let reasons := ["obsolete"] in
  fst run = Ok reasons
  /\ exists evs last_updated,
       forallb is_message evs = true
       /\ strptime env (updated_at (pr_core (demo_full ttl))) = Some last_updated
       /\ ("inactive" ∈ reasons
           <-> 180 * 86400 * 1000000
               < now env (record Demo.w0 evs) - last_updated).
Proof.
  intros ttl env cfg run reasons.
  assert (E : fst run = Ok reasons) by (vm_compute; reflexivity).
  split; [exact E|].
  exact (inactive_after_180_days env cfg (demo_full ttl) Demo.w0 reasons
           (snd run) (run_eq run _ E)).
Defined.

(** ** Closing *)

(** X13: close_pr on a pull request whose state is already 'closed'
    raises 'PR #<n> from <account>/<repo> is already closed.' right
    after the fetch: nothing is printed, posted or changed. *)
Theorem close_pr_refuses_closed_pr env cfg pr motivation user pr_data w w1 :
  github_user cfg = Some user ->
  fetch_pr_data_full env cfg pr (pr_target_account cfg) (pr_target_repo cfg)
    (Some user) w = (Ok pr_data, w1) ->
  state (pr_core pr_data) = GITHUB_STATE_CLOSED ->
  close_pr env cfg pr motivation w
  = (Raise (EasyBuildError
       ("PR #" +:+ pretty pr +:+ " from " +:+ pr_target_account cfg +:+ "/"
        +:+ pr_target_repo cfg +:+ " is already closed.")), w1).
Proof.
  intros Huser Hfetch Hstate. unfold close_pr. rewrite Huser.
  rewrite bind_run. unfold closing_comment. rewrite bind_run, Hfetch.
  rewrite Hstate. reflexivity.
Qed.

Lemma closing_comment_reopen env cfg pr motivation user w msg reopen w1 :
  closing_comment env cfg pr motivation user w = (Ok (msg, reopen), w1) ->
  reopen = bool_decide (motivation = Some "closing and reopening to trigger tests").
Proof.
  unfold closing_comment. intros H.
  apply bind_ok_inv in H. destruct H as (pr_data & wa & _ & H).
  destruct (String.eqb _ GITHUB_STATE_CLOSED); [discriminate|].
  apply bind_ok_inv in H. destruct H as ([] & wb & _ & H).
  apply bind_ok_inv in H. destruct H as (m & wc & _ & H).
  inversion H. reflexivity.
Qed.

(** X14: In a real run of close_pr that has composed its closing
    comment, the comment is announced and posted first; what is sent
    after it is a prefix of: state 'closed', then (only when the
    motivation is 'closing and reopening to trigger tests') state
    'open'; and it is all of that when close_pr succeeds. *)
Theorem close_pr_real_sequence env cfg pr motivation user msg reopen w w1 :
  dry_run_mode cfg = false ->
  github_user cfg = Some user ->
  closing_comment env cfg pr motivation user w = (Ok (msg, reopen), w1) ->
  let sequence := (EvApi (set_state cfg pr "closed")
                   :: if reopen then [EvApi (set_state cfg pr "open")] else [])
  in
  reopen = bool_decide (motivation = Some "closing and reopening to trigger tests")
  /\ exists post,
       trace (snd (close_pr env cfg pr motivation w))
       = (trace w1 ++ [EvPrint (comment_msg (pr_target_repo cfg) pr msg);
                       EvApi (closing_note cfg pr msg)] ++ post)%list
       /\ post `prefix_of` sequence
       /\ (fst (close_pr env cfg pr motivation w) = Ok tt -> post = sequence).
Proof.
  intros Hreal Huser Hcc sequence.
  split; [exact (closing_comment_reopen _ _ _ _ _ _ _ _ _ Hcc)|].
  unfold close_pr. rewrite Huser, bind_run, Hcc. cbn beta iota.
  rewrite bind_run.
  pose proof (post_comment_cases env cfg (IssueInt pr) msg
                (pr_target_account cfg) (pr_target_repo cfg) (Some user) w1
                Hreal) as Hpost.
  destruct (post_comment_in_issue env cfg (IssueInt pr) msg
              (pr_target_account cfg) (pr_target_repo cfg) (Some user) w1)
    as [[[]|e] w2].
  2:{ destruct Hpost as (_ & [[Hn _]|(n & Hn & -> & _)]); [discriminate|].
      inversion Hn; subst n. exists []. cbn [fst snd].
      split; [reflexivity|]. split; [apply prefix_nil|discriminate]. }
  destruct Hpost as (n & Hn & -> & _). inversion Hn; subst n.
  rewrite Hreal. rewrite bind_run, fetch_github_token_run. cbn beta iota.
  destruct (keyring_get_password env user _).
  2:{ exists []. cbn [fst snd]. split; [reflexivity|].
      split; [apply prefix_nil|discriminate]. }
  unfold bind, ask, emit, ret, raise. cbn beta iota. cbn [fs trace].
  fold (set_state cfg pr "closed"). fold (set_state cfg pr "open").
  fold (closing_note cfg pr msg).
  match goal with |- context [negb ?b] => destruct b end; cbn [negb].
  2:{ exists [EvApi (set_state cfg pr "closed")]. cbn [fst snd].
      norm_world. split; [reflexivity|].
      split; [|discriminate]. subst sequence.
      exists (if reopen then [EvApi (set_state cfg pr "open")] else []).
      reflexivity. }
  destruct reopen.
  - match goal with |- context [negb ?b] => destruct b end; cbn [negb];
      exists sequence; subst sequence; cbn [fst snd];
      norm_world; (split; [reflexivity|]); split; auto.
  - exists sequence. subst sequence. cbn [fst snd].
    norm_world. split; [reflexivity|]. split; auto.
Qed.

Lemma close_pr_refuses_closed_pr_witness :
  let pull := Demo.pull "closed" false "toy" in
  let env := Demo.env pull true "" in
  let cfg := Demo.cfg "alice" false false in
  close_pr env cfg 42 (Some "superseded") Demo.w0
  = (Raise (EasyBuildError
       ("PR #" +:+ pretty 42 +:+ " from " +:+ pr_target_account cfg +:+ "/"
        +:+ pr_target_repo cfg +:+ " is already closed.")), demo_fetched).
Proof.
  intros pull env cfg.
  apply (close_pr_refuses_closed_pr env cfg 42 (Some "superseded") "alice"
           {| pr_core := pull; status_last_commit := "success";
              issue_comments := []; reviews := [] |} Demo.w0 demo_fetched).
  - reflexivity.
  - vm_compute. reflexivity.
  - reflexivity.
Defined.

Lemma close_pr_real_sequence_witness :
  let env := Demo.env (Demo.pull "open" false "toy") true "" in
  let cfg := Demo.cfg "alice" false false in
  let motivation := Some "closing and reopening to trigger tests" in
  let run := closing_comment env cfg 42 motivation "alice" Demo.w0 in
  exists msg,
    fst run = Ok (msg, true)
    /\ let sequence := (EvApi (set_state cfg 42 "closed")
                        :: if true then [EvApi (set_state cfg 42 "open")] else [])
       in
       true = bool_decide
                (motivation = Some "closing and reopening to trigger tests")
       /\ exists post,
            trace (snd (close_pr env cfg 42 motivation Demo.w0))
            = (trace (snd run)
               ++ [EvPrint (comment_msg (pr_target_repo cfg) 42 msg);
                   EvApi (closing_note cfg 42 msg)] ++ post)%list
            /\ post `prefix_of` sequence
            /\ (fst (close_pr env cfg 42 motivation Demo.w0) = Ok tt ->
                post = sequence).
Proof.
  intros env cfg motivation run. eexists.
  split; [vm_compute; reflexivity|].
  apply (close_pr_real_sequence env cfg 42 motivation "alice" _ true Demo.w0
           (snd run)); [reflexivity|reflexivity|].
  apply (run_eq run). vm_compute. reflexivity.
Defined.

(** ** Hydration *)

Lemma api_get_run {A} env cfg call (get : World -> Reply A) user w :
  github_api_get_request env cfg call get user w
  = (Ok (get w), record w [EvApi call]).
Proof.
  unfold github_api_get_request. rewrite bind_run, fetch_github_token_run.
  reflexivity.
Qed.

(** X15: fetch_pr_data with full=True sends up to four GET requests, in
    this order: the pull request, the status of its head commit, its
    issue comments, its reviews. It yields a record exactly when all
    four answer 200, and the record holds what they answered. Otherwise
    it raises an EasyBuildError at the first request that does not
    answer 200: the requests before it answered 200, it is the last one
    sent, and the later ones are not sent. *)
Theorem hydration_all_or_nothing env cfg pr account repo user w :
  let r0 := api_pull env account repo pr w in
  let sha := head_sha (data r0) in
  let sent := hydration_requests account repo pr sha in
  let r1 := api_commit_status env account repo sha (record w (take 1 sent)) in
  let r2 := api_issue_comments env account repo pr (record w (take 2 sent)) in
  let r3 := api_pull_reviews env account repo pr (record w (take 3 sent)) in
  let statuses := [status r0; status r1; status r2; status r3] in
  match fetch_pr_data_full env cfg pr account repo user w with
  | (Ok pr_data, w') =>
      Forall (fun s => s = HTTP_STATUS_OK) statuses
      /\ pr_data = {| pr_core := data r0; status_last_commit := data r1;
                      issue_comments := data r2; reviews := data r3 |}
      /\ w' = record w sent
  | (Raise e, w') =>
      exists msg n s,
        e = EasyBuildError msg
        /\ Forall (fun s => s = HTTP_STATUS_OK) (take n statuses)
        /\ statuses !! n = Some s
        /\ s <> HTTP_STATUS_OK
        /\ w' = record w (take (S n) sent)
  end.
Proof.
  cbn zeta. unfold fetch_pr_data_full, fetch_pr_data.
  rewrite bind_run, bind_run, api_get_run.
  destruct (status (api_pull env account repo pr w) =? HTTP_STATUS_OK) eqn:E0;
    cbn [negb].
  2:{ apply Z.eqb_neq in E0. cbn. eexists _, 0%nat, _.
      split; [reflexivity|]. split; [constructor|].
      split; [reflexivity|]. split; [exact E0|reflexivity]. }
  cbn beta iota delta [ret]. apply Z.eqb_eq in E0.
  set (pr_data := data (api_pull env account repo pr w)).
  rewrite bind_run, api_get_run.
  match goal with |- context [negb (status ?r =? _)] =>
    destruct (status r =? HTTP_STATUS_OK) eqn:E1 end; cbn [negb].
  2:{ apply Z.eqb_neq in E1. cbn. eexists _, 1%nat, _. rewrite record_record.
      split; [reflexivity|]. split; [repeat constructor; exact E0|].
      split; [reflexivity|]. split; [exact E1|reflexivity]. }
  apply Z.eqb_eq in E1.
  rewrite bind_run, api_get_run, record_record. cbn [app].
  match goal with |- context [negb (status ?r =? _)] =>
    destruct (status r =? HTTP_STATUS_OK) eqn:E2 end; cbn [negb].
  2:{ apply Z.eqb_neq in E2. cbn. eexists _, 2%nat, _. rewrite record_record.
      split; [reflexivity|]. split; [repeat constructor; assumption|].
      split; [reflexivity|]. split; [exact E2|reflexivity]. }
  apply Z.eqb_eq in E2.
  rewrite bind_run, api_get_run, record_record. cbn [app].
  match goal with |- context [negb (status ?r =? _)] =>
    destruct (status r =? HTTP_STATUS_OK) eqn:E3 end; cbn [negb].
  2:{ apply Z.eqb_neq in E3. cbn. eexists _, 3%nat, _. rewrite record_record.
      split; [reflexivity|]. split; [repeat constructor; assumption|].
      split; [reflexivity|]. split; [exact E3|reflexivity]. }
  apply Z.eqb_eq in E3.
  cbn. rewrite record_record.
  split; [repeat constructor; assumption|]. split; reflexivity.
Qed.

(** ** Publication: what is checked before anything is touched *)

Lemma existing_paths_run l w :
  map_m (fun path => present <- os_path_exists path ;; ret (path, present)) l w
  = (Ok ((fun p => (p, bool_decide (is_Some (fs w !! p)))) <$> l), w).
Proof.
  induction l as [|p l IH]; simpl; [reflexivity|].
  rewrite !bind_run. unfold os_path_exists at 1. cbn beta iota.
  unfold ret at 1. cbn beta iota. rewrite bind_run, IH. reflexivity.
Qed.

Lemma non_existing_filter (f : string -> bool) l :
  fst <$> List.filter (fun x : string * bool => negb (snd x))
            ((fun p => (p, f p)) <$> l)
  = List.filter (fun p => negb (f p)) l.
Proof.
  induction l as [|p l IH]; [reflexivity|].
  cbn. destruct (f p); cbn; [exact IH|]. f_equal. exact IH.
Qed.

(** X16: _easyconfigs_pr_common checks its input before it touches
    anything: when a given easyconfig path does not exist it raises 'One
    or more non-existing paths specified: <the missing paths>', and when
    no path of any kind is given it raises 'No paths specified'; in both
    cases the world is left as it was. *)
Theorem pr_common_validates_paths env cfg paths ecs start_branch pr_branch
    start_account commit_msg w :
  let run := _easyconfigs_pr_common env cfg paths ecs start_branch pr_branch
               start_account commit_msg w in
  (missing_paths (fs w) paths <> [] ->
   run = (Raise (EasyBuildError
            ("One or more non-existing paths specified: "
             +:+ Py.join ", " (missing_paths (fs w) paths))), w))
  /\ (p_easyconfigs paths = [] -> p_files_to_delete paths = [] ->
      p_patch_files paths = [] ->
      run = (Raise (EasyBuildError "No paths specified"), w)).
Proof.
  intros run. subst run. unfold _easyconfigs_pr_common, stage_changes.
  rewrite !bind_run, existing_paths_run. cbn beta iota.
  rewrite non_existing_filter. fold (missing_paths (fs w) paths).
  split.
  - intros Hm. destruct (missing_paths (fs w) paths); [contradiction|].
    reflexivity.
  - intros H1 H2 H3. unfold missing_paths. rewrite H1, H2, H3. reflexivity.
Qed.

(** ** Publication: what a staged change carries *)

Lemma returns_ret {A} (a : A) (Q : A -> Prop) : Q a -> returns (ret a) Q.
Proof. intros H w b w' E. inversion E; subst. exact H. Qed.

Lemma returns_raise {A} e (Q : A -> Prop) : returns (raise e) Q.
Proof. intros w b w' E. discriminate. Qed.

Lemma returns_bind {A B} (m : M A) (k : A -> M B) (Q1 : A -> Prop)
    (Q : B -> Prop) :
  returns m Q1 -> (forall a, Q1 a -> returns (k a) Q) -> returns (bind m k) Q.
Proof.
  intros Hm Hk w b w' E. apply bind_ok_inv in E.
  destruct E as (a & w1 & E1 & E2). exact (Hk a (Hm _ _ _ E1) _ _ _ E2).
Qed.

Lemma returns_bind_any {A B} (m : M A) (k : A -> M B) (Q : B -> Prop) :
  (forall a, returns (k a) Q) -> returns (bind m k) Q.
Proof.
  intros Hk. apply returns_bind with (Q1 := fun _ => True); [done|auto].
Qed.

Lemma returns_unless_all_empty {A B C D} (l1 : list A) (l2 : list B)
    (l3 : list C) exn (body : M D) (Q : D -> Prop) :
  returns body Q ->
  returns (match l1, l2, l3 with
           | [], [], [] => raise exn
           | _, _, _ => body
           end) Q.
Proof. destruct l1, l2, l3; auto using returns_raise. Qed.

Ltac returns_skip := apply returns_bind_any; intros ?.

Lemma returns_stage_changes env cfg paths ecs start_branch pr_branch
    start_account commit_msg :
  returns (stage_changes env cfg paths ecs start_branch pr_branch
             start_account commit_msg)
    (fun staged =>
       (if truthy_opt commit_msg
        then st_commit_msg staged = str_opt commit_msg
        else p_files_to_delete paths = []
             /\ forallb id (fi_new (st_file_info staged)) = true
             /\ st_commit_msg staged
                = auto_commit_msg paths (st_file_info staged))
       /\ (forall b, pr_branch = Some b -> st_pr_branch staged = b)
       /\ st_target_account staged
          = push_account cfg start_branch start_account
       /\ (p_files_to_delete paths = [] -> st_deleted_paths staged = [])).
Proof.
  unfold stage_changes. returns_skip.
  destruct (fst <$> List.filter _ a) as [|? ?]; [|apply returns_raise].
  apply returns_unless_all_empty.
  returns_skip. returns_skip.
  destruct (negb _); [apply returns_raise|].
  set (sb := match start_branch with None => _ | Some b => _ end).
  assert (Hsb : fst sb = push_account cfg start_branch start_account).
  { subst sb. destruct start_branch; reflexivity. }
  destruct sb as [target_account sb]. cbn [fst] in Hsb.
  returns_skip. returns_skip. returns_skip.
  apply returns_bind_any; intros file_info.
  eapply returns_bind with
    (Q1 := fun cm =>
       if truthy_opt commit_msg then cm = str_opt commit_msg
       else p_files_to_delete paths = []
            /\ forallb id (fi_new file_info) = true
            /\ cm = auto_commit_msg paths file_info).
  { destruct (truthy_opt commit_msg); [now apply returns_ret|].
    destruct (forallb id (fi_new file_info)); [|apply returns_raise].
    destruct (bool_decide _) eqn:Ebd; [|apply returns_raise].
    apply bool_decide_eq_true in Ebd.
    apply returns_ret. split; [exact Ebd|]. split; reflexivity. }
  intros cm Hcm. returns_skip.
  eapply returns_bind with
    (Q1 := fun d => p_files_to_delete paths = [] -> d = []).
  { intros w d w' E Hnil. rewrite Hnil in E. now inversion E. }
  intros deleted Hdel. returns_skip.
  eapply returns_bind with
    (Q1 := fun b => forall b0, pr_branch = Some b0 -> b = b0).
  { intros w b w' E b0 ->. now inversion E. }
  intros branch Hbranch.
  returns_skip. returns_skip. returns_skip. returns_skip. returns_skip.
  apply returns_ret.
  cbn [st_commit_msg st_file_info st_pr_branch st_target_account
       st_deleted_paths].
  split; [exact Hcm|]. split; [exact Hbranch|]. split; [exact Hsb|exact Hdel].
Qed.

Lemma commit_and_push_ok env cfg staged w r w' :
  commit_and_push env cfg staged w = (Ok r, w') ->
  exists pre d c w2,
    r = (st_file_info staged, st_deleted_paths staged, st_git_repo staged,
         st_pr_branch staged, g_out d)
    /\ truthy (g_out d) = true
    /\ trace w2 = (trace w ++ pre
                   ++ [EvGit (st_git_repo staged) (GitDiff true) d;
                       EvGit (st_git_repo staged)
                         (GitCommit (st_commit_msg staged)) c])%list
    /\ Forall plain pre
    /\ push_branch_to_github env cfg (st_git_repo staged)
         (st_target_account staged) (pr_target_repo cfg)
         (st_pr_branch staged) w2 = (Ok tt, w').
Proof.
  unfold commit_and_push. intros H.
  set (prelude := (if extended_dry_run cfg then _ else ret tt) : M unit) in H.
  assert (Hpre : emits plain prelude) by (subst prelude; plain_auto).
  apply bind_ok_inv in H. destruct H as ([] & w1 & E1 & H).
  destruct (Hpre w) as (pre & Epre & Fpre). rewrite E1 in Epre.
  cbn [snd] in Epre.
  apply bind_ok_inv in H. destruct H as (d & wd & Ed & H).
  rewrite git_call_run in Ed.
  destruct (g_error (fst (git env (st_git_repo staged) (GitDiff true) w1)))
    eqn:Eerr; [discriminate|].
  inversion Ed; subst d wd; clear Ed.
  set (d := fst (git env (st_git_repo staged) (GitDiff true) w1)) in *.
  destruct (truthy (g_out d)) eqn:Eout; cbn [negb] in H; [|discriminate].
  apply bind_ok_inv in H. destruct H as (c & wc & Ec & H).
  rewrite git_call_run in Ec.
  match type of Ec with context [g_error ?x] =>
    destruct (g_error x) eqn:Ecerr; [discriminate|] end.
  inversion Ec; subst c wc; clear Ec.
  apply bind_ok_inv in H. destruct H as ([] & wp & Ep & H).
  inversion H; subst; clear H.
  eexists pre, d, _, _. split; [reflexivity|]. split; [exact Eout|].
  split; [|split; [exact Fpre|exact Ep]].
  cbn [trace]. rewrite Epre, <- !app_assoc. reflexivity.
Qed.

(** X17: When _easyconfigs_pr_common succeeds although no commit message
    was given, nothing was deleted and every easyconfig is new, and the
    commit that was made carries the derived message 'adding
    easyconfigs: <file names>' (followed by ' and patches: <file names>'
    when patches are given). *)
Theorem auto_commit_msg_only_for_additions env cfg paths ecs start_branch
    pr_branch start_account commit_msg w file_info deleted git_repo branch
    diff_stat w' :
  truthy_opt commit_msg = false ->
  _easyconfigs_pr_common env cfg paths ecs start_branch pr_branch
    start_account commit_msg w
  = (Ok (file_info, deleted, git_repo, branch, diff_stat), w') ->
  p_files_to_delete paths = [] /\ deleted = []
  /\ forallb id (fi_new file_info) = true
  /\ exists reply,
       EvGit git_repo (GitCommit (auto_commit_msg paths file_info)) reply
       ∈ trace w'.
Proof.
  intros Hmsg H. unfold _easyconfigs_pr_common in H.
  apply bind_ok_inv in H. destruct H as (staged & w1 & Hs & H).
  apply returns_stage_changes in Hs. rewrite Hmsg in Hs.
  destruct Hs as ((Hdel & Hnew & Hcm) & _ & _ & Hnil).
  apply commit_and_push_ok in H.
  destruct H as (pre & d & c & w2 & Hr & _ & Ht & _ & Hpush).
  inversion Hr; subst; clear Hr.
  split; [exact Hdel|]. split; [exact (Hnil Hdel)|]. split; [exact Hnew|].
  exists c.
  destruct (no_diff_stat_push env cfg (st_git_repo staged)
              (st_target_account staged) (pr_target_repo cfg)
              (st_pr_branch staged) w2) as (evs & E & _).
  rewrite Hpush in E. cbn [snd] in E. rewrite E, Ht, Hcm.
  apply elem_of_app. left. apply elem_of_app. right.
  apply elem_of_app. right. right. left.
Qed.

Lemma auto_commit_msg_only_for_additions_witness :
  let env := Demo.env (Demo.pull "open" false "toy") true " 1 file changed" in
  let cfg := Demo.cfg "alice" false false in
  let run := _easyconfigs_pr_common env cfg Demo.paths None None None
               (Some "easybuilders") None Demo.home in
  let file_info := {| fi_ecs := [Demo.toy "1.0"];
                      fi_paths_in_repo := ["/home/alice/toy-1.0.eb"];
                      fi_new := [true] |} in
  let git_repo := "/tmp/git-working-dir0/easybuild-easyconfigs" in
  fst run = Ok (file_info, [], git_repo, "20190102030405_new_pr_toy10",
                " 1 file changed")
  /\ auto_commit_msg Demo.paths file_info = "adding easyconfigs: toy-1.0.eb"
  /\ p_files_to_delete Demo.paths = [] /\ [] = ([] : list string)
  /\ forallb id (fi_new file_info) = true
  /\ exists reply,
       EvGit git_repo (GitCommit (auto_commit_msg Demo.paths file_info)) reply
       ∈ trace (snd run).
Proof.
  intros env cfg run file_info git_repo.
  assert (E : fst run = Ok (file_info, [], git_repo,
                            "20190102030405_new_pr_toy10", " 1 file changed"))
    by (vm_compute; reflexivity).
  split; [exact E|]. split; [vm_compute; reflexivity|].
  exact (auto_commit_msg_only_for_additions env cfg Demo.paths None None None
           (Some "easybuilders") None Demo.home file_info [] git_repo
           "20190102030405_new_pr_toy10" " 1 file changed" (snd run)
           eq_refl (run_eq run _ E)).
Defined.

(** ** The head label of a pull request *)

Lemma split_nonempty c s : Py.split c s <> [].
Proof.
  destruct s as [|c' s']; simpl; [discriminate|].
  destruct (Ascii.eqb c' c); [discriminate|].
  destruct (Py.split c s'); discriminate.
Qed.

Lemma join_cons sep x l :
  l <> [] -> Py.join sep (x :: l) = x +:+ sep +:+ Py.join sep l.
Proof. destruct l; [contradiction|reflexivity]. Qed.

Lemma join_split c s : Py.join (String c "") (Py.split c s) = s.
Proof.
  induction s as [|c' s' IH]; simpl; [reflexivity|].
  destruct (Ascii.eqb c' c) eqn:Ec.
  - apply Ascii.eqb_eq in Ec. subst c'.
    rewrite join_cons by apply split_nonempty. rewrite IH. reflexivity.
  - destruct (Py.split c s') as [|hd tl] eqn:Es.
    + exfalso. now apply (split_nonempty c s').
    + destruct tl as [|t tl].
      * simpl in *. now rewrite IH.
      * rewrite join_cons in * by discriminate. rewrite <- IH. reflexivity.
Qed.

Lemma split_head_no_sep c s :
  Py.contains (List.hd "" (Py.split c s)) (String c "") = false.
Proof.
  induction s as [|c' s' IH]; simpl; [reflexivity|].
  destruct (Ascii.eqb c' c) eqn:Ec; [reflexivity|].
  destruct (Py.split c s') as [|hd tl] eqn:Es.
  - exfalso. now apply (split_nonempty c s').
  - simpl in *. rewrite IH, orb_false_r.
    destruct (ascii_dec c c') as [->|]; [|reflexivity].
    now rewrite Ascii.eqb_refl in Ec.
Qed.

(** X18: det_account_branch_for_pr splits the head label of the pull
    request at its first colon: the account it returns holds no colon
    and the label is <account>:<branch>; for a label without a colon the
    account is the label and the branch is empty. *)
Theorem det_account_branch_splits_label env cfg pr_id user w account branch w' :
  det_account_branch_for_pr env cfg pr_id user w = (Ok (account, branch), w') ->
  let label := head_label (data (api_pull env (pr_target_account cfg)
                                   (pr_target_repo cfg) pr_id w)) in
  Py.contains account ":" = false
  /\ (label = account +:+ ":" +:+ branch
      \/ (label = account /\ branch = "")).
Proof.
  intros H label. unfold det_account_branch_for_pr in H.
  destruct (match user with None => github_user cfg | Some u => Some u end)
    as [u|]; [|discriminate].
  apply bind_ok_inv in H. destruct H as (pr_data & w1 & Hf & H).
  assert (Hd : pr_data = data (api_pull env (pr_target_account cfg)
                                 (pr_target_repo cfg) pr_id w)).
  { unfold fetch_pr_data in Hf. rewrite bind_run, api_get_run in Hf.
    destruct (negb _); [discriminate|]. now inversion Hf. }
  apply bind_ok_inv in H. destruct H as ([] & w2 & _ & H).
  inversion H; subst; clear H. fold label.
  split; [apply split_head_no_sep|].
  pose proof (join_split ":"%char label) as Hj.
  destruct (Py.split ":" label) as [|a [|b rest]] eqn:Es.
  - exfalso. now apply (split_nonempty ":"%char label).
  - right. simpl in *. auto.
  - left. rewrite join_cons in Hj by discriminate. simpl. now rewrite <- Hj.
Qed.

Lemma det_account_branch_splits_label_witness :
  let env := Demo.env (Demo.pull "open" false "toy") true "" in
  let cfg := Demo.cfg "alice" false false in
  let run := det_account_branch_for_pr env cfg 42 None Demo.w0 in
  fst run = Ok ("bob", "toy")
  /\ let label := head_label (data (api_pull env (pr_target_account cfg)
                                      (pr_target_repo cfg) 42 Demo.w0)) in
     Py.contains "bob" ":" = false
     /\ (label = "bob" +:+ ":" +:+ "toy" \/ (label = "bob" /\ "toy" = "")).
Proof.
  intros env cfg run.
  assert (E : fst run = Ok ("bob", "toy")) by (vm_compute; reflexivity).
  split; [exact E|].
  exact (det_account_branch_splits_label env cfg 42 None Demo.w0 "bob" "toy"
           (snd run) (run_eq run _ E)).
Defined.

(** ** Updating a pull request *)

Lemma plain_det_account_branch env cfg pr_id user :
  emits plain (det_account_branch_for_pr env cfg pr_id user).
Proof. unfold det_account_branch_for_pr. plain_auto. Qed.

Lemma plain_is_quiet evs : Forall plain evs -> Forall quiet evs.
Proof. intros H. eapply Forall_impl; [exact H|apply plain_quiet]. Qed.

(** X19: A real update_pr that succeeds has pushed to the account and
    branch named by the head label of the pull request: after steps that
    change nothing on the forge, the remote github_<account>_<salt> is
    created for git@github.com:<account>/<pr_target_repo>.git, the push
    is announced and <branch> is pushed to it without error; only
    messages follow. *)
Theorem update_pr_pushes_to_pr_branch env cfg pr_id paths ecs commit_msg w w' :
  dry_run_mode cfg = false ->
  update_pr env cfg pr_id paths ecs commit_msg w = (Ok tt, w') ->
  exists account branch w1 git_repo salt created pushed summary before after,
    det_account_branch_for_pr env cfg pr_id None w = (Ok (account, branch), w1)
    /\ (let remote := "github_" +:+ account +:+ "_" +:+ salt in
        trace w' = (trace w ++ before ++
          [EvGit git_repo
             (GitCreateRemote remote (ssh_url account (pr_target_repo cfg)))
             created;
           EvPrint (push_msg branch remote account (pr_target_repo cfg));
           EvGit git_repo (GitPush remote branch) pushed] ++ after)%list)
    /\ g_error pushed = None
    /\ g_info pushed = Some (false, summary)
    /\ Forall quiet before
    /\ forallb is_message after = true.
Proof.
  intros Hreal H. unfold update_pr in H.
  destruct commit_msg as [m|]; [|discriminate].
  apply bind_ok_inv in H. destruct H as ([account branch] & w1 & Hab & H).
  apply bind_ok_inv in H.
  destruct H as ([[[[file_info deleted] repo] br] diff_stat] & w2 & Hc & H).
  unfold _easyconfigs_pr_common in Hc.
  apply bind_ok_inv in Hc. destruct Hc as (staged & ws & Hs & Hc).
  pose proof (returns_stage_changes _ _ _ _ _ _ _ _ _ _ _ Hs)
    as (_ & Hbr & Hacct & _).
  specialize (Hbr branch eq_refl). cbn [push_account str_opt] in Hacct.
  apply commit_and_push_ok in Hc.
  destruct Hc as (pre & d & c & wp & Hr & _ & Ht & Fpre & Hpush).
  rewrite Hbr, Hacct in Hpush.
  pose proof (push_branch_cases env cfg (st_git_repo staged) account
                (pr_target_repo cfg) branch wp Hreal) as Hout.
  rewrite Hpush in Hout.
  destruct Hout as (salt & created & pushed & summary & Htp & _ & Hpe & Hpi).
  destruct (plain_det_account_branch env cfg pr_id None w) as (e0 & E0 & F0).
  rewrite Hab in E0. cbn [snd] in E0.
  destruct (plain_stage_changes env cfg paths ecs (Some branch) (Some branch)
              (Some account) (Some m) w1) as (e1 & E1 & F1).
  rewrite Hs in E1. cbn [snd] in E1.
  apply bind_ok_inv in H. destruct H as ([] & w3 & Hp1 & Hp2).
  unfold print_msg, emit in Hp1, Hp2. inversion Hp1; subst w3; clear Hp1.
  inversion Hp2; subst w'; clear Hp2. cbn [trace].
  exists account, branch, w1, (st_git_repo staged), salt, created, pushed,
    summary.
  eexists (e0 ++ e1 ++ pre ++ [_; _])%list, [_; _].
  split; [exact Hab|]. split.
  { cbn zeta in *. rewrite Htp, Ht, E1, E0, <- !app_assoc. reflexivity. }
  split; [exact Hpe|]. split; [exact Hpi|]. split; [|reflexivity].
  rewrite !Forall_app. repeat split; try (now apply plain_is_quiet).
  repeat constructor.
Qed.

(** X20: With the dry-run option set, merge_pr, _easyconfigs_pr_common
    and update_pr send no comment, no state change, no merge request and
    no push, whatever the forge and git answer. *)
Theorem dry_run_entry_points env cfg :
  dry_run_mode cfg = true ->
  (forall pr, emits quiet (merge_pr env cfg pr))
  /\ (forall paths ecs start_branch pr_branch start_account commit_msg,
        emits quiet (_easyconfigs_pr_common env cfg paths ecs start_branch
                       pr_branch start_account commit_msg))
  /\ (forall pr_id paths ecs commit_msg,
        emits quiet (update_pr env cfg pr_id paths ecs commit_msg)).
Proof.
  intros Hdry.
  assert (Hpush : forall git_repo account repo branch,
            emits quiet (push_branch_to_github env cfg git_repo account repo
                           branch)).
  { intros. eapply emits_weaken; [apply plain_quiet|].
    now apply quiet_push_dry. }
  assert (Hcomment : forall issue txt account repo user,
            emits quiet (post_comment_in_issue env cfg issue txt account repo
                           user)).
  { intros. eapply emits_weaken; [apply plain_quiet|].
    now apply quiet_post_comment_dry. }
  assert (Hcommon : forall paths ecs start_branch pr_branch start_account
                      commit_msg,
            emits quiet (_easyconfigs_pr_common env cfg paths ecs start_branch
                           pr_branch start_account commit_msg)).
  { intros. unfold _easyconfigs_pr_common. apply emits_bind.
    - eapply emits_weaken; [apply plain_quiet|]. apply plain_stage_changes.
    - intros staged. unfold commit_and_push.
      emits_auto; try (intros; reflexivity). }
  split; [|split; [exact Hcommon|]].
  - intros pr. unfold merge_pr. rewrite Hdry.
    destruct (github_user cfg); [|emits_auto].
    apply emits_bind.
    { eapply emits_weaken; [apply plain_quiet|].
      apply plain_fetch_pr_data_full. }
    intros pr_data. apply emits_bind; [emits_auto; reflexivity|]. intros _.
    destruct (String.eqb _ _); [emits_auto|].
    apply emits_bind.
    { eapply emits_weaken; [apply plain_quiet|].
      apply plain_check_pr_eligible_to_merge. }
    intros eligible. destruct (eligible || force cfg);
      emits_auto; try reflexivity.
  - intros pr_id paths ecs commit_msg. unfold update_pr.
    destruct commit_msg; [|emits_auto].
    apply emits_bind.
    { eapply emits_weaken; [apply plain_quiet|].
      apply plain_det_account_branch. }
    intros [account branch]. apply emits_bind; [apply Hcommon|].
    intros [[[[? ?] ?] ?] diff_stat]. emits_auto; reflexivity.
Qed.

Lemma update_pr_pushes_to_pr_branch_witness :
  let env := Demo.env (Demo.pull "open" false "toy") true " 1 file changed" in
  let cfg := Demo.cfg "alice" false false in
  let run := update_pr env cfg 42 Demo.paths None (Some "update toy") Demo.home in
  fst run = Ok tt
  /\ exists account branch w1 git_repo salt created pushed summary before after,
       det_account_branch_for_pr env cfg 42 None Demo.home
       = (Ok (account, branch), w1)
       /\ (let remote := "github_" +:+ account +:+ "_" +:+ salt in
           trace (snd run) = (trace Demo.home ++ before ++
             [EvGit git_repo
                (GitCreateRemote remote (ssh_url account (pr_target_repo cfg)))
                created;
              EvPrint (push_msg branch remote account (pr_target_repo cfg));
              EvGit git_repo (GitPush remote branch) pushed] ++ after)%list)
       /\ g_error pushed = None
       /\ g_info pushed = Some (false, summary)
       /\ Forall quiet before
       /\ forallb is_message after = true.
Proof.
  intros env cfg run.
  assert (E : fst run = Ok tt) by (vm_compute; reflexivity).
  split; [exact E|].
  exact (update_pr_pushes_to_pr_branch env cfg 42 Demo.paths None
           (Some "update toy") Demo.home (snd run) eq_refl (run_eq run _ E)).
Defined.

Lemma dry_run_entry_points_witness :
  let env := Demo.env (Demo.pull "open" false "toy") true " 1 file changed" in
  let cfg := Demo.cfg "alice" true true in
  dry_run_mode cfg = true
  /\ (forall pr, emits quiet (merge_pr env cfg pr))
  /\ (forall paths ecs start_branch pr_branch start_account commit_msg,
        emits quiet (_easyconfigs_pr_common env cfg paths ecs start_branch
                       pr_branch start_account commit_msg))
  /\ (forall pr_id paths ecs commit_msg,
        emits quiet (update_pr env cfg pr_id paths ecs commit_msg)).
Proof.
  intros env cfg. split; [reflexivity|].
  exact (dry_run_entry_points env cfg eq_refl).
Defined.

(** ** Token validation *)



(** ** The GitHub file system *)

Lemma string_app_assoc (a b c : string) : (a +:+ b) +:+ c = a +:+ b +:+ c.
Proof.
  induction a as [|x a IH]; [reflexivity|].
  change (String x ((a +:+ b) +:+ c) = String x (a +:+ b +:+ c)).
  now rewrite IH.
Qed.

Lemma py_join_app sep l1 l2 :
  l1 <> [] -> l2 <> [] ->
  Py.join sep (l1 ++ l2) = Py.join sep l1 +:+ sep +:+ Py.join sep l2.
Proof.
  intros H1 H2. induction l1 as [|x l1 IH]; [contradiction|].
  destruct l1 as [|y l1].
  - simpl. destruct l2; [contradiction|reflexivity].
  - change ((x :: y :: l1) ++ l2)%list with (x :: (y :: l1) ++ l2)%list.
    rewrite join_cons by (simpl; discriminate). rewrite IH by discriminate.
    rewrite (join_cons sep x (y :: l1)) by discriminate.
    rewrite !string_app_assoc. reflexivity.
Qed.

Lemma py_join_flatten sep l1 l2 l3 :
  l2 <> [] ->
  Py.join sep (l1 ++ Py.join sep l2 :: l3) = Py.join sep (l1 ++ l2 ++ l3).
Proof.
  intros H2. destruct l1 as [|x l1], l3 as [|z l3].
  - simpl. now rewrite app_nil_r.
  - simpl app. rewrite join_cons by discriminate.
    now rewrite py_join_app by (auto; discriminate).
  - rewrite app_nil_r.
    rewrite !py_join_app by (auto; discriminate). reflexivity.
  - rewrite py_join_app by discriminate.
    rewrite (join_cons sep (Py.join sep l2)) by discriminate.
    rewrite (py_join_app sep (x :: l1)) by
      first [discriminate
            | destruct l2; [contradiction | simpl; discriminate]].
    rewrite (py_join_app sep l2) by (auto; discriminate). reflexivity.
Qed.

(** X22: Githubfs.join can be applied in steps: joining a path that was
    itself obtained with join gives the same path as joining all the
    components at once; empty and None components are dropped at either
    level. *)
Theorem githubfs_join_nested before inner after :
  Githubfs.join (before ++ [Some (Githubfs.join inner)] ++ after)
  = Githubfs.join (before ++ inner ++ after).
Proof.
  unfold Githubfs.join. rewrite !flat_map_app. cbn [flat_map].
  rewrite app_nil_r.
  set (keep := fun x : option string => _).
  destruct (flat_map keep inner) as [|x kept] eqn:Ek.
  - reflexivity.
  - assert (Ht : truthy (Py.join URL_SEPARATOR (x :: kept)) = true).
    { assert (Hall : Forall (fun s => truthy s = true) (flat_map keep inner)).
      { clear. induction inner as [|[s|] inner IH]; simpl; auto.
        destruct (truthy s) eqn:E; simpl; auto. }
      rewrite Ek in Hall. inversion Hall as [|? ? Hx _]; subst.
      destruct kept as [|y kept]; simpl; [exact Hx|].
      destruct x; [discriminate|reflexivity]. }
    rewrite Ht. apply py_join_flatten. discriminate.
Qed.

(** X23: Githubfs.isdir holds of a list and of a dict whose 'type' is
    'dir', and of nothing else; Githubfs.isfile holds of a dict whose
    'type' is 'file', and of nothing else; nothing is both a directory
    and a file. *)
Theorem githubfs_dir_or_file githubobj :
  (Githubfs.isdir githubobj = true <->
   (exists items, githubobj = Githubfs.ObjList items)
   \/ exists fields, githubobj = Githubfs.ObjDict fields
                     /\ fields !! "type" = Some (Githubfs.VStr "dir"))
  /\ (Githubfs.isfile githubobj = true <->
      exists fields, githubobj = Githubfs.ObjDict fields
                     /\ fields !! "type" = Some (Githubfs.VStr "file"))
  /\ Githubfs.isdir githubobj && Githubfs.isfile githubobj = false.
Proof.
  assert (Hv : forall v s, Githubfs.value_eqb v s = true <-> v = Githubfs.VStr s).
  { intros [s'|sh] s; simpl.
    - rewrite String.eqb_eq. split; [now intros ->|now inversion 1].
    - split; discriminate. }
  unfold Githubfs.isdir, Githubfs.isfile, Githubfs.GITHUB_DIR_TYPE,
    Githubfs.GITHUB_FILE_TYPE.
  destruct githubobj as [items|fields|s|]; cbn.
  - split; [|split; [|reflexivity]].
    + split; eauto.
    + split; [discriminate|]. intros (f & E & _). discriminate.
  - destruct (fields !! "type") as [v|] eqn:Et; cbn.
    + split; [|split].
      * rewrite Hv. split.
        -- intros ->. right. eauto.
        -- intros [(i & E)|(f & E & Hf)]; [discriminate|].
           inversion E; subst. congruence.
      * rewrite Hv. split.
        -- intros ->. eauto.
        -- intros (f & E & Hf). inversion E; subst. congruence.
      * destruct v as [s'|sh]; cbn; [|reflexivity].
        destruct (String.eqb s' "dir") eqn:E1; [|reflexivity].
        apply String.eqb_eq in E1. subst. reflexivity.
    + split; [|split; [|reflexivity]].
      * split; [discriminate|].
        intros [(i & E)|(f & E & Hf)]; [discriminate|].
        inversion E; subst. congruence.
      * split; [discriminate|]. intros (f & E & Hf).
        inversion E; subst. congruence.
  - split; [|split; [|reflexivity]].
    + split; [discriminate|]. intros [(i & E)|(f & E & _)]; discriminate.
    + split; [discriminate|]. intros (f & E & _). discriminate.
  - split; [|split; [|reflexivity]].
    + split; [discriminate|]. intros [(i & E)|(f & E & _)]; discriminate.
    + split; [discriminate|]. intros (f & E & _). discriminate.
Qed.

(** ** Walking a repository *)



Lemma walk_dirs_modes walk_td walk_bu top dirs :
  (forall p, snd (walk_td p) = snd (walk_bu p)
             /\ (snd (walk_td p) = Githubfs.Done ->
                 fst (walk_td p) ≡ₚ fst (walk_bu p))) ->
  snd (Githubfs.walk_dirs walk_td top dirs)
  = snd (Githubfs.walk_dirs walk_bu top dirs)
  /\ (snd (Githubfs.walk_dirs walk_td top dirs) = Githubfs.Done ->
      fst (Githubfs.walk_dirs walk_td top dirs)
      ≡ₚ fst (Githubfs.walk_dirs walk_bu top dirs)).
Proof.
  intros H. induction dirs as [|name rest IH]; simpl; [auto|].
  destruct (H (Some (Githubfs.join [top; Some name]))) as [He Hp].
  destruct (walk_td (Some (Githubfs.join [top; Some name]))) as [ys e].
  destruct (walk_bu (Some (Githubfs.join [top; Some name]))) as [ys' e'].
  cbn [fst snd] in *. subst e'.
  destruct e; cbn [fst snd]; try (split; [reflexivity|discriminate]).
  destruct IH as [IHe IHp].
  destruct (Githubfs.walk_dirs walk_td top rest) as [zs e].
  destruct (Githubfs.walk_dirs walk_bu top rest) as [zs' e'].
  cbn [fst snd] in *. subst e'. split; [reflexivity|].
  intros Hd. rewrite (Hp eq_refl), (IHp Hd). reflexivity.
Qed.

(** X25: A top-down and a bottom-up Githubfs.walk of the same directory
    end the same way; when they complete they yield the same triples,
    with the triple of the starting directory first in the top-down walk
    and last in the bottom-up walk. *)
Theorem walk_topdown_bottomup self fuel top :
  let td := Githubfs.walk self fuel top true in
  let bu := Githubfs.walk self fuel top false in
  snd td = snd bu
  /\ (snd td = Githubfs.Done ->
      fst td ≡ₚ fst bu
      /\ exists dirs nondirs below below',
           fst td = (top, dirs, nondirs) :: below
           /\ fst bu = (below' ++ [(top, dirs, nondirs)])%list).
Proof.
  revert top. induction fuel as [|fuel IH]; intros top; simpl.
  { split; [reflexivity|discriminate]. }
  destruct (Githubfs.listdir self top) as [githubobjs|e];
    [|split; [reflexivity|discriminate]].
  destruct (Githubfs.py_iter githubobjs) as [objs|e];
    [|split; [reflexivity|discriminate]].
  destruct (Githubfs.entries objs) as [[dirs nondirs]|e];
    [|split; [reflexivity|discriminate]].
  destruct (walk_dirs_modes (fun p => Githubfs.walk self fuel p true)
              (fun p => Githubfs.walk self fuel p false) top dirs) as [He Hp].
  { intros p. destruct (IH p) as [H1 H2]. split; [exact H1|].
    intros Hd. exact (proj1 (H2 Hd)). }
  destruct (Githubfs.walk_dirs (fun p => Githubfs.walk self fuel p true)
              top dirs) as [ys e].
  destruct (Githubfs.walk_dirs (fun p => Githubfs.walk self fuel p false)
              top dirs) as [ys' e'].
  cbn [fst snd] in *. subst e'.
  destruct e; cbn [fst snd]; try (split; [reflexivity|discriminate]).
  split; [reflexivity|]. intros _. split.
  - rewrite (Hp eq_refl). apply Permutation_cons_append.
  - exists dirs, nondirs, ys, ys'. auto.
Qed.

Lemma walk_dirs_ends walk top dirs :
  (forall name, name ∈ dirs ->
     snd (walk (Some (Githubfs.join [top; Some name]))) <> Githubfs.OutOfFuel) ->
  snd (Githubfs.walk_dirs walk top dirs) <> Githubfs.OutOfFuel.
Proof.
  induction dirs as [|name rest IH]; intros H; simpl; [discriminate|].
  pose proof (H name ltac:(left)) as Hn.
  destruct (walk (Some (Githubfs.join [top; Some name]))) as [ys e].
  cbn [snd] in Hn. destruct e; cbn [snd]; try discriminate; [|contradiction].
  assert (Hr : snd (Githubfs.walk_dirs walk top rest) <> Githubfs.OutOfFuel).
  { apply IH. intros n Hin. apply H. now right. }
  destruct (Githubfs.walk_dirs walk top rest) as [zs e]. exact Hr.
Qed.

(** X26: On a repository that is finite below the starting directory,
    Githubfs.walk ends: the generator is exhausted or raises after
    finitely many listings. *)
Theorem walk_terminates self top topdown :
  finite_below self top ->
  exists fuel, forall fuel', (fuel <= fuel')%nat ->
    snd (Githubfs.walk self fuel' top topdown) <> Githubfs.OutOfFuel.
Proof.
  induction 1 as [top e El|top objs e El Ei|top githubobjs objs e El Ei Ee
                  |top githubobjs objs dirs nondirs El Ei Ee Hsub IH].
  - exists 1%nat. intros [|fuel'] Hle; [lia|]. simpl. rewrite El. discriminate.
  - exists 1%nat. intros [|fuel'] Hle; [lia|]. simpl. rewrite El, Ei.
    discriminate.
  - exists 1%nat. intros [|fuel'] Hle; [lia|]. simpl. rewrite El, Ei, Ee.
    discriminate.
  - assert (Hmax : exists fuel, forall name, name ∈ dirs ->
              forall fuel', (fuel <= fuel')%nat ->
              snd (Githubfs.walk self fuel'
                     (Some (Githubfs.join [top; Some name])) topdown)
              <> Githubfs.OutOfFuel).
    { clear -IH. induction dirs as [|name rest IHd].
      - exists 0%nat. intros name Hin. inversion Hin.
      - destruct (IH name ltac:(left)) as [f1 H1].
        destruct IHd as [f2 H2]. { intros n Hin. apply IH. now right. }
        exists (Nat.max f1 f2). intros n Hin fuel' Hle.
        apply elem_of_cons in Hin. destruct Hin as [->|Hin].
        + apply H1. lia.
        + apply (H2 n Hin). lia. }
    destruct Hmax as [fuel Hfuel]. exists (S fuel).
    intros [|fuel'] Hle; [lia|]. simpl. rewrite El, Ei, Ee.
    pose proof (walk_dirs_ends
                  (fun p => Githubfs.walk self fuel' p topdown) top dirs) as He.
    destruct (Githubfs.walk_dirs _ top dirs) as [ys e]. cbn [snd] in He.
    assert (Hne : e <> Githubfs.OutOfFuel).
    { apply He. intros name Hin. apply (Hfuel name Hin). lia. }
    destruct topdown; cbn [snd]; [exact Hne|].
    destruct e; cbn [snd]; try discriminate. contradiction.
Qed.

Lemma walk_terminates_witness :
  finite_below demo_repo None
  /\ Githubfs.walk demo_repo 3 None true
     = ([(None, ["easybuild"], ["README.rst"]);
         (Some "easybuild", ["easyconfigs"], []);
         (Some "easybuild/easyconfigs", [], ["TEMPLATE.eb"])], Githubfs.Done)
  /\ exists fuel, forall fuel', (fuel <= fuel')%nat ->
       snd (Githubfs.walk demo_repo fuel' None true) <> Githubfs.OutOfFuel.
Proof.
  assert (F : finite_below demo_repo None).
  { eapply finite_listed; [vm_compute; reflexivity..|].
    intros name Hin. apply list_elem_of_singleton in Hin. subst name.
    eapply finite_listed; [vm_compute; reflexivity..|].
    intros name Hin. apply list_elem_of_singleton in Hin. subst name.
    eapply finite_listed; [vm_compute; reflexivity..|].
    intros name Hin. inversion Hin. }
  split; [exact F|]. split; [vm_compute; reflexivity|].
  exact (walk_terminates demo_repo None true F).
Defined.

(** ** The title of a new pull request *)

Lemma nub_from_elem seen l x : x ∈ nub_from seen l <-> x ∈ l /\ x ∉ seen.
Proof.
  revert seen. induction l as [|y l IH]; intros seen; simpl.
  - rewrite !elem_of_nil. tauto.
  - destruct (bool_decide (y ∈ seen)) eqn:E.
    + apply bool_decide_eq_true in E. rewrite IH, elem_of_cons.
      split; [tauto|]. intros [Hx Hn]. split; [|exact Hn].
      destruct Hx as [Hx|Hx]; [congruence|exact Hx].
    + apply bool_decide_eq_false in E. rewrite !elem_of_cons, IH.
      rewrite elem_of_union, elem_of_singleton.
      destruct (decide (x = y)) as [Hxy|Hne]; [rewrite Hxy|]; tauto.
Qed.

Lemma nub_elem l x : x ∈ nub l <-> x ∈ l.
Proof.
  unfold nub. rewrite nub_from_elem. split; [tauto|].
  intros H. split; [exact H|apply not_elem_of_empty].
Qed.

Lemma nub_from_NoDup seen l : NoDup (nub_from seen l).
Proof.
  revert seen. induction l as [|y l IH]; intros seen; simpl.
  - constructor.
  - destruct (bool_decide (y ∈ seen)); [apply IH|].
    constructor; [|apply IH]. rewrite nub_from_elem. intros [_ H].
    apply H, elem_of_union_l, elem_of_singleton. reflexivity.
Qed.

Lemma insort_perm {A} (leb : A -> A -> bool) x l : insort leb x l ≡ₚ x :: l.
Proof.
  induction l as [|y l IH]; simpl; [reflexivity|].
  destruct (leb x y); [reflexivity|]. rewrite IH. apply Permutation_swap.
Qed.

Lemma sorted_perm {A} (leb : A -> A -> bool) l : sorted leb l ≡ₚ l.
Proof.
  induction l as [|x l IH]; simpl; [reflexivity|].
  rewrite insort_perm, IH. reflexivity.
Qed.

Lemma last_elem {A} (l : list A) d : l <> [] -> List.last l d ∈ l.
Proof.
  intros Hl. destruct (@exists_last _ l Hl) as (l' & a & ->).
  rewrite List.last_last, elem_of_app. right.
  apply list_elem_of_singleton. reflexivity.
Qed.

(** An order [R] the comparison decides: the sorted list ascends. *)
Section Ascending.

Context {A} (leb : A -> A -> bool) (R : A -> A -> Prop).
Hypothesis R_refl : forall x, R x x.
Hypothesis R_trans : forall x y z, R x y -> R y z -> R x z.
Hypothesis leb_R : forall x y, leb x y = true -> R x y.
Hypothesis not_leb_R : forall x y, leb x y = false -> R y x.

Lemma insort_ascending x l :
  StronglySorted R l -> StronglySorted R (insort leb x l).
Proof.
  induction 1 as [|y l Hl IH Hy]; simpl.
  - repeat constructor.
  - destruct (leb x y) eqn:E.
    + constructor; [constructor; assumption|].
      constructor; [now apply leb_R|].
      eapply Forall_impl; [exact Hy|]. intros z Hz.
      eapply R_trans; [apply leb_R; exact E|exact Hz].
    + constructor; [exact IH|].
      rewrite insort_perm. constructor; [now apply not_leb_R|exact Hy].
Qed.

Lemma sorted_ascending l : StronglySorted R (sorted leb l).
Proof.
  induction l as [|x l IH]; simpl; [constructor|].
  now apply insort_ascending.
Qed.

Lemma ascending_last l d x :
  StronglySorted R l -> x ∈ l -> R x (List.last l d).
Proof.
  induction 1 as [|y l Hl IH Hy]; intros Hx; [now apply elem_of_nil in Hx|].
  destruct l as [|z l].
  - apply list_elem_of_singleton in Hx. subst. apply R_refl.
  - change (List.last (y :: z :: l) d) with (List.last (z :: l) d).
    apply elem_of_cons in Hx. destruct Hx as [->|Hx]; [|now apply IH].
    rewrite Forall_forall in Hy. apply Hy. now apply last_elem.
Qed.

End Ascending.

Lemma counted_elem l a : a ∈ counted l <-> snd a ∈ l /\ fst a = count (snd a) l.
Proof.
  unfold counted. rewrite sorted_perm, list_elem_of_fmap. split.
  - intros (x & -> & Hx). rewrite nub_elem in Hx. cbn [fst snd]. auto.
  - intros [Hx Hc]. exists (snd a). rewrite nub_elem. split; [|exact Hx].
    destruct a; simpl in *; congruence.
Qed.

Lemma counted_last l d a :
  a ∈ counted l -> (fst a <= fst (List.last (counted l) d))%nat.
Proof.
  apply (ascending_last (fun a b => (fst a <= fst b)%nat)); [lia|].
  unfold counted. apply (sorted_ascending tuple_leb).
  - intros; lia.
  - unfold tuple_leb. intros x y H.
    apply orb_true_iff in H. destruct H as [H|H].
    + apply Nat.ltb_lt in H. lia.
    + apply andb_true_iff in H. destruct H as [H _].
      apply Nat.eqb_eq in H. lia.
  - unfold tuple_leb. intros x y H.
    apply orb_false_iff in H. destruct H as [H _].
    apply Nat.ltb_ge in H. exact H.
Qed.

Lemma most_common_elem l x : x ∈ most_common l <-> most_frequent x l.
Proof.
  unfold most_common, most_frequent. cbn zeta.
  set (top := List.last (counted l) (0%nat, "")).
  rewrite list_elem_of_fmap. split.
  - intros (a & -> & Ha). apply list_elem_of_In, List.filter_In in Ha.
    destruct Ha as [Ha Htop]. apply list_elem_of_In in Ha.
    apply Nat.eqb_eq in Htop.
    pose proof (proj1 (counted_elem l a) Ha) as [Hin Hc].
    split; [exact Hin|]. intros y Hy.
    assert (Hyc : (count y l, y) ∈ counted l) by (apply counted_elem; auto).
    apply (counted_last l (0%nat, "")) in Hyc. fold top in Hyc.
    simpl in Hyc. lia.
  - intros [Hin Hmax]. exists (count x l, x). split; [reflexivity|].
    assert (Hx : (count x l, x) ∈ counted l) by (apply counted_elem; auto).
    apply list_elem_of_In, List.filter_In. split; [now apply list_elem_of_In|].
    apply Nat.eqb_eq. cbn [fst]. fold top.
    pose proof (counted_last l (0%nat, "") _ Hx) as Hle. fold top in Hle.
    cbn [fst] in Hle.
    assert (Htop : top ∈ counted l).
    { apply last_elem. intros E. rewrite E in Hx. now apply elem_of_nil in Hx. }
    apply counted_elem in Htop. destruct Htop as [Ht1 Ht2].
    specialize (Hmax _ Ht1). lia.
Qed.

Lemma filter_fmap_NoDup {A B} (f : A -> B) (p : A -> bool) l :
  NoDup (f <$> l) -> NoDup (f <$> List.filter p l).
Proof.
  induction l as [|a l IH]; simpl; [auto|]. intros H.
  apply NoDup_cons in H. destruct H as [Ha Hl].
  destruct (p a); [|now apply IH]. cbn. apply NoDup_cons. split; [|now apply IH].
  intros Hin. apply Ha. apply list_elem_of_fmap in Hin.
  destruct Hin as (b & E & Hb). apply list_elem_of_fmap. exists b.
  split; [exact E|]. apply list_elem_of_In, List.filter_In in Hb.
  apply list_elem_of_In. tauto.
Qed.

Lemma most_common_NoDup l : NoDup (most_common l).
Proof.
  unfold most_common. cbn zeta. apply filter_fmap_NoDup.
  unfold counted. rewrite sorted_perm, <- list_fmap_compose.
  replace ((snd ∘ (fun x => (count x l, x))) <$> nub l) with (nub l).
  - apply nub_from_NoDup.
  - induction (nub l) as [|x l' IH]; [reflexivity|]. cbn. now rewrite <- IH.
Qed.

(** X27: A title that new_pr generates itself (no title and no commit
    message given) opens with '{<classes>}[<toolchains>] ', where the
    classes and the toolchains are exactly the module class(es) and
    toolchain(s) that occur most often among the easyconfigs of the pull
    request, each named once. Such a title is generated only for a pull
    request with at least one easyconfig, all of them new, that deletes
    nothing. *)
Theorem generated_title_labels dependencies multi_deps file_info deleted_paths
    commit_msg title :
  truthy_opt commit_msg = false ->
  pr_title dependencies multi_deps file_info deleted_paths None commit_msg
  = Ok title ->
  exists classes toolchains rest,
    title = "{" +:+ Py.join "," classes +:+ "}[" +:+ Py.join "," toolchains
            +:+ "] " +:+ rest
    /\ NoDup classes /\ NoDup toolchains
    /\ (forall c, c ∈ classes
          <-> most_frequent c (ec_moduleclass <$> fi_ecs file_info))
    /\ (forall tc, tc ∈ toolchains
          <-> most_frequent tc
                ((fun ec => ec_toolchain_name ec +:+ "/"
                            +:+ ec_toolchain_version ec) <$> fi_ecs file_info))
    /\ fi_ecs file_info <> []
    /\ forallb id (fi_new file_info) = true
    /\ deleted_paths = [].
Proof.
  intros Hmsg H. unfold pr_title in H. rewrite Hmsg in H.
  destruct (negb _ && _ && _) eqn:Hcond; [|discriminate].
  apply andb_true_iff in Hcond. destruct Hcond as [Hcond Hdel].
  apply andb_true_iff in Hcond. destruct Hcond as [Hecs Hnew].
  apply negb_true_iff, bool_decide_eq_false in Hecs.
  apply bool_decide_eq_true in Hdel.
  exists (most_common (ec_moduleclass <$> fi_ecs file_info)),
    (most_common ((fun ec => ec_toolchain_name ec +:+ "/"
                             +:+ ec_toolchain_version ec) <$> fi_ecs file_info)).
  fold (class_label file_info) (toolchain_label file_info).
  assert (Hrest : exists rest,
            title = "{" +:+ class_label file_info +:+ "}["
                    +:+ toolchain_label file_info +:+ "] " +:+ rest).
  { destruct (pyver dependencies multi_deps file_info); inversion H.
    - eauto.
    - rewrite !string_app_assoc. eauto. }
  destruct Hrest as (rest & ->). exists rest.
  split; [reflexivity|].
  split; [apply most_common_NoDup|]. split; [apply most_common_NoDup|].
  split; [intros; apply most_common_elem|].
  split; [intros; apply most_common_elem|]. auto.
Qed.

Lemma generated_title_labels_witness :
  let title := "{tools}[GCC/8.2.0] toy v1.0, bar v0.3, toy v2.0 w/ Python 2.7.15 + 3.7.2" in
  let run := pr_title demo_dependencies (fun _ => []) demo_new_ecs [] None None in
  run = Ok title
  /\ exists classes toolchains rest,
       title = "{" +:+ Py.join "," classes +:+ "}[" +:+ Py.join "," toolchains
               +:+ "] " +:+ rest
       /\ NoDup classes /\ NoDup toolchains
       /\ (forall c, c ∈ classes
             <-> most_frequent c (ec_moduleclass <$> fi_ecs demo_new_ecs))
       /\ (forall tc, tc ∈ toolchains
             <-> most_frequent tc
                   ((fun ec => ec_toolchain_name ec +:+ "/"
                               +:+ ec_toolchain_version ec)
                      <$> fi_ecs demo_new_ecs))
       /\ fi_ecs demo_new_ecs <> []
       /\ forallb id (fi_new demo_new_ecs) = true
       /\ [] = @nil string.
Proof.
  intros title run.
  assert (E : run = Ok title) by (vm_compute; reflexivity).
  split; [exact E|].
  exact (generated_title_labels demo_dependencies (fun _ => []) demo_new_ecs []
           None title eq_refl E).
Defined.

Lemma string_leb_trans (a b c : string) :
  String.leb a b = true -> String.leb b c = true -> String.leb a c = true.
Proof.
  unfold String.leb.
  change String.compare with OrdersEx.String_as_OT.compare.
  intros Hab Hbc.
  destruct (OrdersEx.String_as_OT.compare_spec a b) as [Eab|Lab|Gab];
    try discriminate.
  - unfold OrdersEx.String_as_OT.eq in Eab. now subst.
  - destruct (OrdersEx.String_as_OT.compare_spec b c) as [Ebc|Lbc|Gbc];
      try discriminate.
    + unfold OrdersEx.String_as_OT.eq in Ebc. subst.
      unfold OrdersEx.String_as_OT.lt in Lab. now rewrite Lab.
    + pose proof (StrictOrder_Transitive
                    (R := OrdersEx.String_as_OT.lt) _ _ _ Lab Lbc) as H.
      unfold OrdersEx.String_as_OT.lt in H. now rewrite H.
Qed.

Lemma sorted_strings_ascending l :
  StronglySorted (fun a b => String.leb a b = true) (sorted String.leb l).
Proof.
  apply (sorted_ascending String.leb).
  - apply string_leb_trans.
  - auto.
  - intros x y H. destruct (String.leb_total x y) as [E|E]; congruence.
Qed.

Lemma pyver_elem dependencies multi_deps file_info v :
  v ∈ pyver dependencies multi_deps file_info
  <-> exists ec dep,
        ec ∈ fi_ecs file_info /\ dep ∈ dependencies ec
        /\ dep_name dep = "Python" /\ dep_version dep = v
        /\ (dep_build_only dep = true -> "Python" ∈ multi_deps ec).
Proof.
  unfold pyver. rewrite list_elem_of_In, List.in_flat_map. split.
  - intros (ec & Hec & Hv). apply list_elem_of_In, list_elem_of_fmap in Hv.
    destruct Hv as (dep & -> & Hdep).
    apply list_elem_of_In, List.filter_In in Hdep. destruct Hdep as [Hdep Hp].
    apply andb_true_iff in Hp. destruct Hp as [Hname Hb].
    exists ec, dep.
    split; [now apply list_elem_of_In|]. split; [now apply list_elem_of_In|].
    split; [now apply String.eqb_eq|]. split; [reflexivity|].
    intros Hbo. rewrite Hbo in Hb. cbn in Hb.
    apply negb_true_iff, negb_false_iff, bool_decide_eq_true in Hb. exact Hb.
  - intros (ec & dep & Hec & Hdep & Hname & <- & Hb).
    exists ec. split; [now apply list_elem_of_In|].
    apply list_elem_of_In, list_elem_of_fmap. exists dep.
    split; [reflexivity|]. apply list_elem_of_In, List.filter_In.
    split; [now apply list_elem_of_In|].
    apply andb_true_iff. split; [now apply String.eqb_eq|].
    destruct (dep_build_only dep); [|reflexivity].
    cbn. apply negb_true_iff, negb_false_iff, bool_decide_eq_true. auto.
Qed.

(** X28: A title that new_pr generates itself ends with ' w/ Python
    <versions>' exactly when Python is among the dependencies that
    count: the versions are those of the dependencies named Python, a
    build dependency counting only for an easyconfig that has Python as
    a multi-dep, each version once and in ascending string order. *)
Theorem generated_title_python_versions dependencies multi_deps file_info
    deleted_paths commit_msg title :
  truthy_opt commit_msg = false ->
  pr_title dependencies multi_deps file_info deleted_paths None commit_msg
  = Ok title ->
  exists versions,
    let lead := "{" +:+ class_label file_info +:+ "}["
                +:+ toolchain_label file_info +:+ "] "
                +:+ main_title file_info in
    title = match versions with
            | [] => lead
            | _ => lead +:+ " w/ Python " +:+ Py.join " + " versions
            end
    /\ NoDup versions
    /\ StronglySorted (fun a b => String.leb a b = true) versions
    /\ forall v,
         v ∈ versions
         <-> exists ec dep,
               ec ∈ fi_ecs file_info /\ dep ∈ dependencies ec
               /\ dep_name dep = "Python" /\ dep_version dep = v
               /\ (dep_build_only dep = true -> "Python" ∈ multi_deps ec).
Proof.
  intros Hmsg H. unfold pr_title in H. rewrite Hmsg in H.
  destruct (negb _ && _ && _); [|discriminate].
  exists (sorted String.leb (nub (pyver dependencies multi_deps file_info))).
  cbn zeta. split; [|split; [|split]].
  - destruct (pyver dependencies multi_deps file_info) as [|v l] eqn:E.
    + inversion H. reflexivity.
    + inversion H.
      destruct (sorted String.leb (nub (v :: l))) eqn:Es; [|reflexivity].
      assert (Hv : v ∈ sorted String.leb (nub (v :: l))).
      { rewrite sorted_perm, nub_elem. apply elem_of_cons. auto. }
      rewrite Es in Hv. now apply elem_of_nil in Hv.
  - rewrite sorted_perm. apply nub_from_NoDup.
  - apply sorted_strings_ascending.
  - intros v. rewrite sorted_perm, nub_elem. apply pyver_elem.
Qed.

Lemma generated_title_python_versions_witness :
  let title := "{tools}[GCC/8.2.0] toy v1.0, bar v0.3, toy v2.0 w/ Python 2.7.15 + 3.7.2" in
  let run := pr_title demo_dependencies (fun _ => []) demo_new_ecs [] None None in
  run = Ok title
  /\ exists versions,
       let lead := "{" +:+ class_label demo_new_ecs +:+ "}["
                   +:+ toolchain_label demo_new_ecs +:+ "] "
                   +:+ main_title demo_new_ecs in
       title = match versions with
               | [] => lead
               | _ => lead +:+ " w/ Python " +:+ Py.join " + " versions
               end
       /\ NoDup versions
       /\ StronglySorted (fun a b => String.leb a b = true) versions
       /\ forall v,
            v ∈ versions
            <-> exists ec dep,
                  ec ∈ fi_ecs demo_new_ecs /\ dep ∈ demo_dependencies ec
                  /\ dep_name dep = "Python" /\ dep_version dep = v
                  /\ (dep_build_only dep = true -> "Python" ∈ @nil string).
Proof.
  intros title run.
  assert (E : run = Ok title) by (vm_compute; reflexivity).
  split; [exact E|].
  exact (generated_title_python_versions demo_dependencies (fun _ => [])
           demo_new_ecs [] None title eq_refl E).
Defined.
